(** * Document-portal connector: a shallow embedding of the notebook

    The development follows [document-portal-example/connector-notebook.ipynb]:
    the utility functions ([convert_raw_binary_to_base64_string],
    [convert_timestamp_to_epoch_seconds], [create_batches]), the cell that
    pulls the documents from [sample-docs], the transformer
    [transform_document] and the two upload drivers (bulk and individual).

    Python values are embedded as the inductive [pyval]; a [dict] with
    string keys is a [gmap string pyval]; an exception is the [Raise] branch
    of [result].  Text is a Rocq [string], whose characters are read as the
    code points U+0000..U+00FF; [bytes] is a [list byte]. *)

From Stdlib Require Import ZArith List String Ascii Lia.
From Stdlib.Strings Require Import Byte.
From stdpp Require Import base gmap strings list.

Set Warnings "-register-all".
Local Open Scope Z_scope.

(** ** Python values, exceptions and results *)

Inductive pyval : Type :=
| VNone
| VBool (b : bool)
| VInt (z : Z)
| VStr (s : string)
| VBytes (b : list byte)
| VList (l : list pyval)
| VDict (d : gmap string pyval).

Inductive pyexc : Type :=
| KeyError (key : string)
| ValueError
| TypeError
| UnicodeDecodeError
| RuntimeError (msg : string).

Inductive result (A : Type) : Type :=
| Ok (a : A)
| Raise (e : pyexc).
Arguments Ok {A} a.
Arguments Raise {A} e.

#[export] Instance result_ret : MRet result := fun _ a => Ok a.
#[export] Instance result_bind : MBind result := fun _ _ f r =>
  match r with
  | Ok a => f a
  | Raise e => Raise e
  end.

Definition is_ok {A} (r : result A) : bool :=
  match r with Ok _ => true | Raise _ => false end.

(** ** [range] and slicing *)

(** Number of items of [range(lo, hi, step)] for a non-zero step. *)
Definition range_len (lo hi step : Z) : nat :=
  if 0 <? step then
    if lo <? hi then Z.to_nat ((hi - lo - 1) / step + 1) else 0%nat
  else
    if hi <? lo then Z.to_nat ((lo - hi - 1) / (- step) + 1) else 0%nat.

(** [range(lo, hi, step)]: a zero step is a [ValueError]; item [k] is
    [lo + k * step]. *)
Definition py_range (lo hi step : Z) : result (list Z) :=
  if step =? 0 then Raise ValueError
  else Ok (map (fun k => lo + Z.of_nat k * step) (seq 0 (range_len lo hi step))).

(** A slice bound is clamped to [0 .. len]; a negative one counts from the
    end. *)
Definition slice_bound (len i : Z) : Z :=
  if i <? 0 then Z.max (i + len) 0 else Z.min i len.

Section Batcher.
Context {A : Type}.

(** [l[lo:hi]] *)
Definition py_slice (l : list A) (lo hi : Z) : list A :=
  let len := Z.of_nat (length l) in
  let lo' := slice_bound len lo in
  let hi' := slice_bound len hi in
  take (Z.to_nat (hi' - lo')) (drop (Z.to_nat lo') l).

(** [list(create_batches(lst, batch_size))]: the generator is drained by
    [list] where it is created, so the batches are given as a list. *)
Definition create_batches (lst : list A) (batch_size : Z) : result (list (list A)) :=
  starts ← py_range 0 (Z.of_nat (length lst)) batch_size;
  mret (map (fun i => py_slice lst i (i + batch_size)) starts).

End Batcher.

(** [ceil(n / b)] on integers. *)
Definition ceil_div (n b : Z) : Z := (n + b - 1) / b.

(** ** Base64 ([base64.b64encode], RFC 4648 with padding) *)

Definition Z_of_byte (b : byte) : Z := Z.of_N (Byte.to_N b).

Definition byte_of_Z (z : Z) : byte :=
  match Byte.of_N (Z.to_N z) with
  | Some b => b
  | None => x00
  end.

Definition b64_alphabet : list byte :=
  list_byte_of_string
    "ABCDEFGHIJKLMNOPQRSTUVWXYZabcdefghijklmnopqrstuvwxyz0123456789+/".

Definition b64_pad : byte := "="%byte.

(** The character of a six-bit value. *)
Definition b64_char (v : Z) : byte := nth (Z.to_nat v) b64_alphabet b64_pad.

(** The six-bit value of a character of the alphabet. *)
Fixpoint index_of (c : byte) (tbl : list byte) (i : Z) : option Z :=
  match tbl with
  | [] => None
  | x :: tbl' => if Byte.eqb c x then Some i else index_of c tbl' (i + 1)
  end.

Definition b64_value (c : byte) : option Z := index_of c b64_alphabet 0.

(** Three input bytes are packed into 24 bits and cut into four six-bit
    values; a final group of one or two bytes is padded with [=]. *)
Definition sextet (n : Z) (shift : Z) : byte :=
  b64_char (Z.land (Z.shiftr n shift) 63).

Fixpoint b64encode (bs : list byte) : list byte :=
  match bs with
  | [] => []
  | [a] =>
      let n := Z.shiftl (Z_of_byte a) 16 in
      [sextet n 18; sextet n 12; b64_pad; b64_pad]
  | [a; b] =>
      let n := Z.lor (Z.shiftl (Z_of_byte a) 16) (Z.shiftl (Z_of_byte b) 8) in
      [sextet n 18; sextet n 12; sextet n 6; b64_pad]
  | a :: b :: c :: rest =>
      let n := Z.lor (Z.lor (Z.shiftl (Z_of_byte a) 16) (Z.shiftl (Z_of_byte b) 8))
                     (Z_of_byte c) in
      sextet n 18 :: sextet n 12 :: sextet n 6 :: sextet n 0 :: b64encode rest
  end.

(** The inverse direction, by groups of four characters; [None] on text
    that is not padded base64 over the alphabet.  (Python's [b64decode]
    also skips foreign characters; on padded text over the alphabet the two
    agree.) *)
Definition octet (n : Z) (shift : Z) : byte :=
  byte_of_Z (Z.land (Z.shiftr n shift) 255).

Definition pack4 (v0 v1 v2 v3 : Z) : Z :=
  Z.lor (Z.lor (Z.lor (Z.shiftl v0 18) (Z.shiftl v1 12)) (Z.shiftl v2 6)) v3.

Fixpoint b64decode_bytes (cs : list byte) : option (list byte) :=
  match cs with
  | [] => Some []
  | c0 :: c1 :: c2 :: c3 :: rest =>
      v0 ← b64_value c0;
      v1 ← b64_value c1;
      if Byte.eqb c3 b64_pad then
        match rest with
        | _ :: _ => None
        | [] =>
            if Byte.eqb c2 b64_pad then
              let n := pack4 v0 v1 0 0 in Some [octet n 16]
            else
              v2 ← b64_value c2;
              let n := pack4 v0 v1 v2 0 in Some [octet n 16; octet n 8]
        end
      else
        v2 ← b64_value c2;
        v3 ← b64_value c3;
        out ← b64decode_bytes rest;
        let n := pack4 v0 v1 v2 v3 in
        Some (octet n 16 :: octet n 8 :: octet n 0 :: out)
  | _ => None
  end.

Definition b64decode (s : string) : option (list byte) :=
  b64decode_bytes (list_byte_of_string s).

(** [bytes.decode('utf-8')].  A byte below 0x80 is the code point of the
    same number.  A byte from 0x80 on belongs to a multi-byte sequence,
    which this model of text does not decode: it is reported as
    [UnicodeDecodeError]. *)
Definition is_ascii_byte (b : byte) : bool := Z_of_byte b <? 128.

Definition bytes_decode_utf8 (bs : list byte) : result string :=
  if forallb is_ascii_byte bs then Ok (string_of_list_byte bs)
  else Raise UnicodeDecodeError.

(** [raw_binary] must be bytes: [b64encode] rejects other values with
    [TypeError]. *)
Definition convert_raw_binary_to_base64_string (raw_binary : pyval) : result string :=
  match raw_binary with
  | VBytes b => bytes_decode_utf8 (b64encode b)
  | _ => Raise TypeError
  end.

(** ** Timestamps ([datetime.strptime] and [datetime.timestamp]) *)

(** [strptime] turns the format into a regular expression, compiled with
    IGNORECASE, and matches it at the start of the text.  The directives
    of the format used here need no repetition operator. *)
Inductive regex : Type :=
| Lit (c : ascii)                 (* a literal character, case ignored *)
| Cls (lo hi : ascii)             (* a character class [lo-hi] *)
| Cat (r1 r2 : regex)
| Alt (r1 r2 : regex)             (* r1|r2, r1 tried first *)
| Grp (name : ascii) (r : regex). (* (?P<name>r) *)

Definition code (c : ascii) : Z := Z.of_N (N_of_ascii c).

Definition lower (c : ascii) : Z :=
  if (65 <=? code c) && (code c <=? 90) then code c + 32 else code c.

Definition in_class (lo hi c : ascii) : bool :=
  (code lo <=? code c) && (code c <=? code hi).

(** Named groups found so far: most recent first. *)
Definition groups : Type := list (ascii * list ascii).

(** A backtracking matcher: [k] is what remains to be matched after [r]. *)
Fixpoint re_match {R : Type} (r : regex) (s : list ascii) (g : groups)
    (k : list ascii → groups → option R) : option R :=
  match r with
  | Lit c =>
      match s with
      | x :: s' => if lower x =? lower c then k s' g else None
      | [] => None
      end
  | Cls lo hi =>
      match s with
      | x :: s' => if in_class lo hi x then k s' g else None
      | [] => None
      end
  | Cat r1 r2 => re_match r1 s g (fun s1 g1 => re_match r2 s1 g1 k)
  | Alt r1 r2 =>
      match re_match r1 s g k with
      | Some x => Some x
      | None => re_match r2 s g k
      end
  | Grp name r' =>
      re_match r' s g
        (fun s1 g1 => k s1 ((name, take (length s - length s1) s) :: g1))
  end.

Definition digit : regex := Cls "0" "9".

(** The directives' patterns, as [_strptime.TimeRE] has them. *)
Definition re_Y : regex := Grp "Y" (Cat digit (Cat digit (Cat digit digit))).
Definition re_m : regex :=
  Grp "m" (Alt (Cat (Lit "1") (Cls "0" "2"))
          (Alt (Cat (Lit "0") (Cls "1" "9"))
               (Cls "1" "9"))).
Definition re_d : regex :=
  Grp "d" (Alt (Cat (Lit "3") (Cls "0" "1"))
          (Alt (Cat (Cls "1" "2") digit)
          (Alt (Cat (Lit "0") (Cls "1" "9"))
          (Alt (Cls "1" "9")
               (Cat (Lit " ") (Cls "1" "9")))))).
Definition re_H : regex :=
  Grp "H" (Alt (Cat (Lit "2") (Cls "0" "3"))
          (Alt (Cat (Cls "0" "1") digit)
               digit)).
Definition re_M : regex :=
  Grp "M" (Alt (Cat (Cls "0" "5") digit) digit).
Definition re_S : regex :=
  Grp "S" (Alt (Cat (Lit "6") (Cls "0" "1"))
          (Alt (Cat (Cls "0" "5") digit)
               digit)).

(** The pattern of ['%Y-%m-%dT%H:%M:%SZ']. *)
Definition format_regex : regex :=
  Cat re_Y (Cat (Lit "-") (Cat re_m (Cat (Lit "-") (Cat re_d (Cat (Lit "T")
  (Cat re_H (Cat (Lit ":") (Cat re_M (Cat (Lit ":") (Cat re_S (Lit "Z"))))))))))).

(** [format_regex.match(data_string)]: the first match in priority order,
    with the text left after it. *)
Definition regex_match (s : string) : option (list ascii * groups) :=
  re_match format_regex (list_ascii_of_string s) [] (fun rest g => Some (rest, g)).

Fixpoint group (name : ascii) (g : groups) : list ascii :=
  match g with
  | [] => []
  | (n, v) :: g' => if Ascii.eqb n name then v else group name g'
  end.

(** [int(text)] on the text of a group: optional blanks, then digits. *)
Definition int_of_digits (cs : list ascii) : Z :=
  fold_left (fun acc c => if in_class "0" "9" c then 10 * acc + (code c - 48) else acc)
            cs 0.

Record datetime : Type := mk_datetime {
  year : Z; month : Z; day : Z; hour : Z; minute : Z; second : Z
}.

Definition is_leap (y : Z) : bool :=
  (y mod 4 =? 0) && (negb (y mod 100 =? 0) || (y mod 400 =? 0)).

Definition days_in_month (y m : Z) : Z :=
  if m =? 2 then (if is_leap y then 29 else 28)
  else if (m =? 4) || (m =? 6) || (m =? 9) || (m =? 11) then 30
  else 31.

(** The range checks of the [datetime] constructor. *)
Definition valid_datetime (dt : datetime) : bool :=
  (1 <=? year dt) && (year dt <=? 9999) &&
  (1 <=? month dt) && (month dt <=? 12) &&
  (1 <=? day dt) && (day dt <=? days_in_month (year dt) (month dt)) &&
  (0 <=? hour dt) && (hour dt <=? 23) &&
  (0 <=? minute dt) && (minute dt <=? 59) &&
  (0 <=? second dt) && (second dt <=? 59).

Definition fields_of (g : groups) : datetime :=
  {| year := int_of_digits (group "Y" g);
     month := int_of_digits (group "m" g);
     day := int_of_digits (group "d" g);
     hour := int_of_digits (group "H" g);
     minute := int_of_digits (group "M" g);
     second := int_of_digits (group "S" g) |}.

(** The fields of a text that matches the format: the pattern matches
    and no text remains after the match. *)
Definition format_fields (s : string) : option datetime :=
  match regex_match s with
  | Some ([], g) => Some (fields_of g)
  | _ => None
  end.


(** [datetime.datetime.strptime(s, '%Y-%m-%dT%H:%M:%SZ')]: a [ValueError]
    when the text does not match the format, or when the fields are not a
    date and a time of day. *)
Definition strptime (s : string) : result datetime :=
  match format_fields s with
  | None => Raise ValueError
  | Some dt => if valid_datetime dt then Ok dt else Raise ValueError
  end.

(** Days from 0001-01-01 (day 1), as [datetime] counts them. *)
Definition days_before_year (y : Z) : Z :=
  let p := y - 1 in p * 365 + p / 4 - p / 100 + p / 400.

Fixpoint days_before_month_nat (y : Z) (m : nat) : Z :=
  match m with
  | O => 0
  | S m' => days_before_month_nat y m' + days_in_month y (Z.of_nat m)
  end.

Definition days_before_month (y m : Z) : Z :=
  days_before_month_nat y (Z.to_nat (m - 1)).

Definition ymd_to_ord (y m d : Z) : Z :=
  days_before_year y + days_before_month y m + d.

(** Seconds from 1970-01-01T00:00:00 to the fields, read on one clock. *)
Definition wall_seconds (dt : datetime) : Z :=
  (ymd_to_ord (year dt) (month dt) (day dt) - 719163) * 86400
  + hour dt * 3600 + minute dt * 60 + second dt.

(** The character of a decimal digit. *)
Definition digit_char (d : Z) : ascii := ascii_of_N (Z.to_N (48 + d)).

Definition pad2 (v : Z) : list ascii := [digit_char (v / 10); digit_char (v mod 10)].

Definition pad4 (v : Z) : list ascii :=
  [digit_char (v / 1000); digit_char (v / 100 mod 10);
   digit_char (v / 10 mod 10); digit_char (v mod 10)].

(** The text [strftime] writes for the format: every field zero-padded. *)
Definition isoformat_chars (dt : datetime) : list ascii :=
  pad4 (year dt) ++ ["-"%char] ++ pad2 (month dt) ++ ["-"%char] ++ pad2 (day dt)
  ++ ["T"%char] ++ pad2 (hour dt) ++ [":"%char] ++ pad2 (minute dt)
  ++ [":"%char] ++ pad2 (second dt) ++ ["Z"%char].

Definition isoformat (dt : datetime) : string :=
  string_of_list_ascii (isoformat_chars dt).

(** [r] matches the text [pre] at the start of any text, adding [f] to the
    groups, whenever the rest of the match succeeds. *)
Definition hits (r : regex) (pre : list ascii) (f : groups → groups) : Prop :=
  ∀ (R : Type) (rest : list ascii) (g : groups)
    (k : list ascii → groups → option R) (x : R),
    k rest (f g) = Some x → re_match r (pre ++ rest) g k = Some x.

(** [r] matches at the start of [s] in no way. *)
Definition misses (r : regex) (s : list ascii) : Prop :=
  ∀ (R : Type) (g : groups) (k : list ascii → groups → option R),
    re_match r s g k = None.

(** The groups of a match of the whole format. *)
Definition groups_of (dt : datetime) (g : groups) : groups :=
  ("S"%char, pad2 (second dt)) :: ("M"%char, pad2 (minute dt))
  :: ("H"%char, pad2 (hour dt)) :: ("d"%char, pad2 (day dt))
  :: ("m"%char, pad2 (month dt)) :: ("Y"%char, pad4 (year dt)) :: g.

(** ** The notebook's globals and its environment *)

(** The first code cell's settings and the two values read from [.env]
    that the push cell uses (both taken to be set). *)
Record config : Type := mk_config {
  datasource_name : string;
  object_type : string;
  bulk_index_flag : bool;
  batch_size : Z;
  GLEAN_PROJECT_ID : string;
  GLEAN_API_KEY : string
}.

Record request : Type := mk_request {
  req_url : string;
  req_headers : gmap string string;
  req_json : gmap string pyval   (* the body, as serialised when posted *)
}.

Record response : Type := mk_response {
  status_code : Z;
  text : string
}.

(** What the code does not decide: the platform's conversion of a local
    wall-clock reading to POSIX time (which may raise out of its range), the
    texts [str(uuid.uuid4())] produces, call after call, and what
    [requests.post] gives for the [k]-th request of the run: the answer of
    the remote endpoint, or an exception of its own (the body cannot be
    serialised, the connection fails). *)
Record environment : Type := mk_environment {
  local_to_epoch : Z → result Z;
  uuid_source : nat → string;
  server : nat → request → result response
}.

Inductive log_record : Type :=
| InfoTransformed (count : Z)
| InfoBatchUploaded (page total status : Z)
| ErrorBatchFailed (page total status : Z)
| InfoDocumentUploaded (id : pyval) (status : Z)
| ErrorDocumentFailed (id : pyval) (status : Z)
| ErrorText (body : string).

(** The effects of a run, in the order they happened; [sent] holds the
    requests handed to [requests.post]. *)
Record world : Type := mk_world {
  sent : list request;
  logs : list log_record;
  uuid_calls : nat
}.

Definition world0 : world := {| sent := []; logs := []; uuid_calls := 0 |}.

(** Effectful code: a result together with the world after it. *)
Definition io (A : Type) : Type := world → result A * world.

Definition io_ret {A} (a : A) : io A := fun w => (Ok a, w).
Definition io_bind {A B} (m : io A) (f : A → io B) : io B :=
  fun w => match m w with
           | (Ok a, w') => f a w'
           | (Raise e, w') => (Raise e, w')
           end.
Definition io_raise {A} (e : pyexc) : io A := fun w => (Raise e, w).
Definition io_lift {A} (r : result A) : io A := fun w => (r, w).

Notation "'do' x <- m ; k" := (io_bind m (fun x => k))
  (at level 10, x name, m at level 100, k at level 200).
Notation "m ;; k" := (io_bind m (fun _ => k))
  (at level 100, k at level 200, right associativity).

Definition logging (r : log_record) : io unit :=
  fun w => (Ok (), {| sent := sent w; logs := logs w ++ [r]; uuid_calls := uuid_calls w |}).

(** [d[k]] on a [dict]. *)
Definition getitem (d : gmap string pyval) (k : string) : result pyval :=
  match d !! k with
  | Some v => Ok v
  | None => Raise (KeyError k)
  end.

(** [v[k]] on any value: only a [dict] can be indexed by a key. *)
Definition subscript (v : pyval) (k : string) : result pyval :=
  match v with
  | VDict d => getitem d k
  | _ => Raise TypeError
  end.

(** [d.pop(k)]: the [dict] without [k]; a [KeyError] when [k] is absent. *)
Definition dict_pop (k : string) (d : gmap string pyval) : result (gmap string pyval) :=
  match d !! k with
  | Some _ => Ok (delete k d)
  | None => Raise (KeyError k)
  end.

Section Notebook.
Variable cfg : config.
Variable env : environment.

Definition uuid4 : io string :=
  fun w => (Ok (uuid_source env (uuid_calls w)),
            {| sent := sent w; logs := logs w; uuid_calls := S (uuid_calls w) |}).

Definition glean_api_base : string :=
  "https://" +:+ GLEAN_PROJECT_ID cfg +:+ "-be.glean.com/api/index/v1".

Definition glean_headers : gmap string string :=
  <["Authorization" := "Bearer " +:+ GLEAN_API_KEY cfg]>
    (<["Content-Type" := "application/json"]> ∅).

(** [requests.post(endpoint, headers=glean_headers, json=body)] *)
Definition post (endpoint : string) (body : gmap string pyval) : io response :=
  fun w =>
    let rq := {| req_url := endpoint; req_headers := glean_headers; req_json := body |} in
    (server env (length (sent w)) rq,
     {| sent := sent w ++ [rq]; logs := logs w; uuid_calls := uuid_calls w |}).

(** *** Utility: timestamps *)

(** [datetime_str] must be text ([strptime] rejects other values with
    [TypeError]).  [timestamp()] reads the fields as local time; its float
    is a whole number of seconds far below 2^53, so [int] is exact. *)
Definition convert_timestamp_to_epoch_seconds (datetime_str : pyval) : result Z :=
  match datetime_str with
  | VStr s =>
      datetime_obj ← strptime s;
      local_to_epoch env (wall_seconds datetime_obj)
  | _ => Raise TypeError
  end.

(** *** Transform *)

Definition transform_document (document : gmap string pyval) : result pyval :=
  id ← getitem document "id";
  url ← getitem document "url";
  title ← getitem document "title";
  binary_content ← getitem document "binary_content";
  binaryContent ← convert_raw_binary_to_base64_string binary_content;
  authorEmail ← getitem document "authorEmail";
  author ← getitem document "author";
  date_created ← getitem document "date_created";
  createdAt ← convert_timestamp_to_epoch_seconds date_created;
  mret (VDict (
    <["datasource" := VStr (datasource_name cfg)]> (
    <["id" := id]> (
    <["objectType" := VStr (object_type cfg)]> (
    <["viewURL" := url]> (
    <["permissions" := VDict (<["allowAnonymousAccess" := VBool true]> ∅)]> (
    <["title" := title]> (
    <["body" := VDict (<["mimeType" := VStr "application/pdf"]> (
                       <["binaryContent" := VStr binaryContent]> ∅))]> (
    <["author" := VDict (<["email" := authorEmail]> (
                         <["name" := author]> ∅))]> (
    <["createdAt" := VInt createdAt]> ∅)))))))))).

(** [[transform_document(document) for document in documents]] *)
Definition transform_documents (documents : list (gmap string pyval)) : result (list pyval) :=
  mapM transform_document documents.

(** *** Push: bulk *)

Definition bulk_endpoint : string := glean_api_base +:+ "/bulkindexdocuments".

Definition bulk_data (index_id : string) : gmap string pyval :=
  <["uploadId" := VStr index_id]> (
  <["isFirstPage" := VBool true]> (
  <["isLastPage" := VBool false]> (
  <["forceRestartUpload" := VBool true]> (
  <["datasource" := VStr (datasource_name cfg)]> (
  <["documents" := VList []]> ∅))))).

(** The body of [for idx, batch in enumerate(batches)], from [idx] on. *)
Fixpoint bulk_loop (n idx : Z) (batches : list (list pyval))
    (data : gmap string pyval) : io unit :=
  match batches with
  | [] => io_ret ()
  | batch :: rest =>
      let data := <["documents" := VList batch]> data in
      let data := <["isLastPage" := VBool (idx =? n - 1)]> data in
      do response <- post bulk_endpoint data;
      (if status_code response =? 200 then
         logging (InfoBatchUploaded (idx + 1) n (status_code response))
       else
         logging (ErrorBatchFailed (idx + 1) n (status_code response));;
         logging (ErrorText (text response));;
         io_raise (RuntimeError "Failed to upload batch"));;
      if idx =? 0 then
        let data := <["isFirstPage" := VBool false]> data in
        do data <- io_lift (dict_pop "forceRestartUpload" data);
        bulk_loop n (idx + 1) rest data
      else
        bulk_loop n (idx + 1) rest data
  end.

Definition push_bulk (transformed_documents : list pyval) : io unit :=
  do index_id <- uuid4;
  let data := bulk_data index_id in
  do batches <- io_lift (create_batches transformed_documents (batch_size cfg));
  let n := Z.of_nat (length batches) in
  bulk_loop n 0 batches data.

(** *** Push: one document at a time *)

Definition individual_endpoint : string := glean_api_base +:+ "/indexdocument".

Fixpoint individual_loop (transformed_documents : list pyval) : io unit :=
  match transformed_documents with
  | [] => io_ret ()
  | document :: rest =>
      do response <- post individual_endpoint (<["document" := document]> ∅);
      (if status_code response =? 200 then
         do id <- io_lift (subscript document "id");
         logging (InfoDocumentUploaded id (status_code response))
       else
         do id <- io_lift (subscript document "id");
         logging (ErrorDocumentFailed id (status_code response));;
         logging (ErrorText (text response));;
         io_raise (RuntimeError "Failed to upload document"));;
      individual_loop rest
  end.

(** The push cell. *)
Definition push_documents (transformed_documents : list pyval) : io unit :=
  if bulk_index_flag cfg then push_bulk transformed_documents
  else individual_loop transformed_documents.

(** The transform cell followed by the push cell, on the pulled documents. *)
Definition notebook (documents : list (gmap string pyval)) : io unit :=
  do transformed_documents <- io_lift (transform_documents documents);
  logging (InfoTransformed (Z.of_nat (length transformed_documents)));;
  push_documents transformed_documents.

(** *** What a run is expected to send *)

(** The body of page [i], with its [isLastPage] flag and its batch. *)
Definition page_body (index_id : string) (i : Z) (is_last : bool)
    (batch : list pyval) : gmap string pyval :=
  let common :=
    <["uploadId" := VStr index_id]> (
    <["isFirstPage" := VBool (i =? 0)]> (
    <["isLastPage" := VBool is_last]> (
    <["datasource" := VStr (datasource_name cfg)]> (
    <["documents" := VList batch]> ∅)))) in
  if i =? 0 then <["forceRestartUpload" := VBool true]> common else common.

Definition bulk_request (index_id : string) (n i : Z) (batch : list pyval) : request :=
  {| req_url := bulk_endpoint; req_headers := glean_headers;
     req_json := page_body index_id i (i =? n - 1) batch |}.

Definition bulk_requests (index_id : string) (n i : Z)
    (batches : list (list pyval)) : list request :=
  imap (fun j batch => bulk_request index_id n (i + Z.of_nat j) batch) batches.

Definition document_request (document : pyval) : request :=
  {| req_url := individual_endpoint; req_headers := glean_headers;
     req_json := <["document" := document]> ∅ |}.

(** The state of [data] when the loop reaches page [i]: once [documents]
    and [isLastPage] are assigned, it is the body of page [i]. *)
Definition data_inv (index_id : string) (i : Z) (data : gmap string pyval) : Prop :=
  ∀ batch v,
    <["isLastPage" := VBool v]> (<["documents" := VList batch]> data)
    = page_body index_id i v batch.

(** The status of the answer to the [k]-th request of the run, when
    there is an answer. *)
Definition status_of (k : nat) (rq : request) : option Z :=
  match server env k rq with
  | Ok response => Some (status_code response)
  | Raise _ => None
  end.

Definition accepted (k : nat) (rq : request) : bool :=
  match status_of k rq with
  | Some status => status =? 200
  | None => false
  end.

(** What a loop raises after a request that is not accepted: its own
    [failure] on an answer, the exception of [requests.post] otherwise. *)
Definition stop_at (failure : pyexc) (k : nat) (rq : request) : pyexc :=
  match server env k rq with
  | Ok _ => failure
  | Raise e => e
  end.

Definition all_accepted (base : nat) (reqs : list request) : Prop :=
  ∀ (j : nat) rq, reqs !! j = Some rq → accepted (base + j) rq = true.

(** How a loop over the requests [all] ends, [base] requests having been
    sent before it: with all of them sent and accepted, or with an
    exception raised right after the first one that is not accepted. *)
Inductive run_outcome (base : nat) (all : list request)
    (failure : pyexc) : result unit → list request → Prop :=
| run_completed :
    all_accepted base all →
    run_outcome base all failure (Ok ()) all
| run_aborted (k : nat) rq :
    all !! k = Some rq →
    all_accepted base (take k all) →
    accepted (base + k) rq = false →
    run_outcome base all failure (Raise (stop_at failure (base + k) rq))
      (take (S k) all).

End Notebook.

(** A transformed document whose [id] can be read. *)
Definition has_id (document : pyval) : bool := is_ok (subscript document "id").

(** The class of 2xx statuses. *)
Definition is_2xx (status : Z) : Prop := 200 ≤ status < 300.

(** The six-bit value cut out of a 24-bit group. *)
Definition six (n shift : Z) : Z := Z.land (Z.shiftr n shift) 63.

Definition table_ok (v : Z) : bool :=
  match b64_value (b64_char v) with
  | Some v' => (v' =? v) && negb (Byte.eqb (b64_char v) b64_pad)
  | None => false
  end.

(** Equality of two dictionaries built from inserts and deletes, key by
    key. *)
Ltac map_cases :=
  apply map_eq; intros k;
  repeat (rewrite ?lookup_insert, ?lookup_delete, ?lookup_empty;
          case_decide; subst; try done).

(** ** The pull cell *)

(** [s.endswith(suffix)] *)
Definition endswith (s suffix : string) : bool :=
  bool_decide (list_ascii_of_string suffix `suffix_of` list_ascii_of_string s).

(** What the pull cell reads: [os.listdir(path)] and the bytes
    [open(path, 'rb')] and [read()] give; [None] when the call raises (an
    [OSError]: no such directory, no permission). *)
Record filesystem : Type := mk_filesystem {
  listdir : string → option (list string);
  read_binary : string → option (list byte)
}.

(** The dictionary appended for [file]. *)
Definition pulled_document (file : string) (content : list byte) : gmap string pyval :=
  <["binary_content" := VBytes content]> (
  <["url" := VStr ("https://mywebsite.com/files/" +:+ file)]> (
  <["filename" := VStr file]> (
  <["author" := VStr "John Doe"]> (
  <["authorEmail" := VStr "john.doe@acme.com"]> (
  <["title" := VStr "Sample Document"]> (
  <["date_created" := VStr "2024-12-15T03:05:58Z"]> (
  <["id" := VStr file]> ∅))))))).

(** The body of [for file in os.listdir('sample-docs')], [documents]
    being the list built so far; [None] when a file cannot be read. *)
Fixpoint pull_loop (fs : filesystem) (files : list string)
    (documents : list (gmap string pyval)) : option (list (gmap string pyval)) :=
  match files with
  | [] => Some documents
  | file :: rest =>
      if endswith file ".pdf" then
        match read_binary fs ("sample-docs/" +:+ file) with
        | Some content =>
            pull_loop fs rest (documents ++ [pulled_document file content])
        | None => None
        end
      else pull_loop fs rest documents
  end.

Inductive pull_log : Type :=
| InfoPulled (count : Z).

(** The pull cell: the documents, when nothing raised, and what it
    logged. *)
Definition pull_documents (fs : filesystem)
    : option (list (gmap string pyval)) * list pull_log :=
  match listdir fs "sample-docs" with
  | Some files =>
      match pull_loop fs files [] with
      | Some documents =>
          (Some documents, [InfoPulled (Z.of_nat (length documents))])
      | None => (None, [])
      end
  | None => (None, [])
  end.

(** [document] is what the pull cell appends for [file]. *)
Definition pulled_from (fs : filesystem) (file : string)
    (document : gmap string pyval) : Prop :=
  ∃ content, read_binary fs ("sample-docs/" +:+ file) = Some content
             ∧ document = pulled_document file content.

(** ** The keys of a document and of its record *)

(** The keys [transform_document] reads. *)
Definition read_keys : list string :=
  ["id"; "url"; "title"; "binary_content"; "authorEmail"; "author"; "date_created"]%string.

(** The keys of the record it builds. *)
Definition record_keys : gset string :=
  {[ "datasource"; "id"; "objectType"; "viewURL"; "permissions"; "title";
     "body"; "author"; "createdAt" ]}%string.

(** ** The order of dates *)

(** One date and time of day before another, field by field. *)
Definition datetime_before (a b : datetime) : Prop :=
  year a < year b ∨ (year a = year b ∧ (
  month a < month b ∨ (month a = month b ∧ (
  day a < day b ∨ (day a = day b ∧ (
  hour a < hour b ∨ (hour a = hour b ∧ (
  minute a < minute b ∨ (minute a = minute b ∧ second a < second b))))))))).

(** ** The log of a run *)

(** The lines of [count] pages accepted in a row, from page [i] on. *)
Definition uploaded_lines (n i : Z) (count : nat) : list log_record :=
  map (λ j : nat, InfoBatchUploaded (i + Z.of_nat j + 1) n 200) (seq 0 count).

(** The two lines of a page answered with another status. *)
Definition batch_failed_lines (n i : Z) (k : nat) (response : response) : list log_record :=
  [ErrorBatchFailed (i + Z.of_nat k + 1) n (status_code response);
   ErrorText (text response)].

(** The [id] the lines of a document show. *)
Definition logged_id (document : pyval) : pyval :=
  match subscript document "id" with
  | Ok id => id
  | Raise _ => VNone
  end.

Definition document_lines (documents : list pyval) (count : nat) : list log_record :=
  map (λ document, InfoDocumentUploaded (logged_id document) 200) (take count documents).

Definition document_failed_lines (documents : list pyval) (k : nat)
    (response : response) : list log_record :=
  match documents !! k with
  | Some document =>
      [ErrorDocumentFailed (logged_id document) (status_code response);
       ErrorText (text response)]
  | None => []
  end.

(** How the log of a loop over [all] grows: [lines k] for the [k] requests
    accepted, then, when request [k] is answered with another status, the
    lines [failed] gives for the answer. *)
Inductive run_log (env : environment) (base : nat) (all : list request)
    (failure : pyexc) (lines : nat → list log_record)
    (failed : nat → response → list log_record) :
    result unit → list log_record → Prop :=
| log_completed :
    run_log env base all failure lines failed (Ok ()) (lines (length all))
| log_rejected (k : nat) rq response :
    all !! k = Some rq →
    server env (base + k) rq = Ok response →
    status_code response ≠ 200 →
    run_log env base all failure lines failed (Raise failure)
      (lines k ++ failed k response)
| log_post_raised (k : nat) rq e :
    all !! k = Some rq →
    server env (base + k) rq = Raise e →
    run_log env base all failure lines failed (Raise e) (lines k).

(** ** The format of a timestamp, in words *)






(** ** [datetime.timestamp()] on a naive [datetime] *)

(** The least and the greatest reading a [datetime] holds, in seconds
    from 1970-01-01T00:00:00: those of 0001-01-01T00:00:00 and of
    9999-12-31T23:59:59. *)
Definition min_seconds : Z := -62135596800.
Definition max_seconds : Z := 253402300799.

Section Mktime.
(** The zone of the platform: by how many seconds local time is ahead of
    UTC at an instant. *)
Variable utcoffset : Z → Z.

(** [local(u)] of [datetime._mktime]: the reading of the local clock at
    the instant [u], as [time.localtime] gives it.  The [datetime] built
    from it must have a year of 1..9999: a [ValueError] otherwise. *)
Definition local (u : Z) : result Z :=
  let t := u + utcoffset u in
  if (min_seconds <=? t) && (t <=? max_seconds) then Ok t else Raise ValueError.

(** [datetime._mktime] for [fold = 0], as [strptime] leaves it: the
    instant at which the local clock reads [t].  It looks at the offsets at
    [t] and a day before the first solution, to tell a repeated hour from
    a missing one. *)
Definition mktime (t : Z) : result Z :=
  lt ← local t;
  let a := lt - t in
  let u1 := t - a in
  t1 ← local u1;
  let other (b : Z) : result Z :=
    let u2 := t - b in
    t2 ← local u2;
    if t2 =? t then Ok u2
    else if t1 =? t then Ok u1
    else Ok (Z.max u1 u2) in
  if t1 =? t then
    let u2 := u1 - 24 * 3600 in
    lt2 ← local u2;
    let b := lt2 - u2 in
    if a =? b then Ok u1 else other b
  else other (t1 - u1).
End Mktime.

(** ** Sample runs *)

Module Sample.

Definition cfg_bulk : config :=
  {| datasource_name := "mydocumentportal"; object_type := "policy";
     bulk_index_flag := true; batch_size := 2;
     GLEAN_PROJECT_ID := "acme"; GLEAN_API_KEY := "token" |}.

Definition cfg_individual : config :=
  {| datasource_name := "mydocumentportal"; object_type := "policy";
     bulk_index_flag := false; batch_size := 2;
     GLEAN_PROJECT_ID := "acme"; GLEAN_API_KEY := "token" |}.

(** A clock on UTC, and an endpoint that answers the [k]-th request with
    the [k]-th status of a script (200 beyond its end). *)
Definition env_of (statuses : list Z) : environment :=
  {| local_to_epoch := fun t => Ok t;
     uuid_source := fun k => if Nat.eqb k 0 then "6f1c" else "9d2e";
     server := fun k _ => Ok {| status_code := nth k statuses 200; text := "" |} |}.

(** The pulled document of the notebook's example. *)
Definition raw_document (file : string) : gmap string pyval :=
  <["binary_content" := VBytes (list_byte_of_string "%PDF-1.4")]> (
  <["url" := VStr ("https://mywebsite.com/files/" +:+ file)]> (
  <["filename" := VStr file]> (
  <["author" := VStr "John Doe"]> (
  <["authorEmail" := VStr "john.doe@acme.com"]> (
  <["title" := VStr "Sample Document"]> (
  <["date_created" := VStr "2024-12-15T03:05:58Z"]> (
  <["id" := VStr file]> ∅))))))).

(** A pulled document without the author and creation date. *)
Definition bare_document (file : string) : gmap string pyval :=
  <["binary_content" := VBytes (list_byte_of_string "%PDF-1.4")]> (
  <["url" := VStr ("https://mywebsite.com/files/" +:+ file)]> (
  <["filename" := VStr file]> (
  <["title" := VStr "Sample Document"]> (
  <["id" := VStr file]> ∅)))).

Definition record (file : string) : pyval :=
  VDict (<["id" := VStr file]> (<["title" := VStr "Sample Document"]> ∅)).

Definition records3 : list pyval := [record "a.pdf"; record "b.pdf"; record "c.pdf"].
Definition records5 : list pyval :=
  [record "a.pdf"; record "b.pdf"; record "c.pdf"; record "d.pdf"; record "e.pdf"].

Definition batches5 : list (list pyval) :=
  [[record "a.pdf"; record "b.pdf"]; [record "c.pdf"; record "d.pdf"]; [record "e.pdf"]].

End Sample.

(** A directory of two PDF files and a text file. *)
Module SampleFiles.

Definition listing : list string := ["a.pdf"; "notes.txt"; "b.pdf"].

Definition fs : filesystem :=
  {| listdir := fun path =>
       if String.eqb path "sample-docs" then Some listing else None;
     read_binary := fun path =>
       if String.eqb path "sample-docs/a.pdf" || String.eqb path "sample-docs/b.pdf"
       then Some (list_byte_of_string "%PDF-1.4") else None |}.

Definition documents : list (gmap string pyval) :=
  [Sample.raw_document "a.pdf"; Sample.raw_document "b.pdf"].

(** The record [transform_document] builds for the document of [file]. *)
Definition transformed (file : string) : pyval :=
  VDict (
    <["datasource" := VStr "mydocumentportal"]> (
    <["id" := VStr file]> (
    <["objectType" := VStr "policy"]> (
    <["viewURL" := VStr ("https://mywebsite.com/files/" +:+ file)]> (
    <["permissions" := VDict (<["allowAnonymousAccess" := VBool true]> ∅)]> (
    <["title" := VStr "Sample Document"]> (
    <["body" := VDict (<["mimeType" := VStr "application/pdf"]> (
                       <["binaryContent" := VStr "JVBERi0xLjQ="]> ∅))]> (
    <["author" := VDict (<["email" := VStr "john.doe@acme.com"]> (
                         <["name" := VStr "John Doe"]> ∅))]> (
    <["createdAt" := VInt 1734231958]> ∅))))))))).

End SampleFiles.

(** A machine set to UTC, with CPython's conversion of local time. *)
Module SampleClock.

Definition env_utc (statuses : list Z) : environment :=
  {| local_to_epoch := mktime (fun _ => 0);
     uuid_source := fun k => if Nat.eqb k 0 then "6f1c" else "9d2e";
     server := fun k _ => Ok {| status_code := nth k statuses 200; text := "" |} |}.

End SampleClock.

(** * Properties *)

(** ** The batcher *)

Section BatcherFacts.
Context {A : Type}.
Implicit Types (l lst : list A).

Lemma py_slice_nonneg l lo hi :
  0 ≤ lo ≤ hi →
  py_slice l lo hi = take (Z.to_nat (hi - lo)) (drop (Z.to_nat lo) l).
Proof.
  intros Hb. unfold py_slice, slice_bound.
  assert (Hlo : (lo <? 0) = false) by (apply Z.ltb_ge; lia).
  assert (Hhi : (hi <? 0) = false) by (apply Z.ltb_ge; lia).
  rewrite Hlo, Hhi.
  destruct (Z.le_gt_cases (Z.of_nat (length l)) lo) as [Hge|Hlt].
  - rewrite !drop_ge by lia. by rewrite !take_nil.
  - rewrite (Z.min_l lo) by lia.
    destruct (Z.le_gt_cases hi (Z.of_nat (length l))) as [Hh|Hh].
    + by rewrite Z.min_l by lia.
    + rewrite Z.min_r by lia.
      rewrite !take_ge; [done | rewrite length_drop; lia ..].
Qed.

Lemma concat_chunks l (b m : nat) :
  concat (map (fun k => take b (drop (k * b) l)) (seq 0 m)) = take (m * b) l.
Proof.
  induction m as [|m IH]; [done|].
  rewrite seq_S, map_app, concat_app, IH. simpl.
  rewrite app_nil_r, take_take_drop. f_equal. lia.
Qed.

Lemma range_len_batches (n b : Z) :
  0 ≤ n → 0 < b → Z.of_nat (range_len 0 n b) = ceil_div n b.
Proof.
  intros Hn Hb. unfold range_len, ceil_div.
  assert (Hpos : (0 <? b) = true) by (apply Z.ltb_lt; lia). rewrite Hpos.
  replace (n + b - 1) with ((n - 1) + 1 * b) by lia.
  rewrite Z.div_add by lia.
  destruct (0 <? n) eqn:E.
  - apply Z.ltb_lt in E. replace (n - 0 - 1) with (n - 1) by lia.
    assert (0 ≤ (n - 1) / b) by (apply Z.div_pos; lia). lia.
  - apply Z.ltb_ge in E. assert (n = 0) as -> by lia.
    change (0 - 1) with (-1). change (Z.of_nat 0) with 0.
    assert ((-1) / b = -1); [|lia].
    symmetry. apply (Z.div_unique_pos (-1) b (-1) (b - 1)); lia.
Qed.

Lemma create_batches_eq lst (b : Z) :
  0 < b →
  create_batches lst b =
    Ok (map (fun k => take (Z.to_nat b) (drop (k * Z.to_nat b) lst))
            (seq 0 (range_len 0 (Z.of_nat (length lst)) b))).
Proof.
  intros Hb. unfold create_batches, py_range.
  assert (Hz : (b =? 0) = false) by (apply Z.eqb_neq; lia). rewrite Hz. simpl.
  f_equal. rewrite map_map. apply map_ext. intros k.
  rewrite py_slice_nonneg by lia. f_equal; [f_equal; lia|f_equal; lia].
Qed.

Lemma ceil_div_spec (n b : Z) :
  0 < b → b * (ceil_div n b - 1) < n ≤ b * ceil_div n b.
Proof.
  intros Hb. unfold ceil_div.
  pose proof (Z.div_mod (n + b - 1) b ltac:(lia)) as Hdm.
  pose proof (Z.mod_pos_bound (n + b - 1) b Hb) as Hm. lia.
Qed.

(** C5.  For a positive batch size [B], [create_batches] returns
    [ceil(N / B)] batches whose concatenation, in order, is the list; every
    batch but the last has [B] items, the last has [N mod B] items (or [B]
    when that is zero), and the empty list gives no batch. *)
Theorem create_batches_spec lst (B : Z) :
  0 < B →
  ∃ batches : list (list A),
    create_batches lst B = Ok batches
    ∧ Z.of_nat (length batches) = ceil_div (Z.of_nat (length lst)) B
    ∧ concat batches = lst
    ∧ (∀ (k : nat) batch, batches !! k = Some batch →
         (S k < length batches)%nat → Z.of_nat (length batch) = B)
    ∧ (∀ batch, last batches = Some batch →
         Z.of_nat (length batch) =
           if Z.of_nat (length lst) mod B =? 0 then B
           else Z.of_nat (length lst) mod B)
    ∧ (lst = [] → batches = []).
Proof.
  intros HB. set (N := Z.of_nat (length lst)).
  assert (HN : 0 ≤ N) by (subst N; lia).
  pose proof (range_len_batches N B HN HB) as Hlen.
  pose proof (ceil_div_spec N B HB) as Hceil.
  eexists. split; [by apply create_batches_eq|].
  fold N. set (m := range_len 0 N B) in *. set (b := Z.to_nat B).
  assert (Hb : Z.of_nat b = B) by (subst b; lia).
  split; [by rewrite length_map, length_seq|].
  split.
  { rewrite concat_chunks. apply take_ge. nia. }
  split.
  { intros k batch Hk Hlt. rewrite length_map, length_seq in Hlt.
    rewrite list_lookup_fmap in Hk.
    rewrite lookup_seq_lt in Hk by lia. simpl in Hk. injection Hk as <-.
    rewrite length_take, length_drop. nia. }
  split.
  { intros batch Hlast. destruct m as [|m'] eqn:Em.
    - discriminate Hlast.
    - rewrite seq_S, map_app in Hlast. cbn [map] in Hlast.
      rewrite last_snoc in Hlast. injection Hlast as <-.
      rewrite length_take, length_drop. cbn [Nat.add].
      pose proof (Z.div_mod N B ltac:(lia)) as Hdm.
      pose proof (Z.mod_pos_bound N B HB) as Hm.
      set (c := ceil_div N B) in *.
      assert (Hm' : Z.of_nat (m' * b) = (c - 1) * B) by nia.
      assert (Hle : (m' * b ≤ length lst)%nat) by nia.
      rewrite Nat2Z.inj_min, Nat2Z.inj_sub, Hm', Hb by exact Hle. fold N.
      destruct (N mod B =? 0) eqn:E.
      + apply Z.eqb_eq in E. assert (c = N / B) by nia. nia.
      + apply Z.eqb_neq in E. assert (c = N / B + 1) by nia. nia. }
  intros ->. subst N. simpl in *.
  destruct m; [done|]. exfalso. nia.
Qed.
End BatcherFacts.

(** ** Base64 *)

Lemma Z_of_byte_range (b : byte) : 0 ≤ Z_of_byte b < 256.
Proof.
  unfold Z_of_byte. pose proof (Byte.to_N_bounded b) as H.
  lia.
Qed.

Lemma byte_of_Z_of_byte (b : byte) : byte_of_Z (Z_of_byte b) = b.
Proof. unfold byte_of_Z, Z_of_byte. by rewrite N2Z.id, Byte.of_to_N. Qed.

Lemma lor_disjoint (q lo k : Z) :
  0 ≤ k → 0 ≤ lo < 2 ^ k → Z.lor (q * 2 ^ k) lo = q * 2 ^ k + lo.
Proof.
  intros Hk Hlo. symmetry. apply Z.add_nocarry_lor.
  apply Z.bits_inj'. intros i Hi. rewrite Z.land_spec, Z.bits_0.
  destruct (Z.lt_ge_cases i k) as [Hlt|Hge].
  - by rewrite Z.mul_pow2_bits_low.
  - rewrite <- (Z.mod_small lo (2 ^ k)) by lia.
    rewrite Z.mod_pow2_bits_high by lia. apply andb_false_r.
Qed.

Lemma six_eq n k : 0 ≤ k → six n k = (n / 2 ^ k) mod 64.
Proof.
  intros Hk. unfold six. rewrite Z.shiftr_div_pow2 by lia.
  change 63 with (Z.ones 6). by rewrite Z.land_ones.
Qed.

Lemma octet_eq n k : 0 ≤ k → octet n k = byte_of_Z ((n / 2 ^ k) mod 256).
Proof.
  intros Hk. unfold octet. rewrite Z.shiftr_div_pow2 by lia.
  change 255 with (Z.ones 8). by rewrite Z.land_ones.
Qed.

Lemma pack4_eq v0 v1 v2 v3 :
  0 ≤ v0 → 0 ≤ v1 < 64 → 0 ≤ v2 < 64 → 0 ≤ v3 < 64 →
  pack4 v0 v1 v2 v3 = v0 * 262144 + v1 * 4096 + v2 * 64 + v3.
Proof.
  intros H0 H1 H2 H3. unfold pack4. rewrite !Z.shiftl_mul_pow2 by lia.
  rewrite (lor_disjoint v0 (v1 * 2 ^ 12) 18) by lia.
  replace (v0 * 2 ^ 18 + v1 * 2 ^ 12) with ((v0 * 64 + v1) * 2 ^ 12) by lia.
  rewrite (lor_disjoint _ (v2 * 2 ^ 6) 12) by lia.
  replace ((v0 * 64 + v1) * 2 ^ 12 + v2 * 2 ^ 6)
    with ((v0 * 4096 + v1 * 64 + v2) * 2 ^ 6) by lia.
  rewrite (lor_disjoint _ v3 6) by lia. lia.
Qed.

Lemma pack3_eq (a b c : Z) :
  0 ≤ a → 0 ≤ b < 256 → 0 ≤ c < 256 →
  Z.lor (Z.lor (Z.shiftl a 16) (Z.shiftl b 8)) c = a * 65536 + b * 256 + c.
Proof.
  intros Ha Hb Hc. rewrite !Z.shiftl_mul_pow2 by lia.
  rewrite (lor_disjoint a (b * 2 ^ 8) 16) by lia.
  replace (a * 2 ^ 16 + b * 2 ^ 8) with ((a * 256 + b) * 2 ^ 8) by lia.
  rewrite (lor_disjoint _ c 8) by lia. lia.
Qed.

Lemma pack2_eq (a b : Z) :
  0 ≤ a → 0 ≤ b < 256 →
  Z.lor (Z.shiftl a 16) (Z.shiftl b 8) = a * 65536 + b * 256.
Proof.
  intros Ha Hb. rewrite !Z.shiftl_mul_pow2 by lia.
  rewrite (lor_disjoint a (b * 2 ^ 8) 16) by lia. lia.
Qed.

Lemma six_range n k : 0 ≤ k → 0 ≤ six n k < 64.
Proof. intros Hk. rewrite six_eq by done. apply Z.mod_pos_bound. lia. Qed.

(** Cutting 24 bits into sextets and packing them again. *)
Lemma pack4_six (n : Z) :
  0 ≤ n < 16777216 →
  pack4 (six n 18) (six n 12) (six n 6) (six n 0) = n.
Proof.
  intros Hn.
  rewrite pack4_eq by (try apply six_range; try apply (proj1 (six_range _ _ _)); lia).
  rewrite !six_eq by lia.
  change (2 ^ 18) with 262144. change (2 ^ 12) with 4096.
  change (2 ^ 6) with 64. change (2 ^ 0) with 1.
  rewrite Z.div_1_r. Z.to_euclidean_division_equations. lia.
Qed.

Lemma pack4_six_pad1 (n : Z) :
  0 ≤ n < 16777216 → n mod 64 = 0 →
  pack4 (six n 18) (six n 12) (six n 6) 0 = n.
Proof.
  intros Hn Hm.
  rewrite pack4_eq by (try apply six_range; try apply (proj1 (six_range _ _ _)); lia).
  rewrite !six_eq by lia.
  change (2 ^ 18) with 262144. change (2 ^ 12) with 4096.
  change (2 ^ 6) with 64. Z.to_euclidean_division_equations. lia.
Qed.

Lemma pack4_six_pad2 (n : Z) :
  0 ≤ n < 16777216 → n mod 4096 = 0 →
  pack4 (six n 18) (six n 12) 0 0 = n.
Proof.
  intros Hn Hm.
  rewrite pack4_eq by (try apply six_range; try apply (proj1 (six_range _ _ _)); lia).
  rewrite !six_eq by lia.
  change (2 ^ 18) with 262144. change (2 ^ 12) with 4096.
  Z.to_euclidean_division_equations. lia.
Qed.

Lemma octets_of_group (a b c : Z) :
  0 ≤ a < 256 → 0 ≤ b < 256 → 0 ≤ c < 256 →
  let n := a * 65536 + b * 256 + c in
  (n / 2 ^ 16) mod 256 = a ∧ (n / 2 ^ 8) mod 256 = b ∧ (n / 2 ^ 0) mod 256 = c.
Proof.
  intros Ha Hb Hc n. subst n.
  change (2 ^ 16) with 65536. change (2 ^ 8) with 256. change (2 ^ 0) with 1.
  rewrite Z.div_1_r. Z.to_euclidean_division_equations. lia.
Qed.

(** The alphabet table and its inverse. *)
Lemma table_ok_all : forallb table_ok (map Z.of_nat (seq 0 64)) = true.
Proof. vm_compute. reflexivity. Qed.

Lemma table_ok_at (v : Z) : 0 ≤ v < 64 → table_ok v = true.
Proof.
  intros Hv. pose proof table_ok_all as H.
  rewrite forallb_forall in H. apply H.
  apply in_map_iff. exists (Z.to_nat v). split; [lia|].
  apply in_seq. lia.
Qed.

Lemma b64_value_char (v : Z) : 0 ≤ v < 64 → b64_value (b64_char v) = Some v.
Proof.
  intros Hv. pose proof (table_ok_at v Hv) as H. unfold table_ok in H.
  destruct (b64_value (b64_char v)) as [v'|]; [|done].
  apply andb_prop in H as [H _]. apply Z.eqb_eq in H. by subst.
Qed.

Lemma b64_char_not_pad (v : Z) :
  0 ≤ v < 64 → Byte.eqb (b64_char v) b64_pad = false.
Proof.
  intros Hv. pose proof (table_ok_at v Hv) as H. unfold table_ok in H.
  destruct (b64_value (b64_char v)); [|done].
  apply andb_prop in H as [_ H]. by apply negb_true_iff in H.
Qed.

Lemma b64_char_ascii (v : Z) : is_ascii_byte (b64_char v) = true.
Proof.
  unfold b64_char.
  destruct (nth_in_or_default (Z.to_nat v) b64_alphabet b64_pad) as [Hin| ->];
    [|done].
  assert (Hall : forallb is_ascii_byte b64_alphabet = true) by (vm_compute; reflexivity).
  rewrite forallb_forall in Hall. by apply Hall.
Qed.

Lemma b64encode_ascii (bs : list byte) :
  forallb is_ascii_byte (b64encode bs) = true.
Proof.
  revert bs. fix IH 1. intros [|a [|b [|c rest]]]; [done| | |].
  - cbn [b64encode forallb]. unfold sextet. by rewrite !b64_char_ascii.
  - cbn [b64encode forallb]. unfold sextet. by rewrite !b64_char_ascii.
  - cbn [b64encode forallb]. unfold sextet. rewrite !b64_char_ascii, IH. done.
Qed.

Lemma sextet_value n k : 0 ≤ k → b64_value (sextet n k) = Some (six n k).
Proof. intros Hk. apply b64_value_char. by apply six_range. Qed.

Lemma sextet_not_pad n k : 0 ≤ k → Byte.eqb (sextet n k) b64_pad = false.
Proof. intros Hk. apply b64_char_not_pad. by apply six_range. Qed.

Lemma octet_group (a b c : byte) :
  let n := Z_of_byte a * 65536 + Z_of_byte b * 256 + Z_of_byte c in
  octet n 16 = a ∧ octet n 8 = b ∧ octet n 0 = c.
Proof.
  intros n. subst n. rewrite !octet_eq by lia.
  destruct (octets_of_group (Z_of_byte a) (Z_of_byte b) (Z_of_byte c))
    as (-> & -> & ->); try apply Z_of_byte_range.
  by rewrite !byte_of_Z_of_byte.
Qed.

Lemma octet_group_pad1 (a b : byte) :
  let n := Z_of_byte a * 65536 + Z_of_byte b * 256 in
  octet n 16 = a ∧ octet n 8 = b.
Proof.
  intros n. destruct (octet_group a b x00) as (H1 & H2 & _).
  change (Z_of_byte "000") with 0 in *. rewrite Z.add_0_r in H1, H2. done.
Qed.

Lemma octet_group_pad2 (a : byte) : octet (Z_of_byte a * 65536) 16 = a.
Proof.
  destruct (octet_group_pad1 a x00) as (H1 & _).
  change (Z_of_byte "000") with 0 in *. cbn [Z.mul] in H1.
  by rewrite Z.add_0_r in H1.
Qed.

Lemma b64decode_encode (bs : list byte) :
  b64decode_bytes (b64encode bs) = Some bs.
Proof.
  revert bs. fix IH 1. intros [|a [|b [|c rest]]]; [done| | |].
  - pose proof (Z_of_byte_range a) as Ha.
    cbn [b64encode b64decode_bytes].
    rewrite !sextet_value by lia. cbn [mbind option_bind].
    change (Byte.eqb b64_pad b64_pad) with true. cbn iota.
    rewrite pack4_six_pad2.
    + rewrite Z.shiftl_mul_pow2 by lia. change (2 ^ 16) with 65536.
      by rewrite octet_group_pad2.
    + rewrite Z.shiftl_mul_pow2 by lia. lia.
    + rewrite Z.shiftl_mul_pow2 by lia. change (2 ^ 16) with (16 * 4096).
      rewrite Z.mul_assoc. apply Z.mod_mul. lia.
  - pose proof (Z_of_byte_range a) as Ha. pose proof (Z_of_byte_range b) as Hb.
    cbn [b64encode b64decode_bytes].
    rewrite !sextet_value by lia. cbn [mbind option_bind].
    change (Byte.eqb b64_pad b64_pad) with true. cbn iota.
    rewrite sextet_not_pad by lia.
    rewrite pack2_eq by lia.
    rewrite pack4_six_pad1.
    + by destruct (octet_group_pad1 a b) as (-> & ->).
    + lia.
    + Z.to_euclidean_division_equations. lia.
  - pose proof (Z_of_byte_range a) as Ha. pose proof (Z_of_byte_range b) as Hb.
    pose proof (Z_of_byte_range c) as Hc.
    cbn [b64encode b64decode_bytes].
    rewrite !sextet_value by lia. cbn [mbind option_bind].
    rewrite sextet_not_pad by lia. rewrite IH. cbn [mbind option_bind].
    rewrite pack3_eq by lia. rewrite pack4_six by lia.
    destruct (octet_group a b c) as (-> & -> & ->). done.
Qed.

(** ** The upload drivers *)

Section DriverFacts.
Variable cfg : config.
Variable env : environment.

Lemma data_inv_initial index_id : data_inv cfg index_id 0 (bulk_data cfg index_id).
Proof. intros batch v. unfold page_body, bulk_data. cbn [Z.eqb]. map_cases. Qed.

Lemma data_inv_first index_id v batch :
  ∃ data',
    dict_pop "forceRestartUpload"
      (<["isFirstPage" := VBool false]> (page_body cfg index_id 0 v batch)) = Ok data'
    ∧ data_inv cfg index_id 1 data'.
Proof.
  eexists. split.
  - unfold dict_pop, page_body. cbn [Z.eqb].
    rewrite lookup_insert_ne by done. by rewrite lookup_insert_eq.
  - intros batch' v'. unfold page_body. cbn [Z.eqb]. map_cases.
Qed.

Lemma data_inv_next index_id i v batch :
  i ≠ 0 → i + 1 ≠ 0 → data_inv cfg index_id (i + 1) (page_body cfg index_id i v batch).
Proof.
  intros Hi Hi' batch' v'. unfold page_body.
  apply Z.eqb_neq in Hi, Hi'. rewrite Hi, Hi'. map_cases.
Qed.

Lemma all_accepted_nil base : all_accepted env base [].
Proof. intros j rq H. by rewrite lookup_nil in H. Qed.

Lemma all_accepted_cons base rq reqs :
  accepted env base rq = true → all_accepted env (S base) reqs →
  all_accepted env base (rq :: reqs).
Proof.
  intros H0 Hr [|j] rq' Hj; simpl in Hj.
  - injection Hj as <-. by rewrite Nat.add_0_r.
  - rewrite Nat.add_succ_r. by apply Hr.
Qed.

Lemma bulk_requests_cons index_id n i batch rest :
  bulk_requests cfg index_id n i (batch :: rest)
  = bulk_request cfg index_id n i batch :: bulk_requests cfg index_id n (i + 1) rest.
Proof.
  unfold bulk_requests. rewrite imap_cons. f_equal.
  - f_equal. lia.
  - apply imap_ext. intros j b _. simpl. f_equal. lia.
Qed.

Lemma run_outcome_cons_ok base rq all failure r reqs :
  accepted env base rq = true →
  run_outcome env (S base) all failure r reqs →
  run_outcome env base (rq :: all) failure r (rq :: reqs).
Proof.
  intros Hrq [Hall|k rq' Hk Hpre Hrej].
  - constructor. by apply all_accepted_cons.
  - replace (S base + k)%nat with (base + S k)%nat by lia.
    apply (run_aborted env base (rq :: all) failure (S k) rq'); [done| |].
    + by apply all_accepted_cons.
    + by rewrite Nat.add_succ_r.
Qed.

Lemma run_outcome_cons_fail base rq all failure :
  accepted env base rq = false →
  run_outcome env base (rq :: all) failure (Raise (stop_at env failure base rq)) [rq].
Proof.
  intros Hrq. rewrite <- (Nat.add_0_r base) at 2.
  apply (run_aborted env base (rq :: all) failure 0%nat rq); [done| |].
  - apply all_accepted_nil.
  - by rewrite Nat.add_0_r.
Qed.

(** The three ways [requests.post] can turn out for a request. *)
Lemma post_cases base rq failure :
  (∃ response, server env base rq = Ok response
               ∧ (status_code response =? 200) = true
               ∧ accepted env base rq = true)
  ∨ (∃ response, server env base rq = Ok response
                 ∧ (status_code response =? 200) = false
                 ∧ accepted env base rq = false
                 ∧ stop_at env failure base rq = failure)
  ∨ (∃ e, server env base rq = Raise e
          ∧ accepted env base rq = false
          ∧ stop_at env failure base rq = e).
Proof.
  unfold accepted, status_of, stop_at.
  destruct (server env base rq) as [response|e]; [|right; right; eauto].
  destruct (status_code response =? 200) eqn:Hst; [left|right; left]; eauto 10.
Qed.

Lemma bulk_loop_run index_id n batches :
  ∀ i data w r w',
    data_inv cfg index_id i data → 0 ≤ i →
    bulk_loop cfg env n i batches data w = (r, w') →
    ∃ reqs,
      sent w' = sent w ++ reqs
      ∧ uuid_calls w' = uuid_calls w
      ∧ run_outcome env (length (sent w)) (bulk_requests cfg index_id n i batches)
          (RuntimeError "Failed to upload batch") r reqs.
Proof.
  induction batches as [|batch rest IH]; intros i data w r w' Hinv Hi Hrun.
  - injection Hrun as <- <-. exists []. rewrite app_nil_r.
    split; [done|]. split; [done|]. constructor. apply all_accepted_nil.
  - rewrite bulk_requests_cons.
    cbn [bulk_loop] in Hrun. cbv zeta in Hrun. rewrite Hinv in Hrun.
    unfold io_bind at 1 in Hrun. cbn [post] in Hrun.
    fold (bulk_request cfg index_id n i batch) in Hrun.
    set (rq := bulk_request cfg index_id n i batch) in *.
    destruct (post_cases (length (sent w)) rq (RuntimeError "Failed to upload batch"))
      as [(response & Hsrv & Hst & Hacc)
         |[(response & Hsrv & Hst & Hacc & Hstop)|(e & Hsrv & Hacc & Hstop)]];
      rewrite Hsrv in Hrun; try rewrite Hst in Hrun.
    + unfold io_bind at 1 in Hrun. cbn [logging] in Hrun.
      set (w1 := mk_world _ _ _) in Hrun.
      assert (Hnext : ∃ data', data_inv cfg index_id (i + 1) data'
                ∧ bulk_loop cfg env n (i + 1) rest data' w1 = (r, w')).
      { destruct (i =? 0) eqn:Hi0.
        - apply Z.eqb_eq in Hi0. subst i.
          destruct (data_inv_first index_id (0 =? n - 1) batch)
            as (data' & Hpop & Hinv').
          unfold io_bind, io_lift in Hrun. rewrite Hinv, Hpop in Hrun. eauto.
        - apply Z.eqb_neq in Hi0. rewrite Hinv in Hrun.
          eexists. split; [|exact Hrun].
          apply data_inv_next; lia. }
      destruct Hnext as (data' & Hinv' & Hrun').
      apply IH in Hrun' as (reqs & Hsent & Huuid & Hout); [|done|lia].
      exists (rq :: reqs). subst w1. cbn in Hsent, Huuid, Hout.
      rewrite <- app_assoc in Hsent. split; [done|]. split; [done|].
      rewrite length_app, Nat.add_1_r in Hout.
      by apply run_outcome_cons_ok.
    + unfold io_bind, logging, io_raise in Hrun. cbn in Hrun.
      injection Hrun as <- <-. exists [rq]. cbn.
      split; [done|]. split; [done|].
      pose proof (run_outcome_cons_fail (length (sent w)) rq
                    (bulk_requests cfg index_id n (i + 1) rest)
                    (RuntimeError "Failed to upload batch") Hacc) as Hout.
      rewrite Hstop in Hout. exact Hout.
    + injection Hrun as <- <-. exists [rq]. cbn.
      split; [done|]. split; [done|].
      pose proof (run_outcome_cons_fail (length (sent w)) rq
                    (bulk_requests cfg index_id n (i + 1) rest)
                    (RuntimeError "Failed to upload batch") Hacc) as Hout.
      rewrite Hstop in Hout. exact Hout.
Qed.

Lemma individual_loop_run documents :
  ∀ w r w',
    forallb has_id documents = true →
    individual_loop cfg env documents w = (r, w') →
    ∃ reqs,
      sent w' = sent w ++ reqs
      ∧ uuid_calls w' = uuid_calls w
      ∧ run_outcome env (length (sent w)) (map (document_request cfg) documents)
          (RuntimeError "Failed to upload document") r reqs.
Proof.
  induction documents as [|document rest IH]; intros w r w' Hid Hrun.
  - injection Hrun as <- <-. exists []. rewrite app_nil_r.
    split; [done|]. split; [done|]. constructor. apply all_accepted_nil.
  - cbn [forallb] in Hid. apply andb_prop in Hid as [Hdoc Hrest].
    unfold has_id in Hdoc.
    destruct (subscript document "id") as [id|] eqn:Hsub; [|done].
    cbn [individual_loop map] in Hrun.
    unfold io_bind at 1 in Hrun. cbn [post] in Hrun.
    fold (document_request cfg document) in Hrun.
    set (rq := document_request cfg document) in *.
    destruct (post_cases (length (sent w)) rq
                (RuntimeError "Failed to upload document"))
      as [(response & Hsrv & Hst & Hacc)
         |[(response & Hsrv & Hst & Hacc & Hstop)|(e & Hsrv & Hacc & Hstop)]];
      rewrite Hsrv in Hrun; try rewrite Hst in Hrun.
    + unfold io_bind at 1 in Hrun. unfold io_bind at 1 in Hrun.
      unfold io_lift at 1 in Hrun. rewrite Hsub in Hrun. cbn [logging] in Hrun.
      apply IH in Hrun as (reqs & Hsent & Huuid & Hout); [|done].
      exists (rq :: reqs). cbn in Hsent, Huuid, Hout.
      rewrite <- app_assoc in Hsent. split; [done|]. split; [done|].
      rewrite length_app, Nat.add_1_r in Hout.
      by apply run_outcome_cons_ok.
    + unfold io_bind, io_lift, logging, io_raise in Hrun.
      rewrite Hsub in Hrun. cbn in Hrun.
      injection Hrun as <- <-. exists [rq]. cbn.
      split; [done|]. split; [done|].
      pose proof (run_outcome_cons_fail (length (sent w)) rq
                    (map (document_request cfg) rest)
                    (RuntimeError "Failed to upload document") Hacc) as Hout.
      rewrite Hstop in Hout. exact Hout.
    + injection Hrun as <- <-. exists [rq]. cbn.
      split; [done|]. split; [done|].
      pose proof (run_outcome_cons_fail (length (sent w)) rq
                    (map (document_request cfg) rest)
                    (RuntimeError "Failed to upload document") Hacc) as Hout.
      rewrite Hstop in Hout. exact Hout.
Qed.

Lemma push_bulk_run transformed_documents w r w' :
  push_bulk cfg env transformed_documents w = (r, w') →
  ∃ reqs,
    sent w' = sent w ++ reqs
    ∧ uuid_calls w' = S (uuid_calls w)
    ∧ match create_batches transformed_documents (batch_size cfg) with
      | Ok batches =>
          run_outcome env (length (sent w))
            (bulk_requests cfg (uuid_source env (uuid_calls w))
               (Z.of_nat (length batches)) 0 batches)
            (RuntimeError "Failed to upload batch") r reqs
      | Raise e => r = Raise e ∧ reqs = []
      end.
Proof.
  unfold push_bulk, io_bind at 1. cbn [uuid4].
  unfold io_bind at 1, io_lift.
  destruct (create_batches _ _) as [batches|e]; intros Hrun.
  - eapply bulk_loop_run in Hrun as (reqs & Hsent & Huuid & Hout);
      [|apply data_inv_initial|lia].
    exists reqs. cbn in Hsent, Huuid, Hout. done.
  - injection Hrun as <- <-. exists []. by rewrite app_nil_r.
Qed.

Lemma page_body_lookup index_id i v batch :
  let body := page_body cfg index_id i v batch in
  body !! "uploadId" = Some (VStr index_id)
  ∧ body !! "datasource" = Some (VStr (datasource_name cfg))
  ∧ body !! "isFirstPage" = Some (VBool (i =? 0))
  ∧ body !! "isLastPage" = Some (VBool v)
  ∧ body !! "documents" = Some (VList batch)
  ∧ body !! "forceRestartUpload" = (if i =? 0 then Some (VBool true) else None).
Proof.
  unfold page_body. destruct (i =? 0); cbn zeta;
    repeat split; by simplify_map_eq.
Qed.

Lemma bulk_requests_lookup index_id n batches (i : nat) rq :
  bulk_requests cfg index_id n 0 batches !! i = Some rq →
  ∃ batch, batches !! i = Some batch
           ∧ rq = bulk_request cfg index_id n (Z.of_nat i) batch.
Proof.
  unfold bulk_requests. rewrite list_lookup_imap.
  destruct (batches !! i) as [batch|]; [|done].
  intros [= <-]. by exists batch.
Qed.

(** What was sent is a prefix of what there was to send. *)
Lemma run_outcome_prefix base all failure r reqs :
  run_outcome env base all failure r reqs →
  ∀ (i : nat) rq, reqs !! i = Some rq → all !! i = Some rq.
Proof.
  intros [Hall|k rq' Hk Hpre Hrej] i rq Hi; [done|].
  apply lookup_take_Some in Hi. tauto.
Qed.

Lemma run_outcome_length base all failure r reqs :
  run_outcome env base all failure r reqs → (length reqs ≤ length all)%nat.
Proof.
  intros [Hall|k rq' Hk Hpre Hrej]; [done|]. rewrite length_take. lia.
Qed.

(** A request answered with another status than 200 is the last one, and
    the run raises. *)
Lemma run_outcome_rejected base all failure r reqs (k : nat) rq :
  run_outcome env base all failure r reqs →
  reqs !! k = Some rq → accepted env (base + k) rq = false →
  length reqs = S k ∧ r = Raise (stop_at env failure (base + k) rq).
Proof.
  intros [Hall|k0 rq0 Hk0 Hpre Hrej] Hk Hno.
  - apply Hall in Hk. congruence.
  - apply lookup_take_Some in Hk as [Hk Hlt].
    assert (k0 = k) as ->.
    { destruct (Nat.lt_trichotomy k k0) as [Hl|[->|Hg]]; [|done|lia].
      assert (take k0 all !! k = Some rq) as Hin
        by (apply lookup_take_Some; split; [done|lia]).
      apply Hpre in Hin. congruence. }
    assert (rq0 = rq) as -> by congruence.
    split; [|done]. rewrite length_take.
    apply lookup_lt_Some in Hk0. lia.
Qed.

Lemma accepted_status base rq :
  accepted env base rq = true ↔ status_of env base rq = Some 200.
Proof.
  unfold accepted. destruct (status_of env base rq) as [status|]; [|done].
  rewrite Z.eqb_eq. split; congruence.
Qed.

Lemma rejected_status base rq status failure :
  status_of env base rq = Some status → status ≠ 200 →
  accepted env base rq = false ∧ stop_at env failure base rq = failure.
Proof.
  unfold accepted, stop_at, status_of.
  destruct (server env base rq) as [response|e]; [|done].
  intros [= <-] Hne. by apply Z.eqb_neq in Hne as ->.
Qed.

(** A request answered 200 is followed by the next one, unless it was the
    last there was to send, and then the run ends normally. *)
Lemma run_outcome_accepted base all failure r reqs (k : nat) rq :
  run_outcome env base all failure r reqs →
  reqs !! k = Some rq → accepted env (base + k) rq = true →
  (S k < length reqs)%nat ∨ (S k = length all ∧ reqs = all ∧ r = Ok ()).
Proof.
  intros [Hall|k0 rq0 Hk0 Hpre Hrej] Hk Hyes.
  - apply lookup_lt_Some in Hk. destruct (decide (S k = length all)); [by right|].
    left. lia.
  - apply lookup_take_Some in Hk as [Hk Hlt]. left.
    assert (k ≠ k0) by (intros ->; congruence).
    rewrite length_take. apply lookup_lt_Some in Hk0. lia.
Qed.

Lemma run_outcome_ok_iff base all failure r reqs :
  run_outcome env base all failure r reqs →
  (r = Ok () ↔ all_accepted env base reqs).
Proof.
  intros [Hall|k0 rq0 Hk0 Hpre Hrej]; [done|]. split; [done|].
  intros Hacc. exfalso.
  assert (take (S k0) all !! k0 = Some rq0) as Hin
    by (apply lookup_take_Some; split; [done|lia]).
  apply Hacc in Hin. congruence.
Qed.
End DriverFacts.

(** ** Timestamps *)

Lemma hits_lit c x : lower x = lower c → hits (Lit c) [x] id.
Proof.
  intros Hx R rest g k y Hk. cbn. rewrite Hx, Z.eqb_refl. exact Hk.
Qed.

Lemma hits_cls lo hi x : in_class lo hi x = true → hits (Cls lo hi) [x] id.
Proof. intros Hx R rest g k y Hk. cbn. rewrite Hx. exact Hk. Qed.

Lemma hits_cat r1 r2 p1 p2 f1 f2 :
  hits r1 p1 f1 → hits r2 p2 f2 →
  hits (Cat r1 r2) (p1 ++ p2) (fun g => f2 (f1 g)).
Proof.
  intros H1 H2 R rest g k x Hk. cbn [re_match]. rewrite <- app_assoc.
  apply H1. by apply H2.
Qed.

Lemma hits_alt_l r1 r2 p f : hits r1 p f → hits (Alt r1 r2) p f.
Proof. intros H1 R rest g k x Hk. cbn [re_match]. by rewrite (H1 _ _ _ _ _ Hk). Qed.

Lemma hits_alt_r r1 r2 p f :
  (∀ rest, misses r1 (p ++ rest)) → hits r2 p f → hits (Alt r1 r2) p f.
Proof.
  intros H1 H2 R rest g k x Hk. cbn [re_match]. rewrite H1. by apply H2.
Qed.

Lemma hits_grp name r p f :
  hits r p f → hits (Grp name r) p (fun g => (name, p) :: f g).
Proof.
  intros H R rest g k x Hk. cbn [re_match]. apply H.
  rewrite length_app, Nat.add_sub, take_app_length. exact Hk.
Qed.

Lemma misses_lit c x s : lower x ≠ lower c → misses (Lit c) (x :: s).
Proof.
  intros Hx R g k. cbn. by apply Z.eqb_neq in Hx as ->.
Qed.

Lemma misses_cls lo hi x s : in_class lo hi x = false → misses (Cls lo hi) (x :: s).
Proof. intros Hx R g k. cbn. by rewrite Hx. Qed.

Lemma misses_cat r1 r2 s : misses r1 s → misses (Cat r1 r2) s.
Proof. intros H R g k. cbn [re_match]. apply H. Qed.

Lemma misses_grp name r s : misses r s → misses (Grp name r) s.
Proof. intros H R g k. cbn [re_match]. apply H. Qed.

Lemma code_digit_char d : 0 ≤ d ≤ 9 → code (digit_char d) = 48 + d.
Proof.
  intros Hd. unfold code, digit_char. rewrite N_ascii_embedding by lia. lia.
Qed.

Lemma lower_digit_char d : 0 ≤ d ≤ 9 → lower (digit_char d) = 48 + d.
Proof.
  intros Hd. unfold lower. rewrite code_digit_char by done.
  destruct (65 <=? 48 + d) eqn:E; [|done].
  apply Z.leb_le in E. lia.
Qed.

Lemma in_class_digit (lo hi : ascii) d :
  0 ≤ d ≤ 9 →
  in_class lo hi (digit_char d) = (code lo <=? 48 + d) && (48 + d <=? code hi).
Proof. intros Hd. unfold in_class. by rewrite code_digit_char. Qed.

Lemma in_class_digit_true (lo hi : ascii) d :
  0 ≤ d ≤ 9 → code lo ≤ 48 + d → 48 + d ≤ code hi →
  in_class lo hi (digit_char d) = true.
Proof.
  intros Hd Hlo Hhi. rewrite in_class_digit by done.
  apply andb_true_intro. split; by apply Z.leb_le.
Qed.

Lemma hits_cat_id r1 r2 p1 p2 :
  hits r1 p1 id → hits r2 p2 id → hits (Cat r1 r2) (p1 ++ p2) id.
Proof. intros H1 H2. exact (hits_cat r1 r2 p1 p2 id id H1 H2). Qed.

Lemma hits_field name r p :
  hits r p id → hits (Grp name r) p (cons (name, p)).
Proof. intros H. exact (hits_grp name r p id H). Qed.

Lemma hits_ext r p f f' : hits r p f → (∀ g, f g = f' g) → hits r p f'.
Proof. intros H Hf R rest g k x Hk. apply H. by rewrite Hf. Qed.

Ltac eval_code :=
  repeat match goal with
         | |- context [code ?c] =>
             let n := eval vm_compute in (code c) in change (code c) with n
         end.

Ltac solve_misses :=
  first
    [ apply misses_cat; solve_misses
    | apply misses_lit; vm_compute; discriminate
    | apply misses_cls; vm_compute; reflexivity ].

Ltac solve_hits :=
  first
    [ apply hits_lit; vm_compute; reflexivity
    | apply hits_cls; vm_compute; reflexivity
    | apply hits_cls; apply in_class_digit_true; [lia | eval_code; lia | eval_code; lia]
    | apply (hits_cat_id _ _ [_] [_]); [solve_hits | solve_hits]
    | apply hits_alt_l; solve_hits
    | apply hits_alt_r; [intros ?; solve_misses | solve_hits] ].

(** Splitting a number below 100 into its two digits. *)
Lemma two_digits v :
  0 ≤ v ≤ 99 → 0 ≤ v / 10 ≤ 9 ∧ 0 ≤ v mod 10 ≤ 9 ∧ v = 10 * (v / 10) + v mod 10.
Proof. intros Hv. Z.to_euclidean_division_equations. lia. Qed.

Ltac field_hits v tens :=
  let Ha := fresh "Ha" in
  let Hb := fresh "Hb" in
  let Hv := fresh "Hv" in
  let E := fresh "E" in
  destruct (two_digits v) as (Ha & Hb & Hv); [lia|];
  unfold pad2;
  assert (E : In (v / 10) tens) by (cbn [In]; lia);
  cbn [In] in E;
  repeat (destruct E as [E|E]; [rewrite <- E in *; apply hits_field; solve_hits|]);
  destruct E.

Lemma hits_re_m v : 1 ≤ v ≤ 12 → hits re_m (pad2 v) (cons ("m"%char, pad2 v)).
Proof. intros H. field_hits v [0; 1]. Qed.

Lemma hits_re_d v : 1 ≤ v ≤ 31 → hits re_d (pad2 v) (cons ("d"%char, pad2 v)).
Proof. intros H. field_hits v [0; 1; 2; 3]. Qed.

Lemma hits_re_H v : 0 ≤ v ≤ 23 → hits re_H (pad2 v) (cons ("H"%char, pad2 v)).
Proof. intros H. field_hits v [0; 1; 2]. Qed.

Lemma hits_re_M v : 0 ≤ v ≤ 59 → hits re_M (pad2 v) (cons ("M"%char, pad2 v)).
Proof. intros H. field_hits v [0; 1; 2; 3; 4; 5]. Qed.

Lemma hits_re_S v : 0 ≤ v ≤ 59 → hits re_S (pad2 v) (cons ("S"%char, pad2 v)).
Proof. intros H. field_hits v [0; 1; 2; 3; 4; 5]. Qed.

Lemma hits_digit d : 0 ≤ d ≤ 9 → hits digit [digit_char d] id.
Proof.
  intros Hd. apply hits_cls. apply in_class_digit_true; [lia| |]; eval_code; lia.
Qed.

Lemma four_digits v :
  0 ≤ v ≤ 9999 →
  0 ≤ v / 1000 ≤ 9 ∧ 0 ≤ v / 100 mod 10 ≤ 9 ∧ 0 ≤ v / 10 mod 10 ≤ 9
  ∧ 0 ≤ v mod 10 ≤ 9
  ∧ v = 1000 * (v / 1000) + 100 * (v / 100 mod 10) + 10 * (v / 10 mod 10) + v mod 10.
Proof. intros Hv. Z.to_euclidean_division_equations. lia. Qed.

Lemma hits_re_Y v : 0 ≤ v ≤ 9999 → hits re_Y (pad4 v) (cons ("Y"%char, pad4 v)).
Proof.
  intros Hv. destruct (four_digits v Hv) as (H3 & H2 & H1 & H0 & _).
  unfold pad4. apply hits_field.
  apply (hits_cat_id _ _ [_] [_; _; _]); [by apply hits_digit|].
  apply (hits_cat_id _ _ [_] [_; _]); [by apply hits_digit|].
  apply (hits_cat_id _ _ [_] [_]); by apply hits_digit.
Qed.

Lemma int_of_digits_step acc d cs :
  0 ≤ d ≤ 9 →
  fold_left (fun acc c => if in_class "0" "9" c then 10 * acc + (code c - 48) else acc)
    (digit_char d :: cs) acc
  = fold_left (fun acc c => if in_class "0" "9" c then 10 * acc + (code c - 48) else acc)
      cs (10 * acc + d).
Proof.
  intros Hd. cbn [fold_left].
  rewrite in_class_digit_true, code_digit_char by (try done; eval_code; lia).
  f_equal. lia.
Qed.

Lemma int_of_digits_pad2 v : 0 ≤ v ≤ 99 → int_of_digits (pad2 v) = v.
Proof.
  intros Hv. destruct (two_digits v Hv) as (Ha & Hb & Hv').
  unfold int_of_digits, pad2. rewrite !int_of_digits_step by done. cbn. lia.
Qed.

Lemma int_of_digits_pad4 v : 0 ≤ v ≤ 9999 → int_of_digits (pad4 v) = v.
Proof.
  intros Hv. destruct (four_digits v Hv) as (H3 & H2 & H1 & H0 & Hv').
  unfold int_of_digits, pad4. rewrite !int_of_digits_step by done. cbn. lia.
Qed.

Lemma days_in_month_le y m : days_in_month y m ≤ 31.
Proof.
  unfold days_in_month.
  destruct (m =? 2); [by destruct (is_leap y)|].
  by destruct ((m =? 4) || (m =? 6) || (m =? 9) || (m =? 11)).
Qed.

Lemma valid_datetime_ranges dt :
  valid_datetime dt = true →
  1 ≤ year dt ≤ 9999 ∧ 1 ≤ month dt ≤ 12
  ∧ 1 ≤ day dt ≤ days_in_month (year dt) (month dt)
  ∧ 0 ≤ hour dt ≤ 23 ∧ 0 ≤ minute dt ≤ 59 ∧ 0 ≤ second dt ≤ 59.
Proof.
  unfold valid_datetime. rewrite !andb_true_iff, !Z.leb_le. tauto.
Qed.

Lemma hits_format_regex dt :
  valid_datetime dt = true →
  hits format_regex (isoformat_chars dt) (groups_of dt).
Proof.
  intros Hvalid.
  destruct (valid_datetime_ranges dt Hvalid) as (HY & Hm & Hd & HH & HM & HS).
  pose proof (days_in_month_le (year dt) (month dt)) as Hdim.
  unfold format_regex, isoformat_chars.
  eapply hits_ext.
  - eapply hits_cat; [apply hits_re_Y; lia|].
    eapply hits_cat; [by apply hits_lit|].
    eapply hits_cat; [apply hits_re_m; lia|].
    eapply hits_cat; [by apply hits_lit|].
    eapply hits_cat; [apply hits_re_d; lia|].
    eapply hits_cat; [by apply hits_lit|].
    eapply hits_cat; [apply hits_re_H; lia|].
    eapply hits_cat; [by apply hits_lit|].
    eapply hits_cat; [apply hits_re_M; lia|].
    eapply hits_cat; [by apply hits_lit|].
    eapply hits_cat; [apply hits_re_S; lia|].
    by apply hits_lit.
  - intros g. reflexivity.
Qed.

Lemma format_fields_isoformat dt :
  valid_datetime dt = true → format_fields (isoformat dt) = Some dt.
Proof.
  intros Hvalid.
  destruct (valid_datetime_ranges dt Hvalid) as (HY & Hm & Hd & HH & HM & HS).
  pose proof (days_in_month_le (year dt) (month dt)) as Hdim.
  unfold format_fields, regex_match, isoformat.
  rewrite list_ascii_of_string_of_list_ascii.
  rewrite <- (app_nil_r (isoformat_chars dt)).
  rewrite (hits_format_regex dt Hvalid _ [] [] _ ([], groups_of dt [])) by done.
  f_equal. unfold fields_of, groups_of. cbn [group Ascii.eqb Bool.eqb].
  rewrite int_of_digits_pad4, !int_of_digits_pad2 by lia.
  by destruct dt.
Qed.

Lemma strptime_isoformat dt :
  valid_datetime dt = true → strptime (isoformat dt) = Ok dt.
Proof.
  intros Hvalid. unfold strptime.
  by rewrite format_fields_isoformat, Hvalid.
Qed.

(** *** The calendar arithmetic *)

Lemma days_before_year_succ y :
  days_before_year (y + 1) = days_before_year y + (if is_leap y then 366 else 365).
Proof.
  unfold days_before_year, is_leap. cbv zeta.
  replace (y + 1 - 1) with y by lia.
  destruct (y mod 4 =? 0) eqn:E4; destruct (y mod 100 =? 0) eqn:E100;
    destruct (y mod 400 =? 0) eqn:E400; cbn [andb orb negb];
    rewrite ?Z.eqb_eq, ?Z.eqb_neq in *;
    Z.to_euclidean_division_equations; lia.
Qed.

Lemma days_before_year_mono y y' : y ≤ y' → days_before_year y ≤ days_before_year y'.
Proof.
  intros Hy. unfold days_before_year. cbv zeta.
  Z.to_euclidean_division_equations. lia.
Qed.

Lemma days_in_month_pos y m : 28 ≤ days_in_month y m.
Proof.
  unfold days_in_month.
  destruct (m =? 2); [by destruct (is_leap y)|].
  by destruct ((m =? 4) || (m =? 6) || (m =? 9) || (m =? 11)).
Qed.

Lemma days_before_month_succ y m :
  1 ≤ m → days_before_month y (m + 1) = days_before_month y m + days_in_month y m.
Proof.
  intros Hm. unfold days_before_month.
  replace (Z.to_nat (m + 1 - 1)) with (S (Z.to_nat (m - 1))) by lia.
  cbn [days_before_month_nat]. do 2 f_equal. lia.
Qed.

Lemma days_before_month_mono y m (k : nat) :
  1 ≤ m → days_before_month y m ≤ days_before_month y (m + Z.of_nat k).
Proof.
  intros Hm. induction k as [|k IH].
  - by rewrite Z.add_0_r.
  - replace (m + Z.of_nat (S k)) with (m + Z.of_nat k + 1) by lia.
    rewrite days_before_month_succ by lia.
    pose proof (days_in_month_pos y (m + Z.of_nat k)). lia.
Qed.

Lemma days_before_month_le y m m' :
  1 ≤ m ≤ m' → days_before_month y m ≤ days_before_month y m'.
Proof.
  intros Hm. replace m' with (m + Z.of_nat (Z.to_nat (m' - m))) by lia.
  apply days_before_month_mono. lia.
Qed.

Lemma days_before_month_13 y :
  days_before_month y 13 = if is_leap y then 366 else 365.
Proof.
  unfold days_before_month. change (Z.to_nat (13 - 1)) with 12%nat.
  cbn [days_before_month_nat Z.of_nat Pos.of_succ_nat Pos.succ].
  unfold days_in_month. cbn [Z.eqb Pos.eqb orb]. by destruct (is_leap y).
Qed.

(** The day number of a date lies inside its year. *)
Lemma ymd_to_ord_in_year y m d :
  1 ≤ m ≤ 12 → 1 ≤ d ≤ days_in_month y m →
  days_before_year y < ymd_to_ord y m d ≤ days_before_year (y + 1).
Proof.
  intros Hm Hd. unfold ymd_to_ord.
  pose proof (days_before_month_le y 1 m ltac:(lia)) as H1.
  change (days_before_month y 1) with 0 in H1.
  pose proof (days_before_month_le y (m + 1) 13 ltac:(lia)) as H2.
  rewrite days_before_month_succ, days_before_month_13 in H2 by lia.
  rewrite days_before_year_succ. lia.
Qed.

Lemma ymd_to_ord_lt y m d y' m' d' :
  1 ≤ m ≤ 12 → 1 ≤ d ≤ days_in_month y m →
  1 ≤ m' ≤ 12 → 1 ≤ d' ≤ days_in_month y' m' →
  y < y' ∨ (y = y' ∧ (m < m' ∨ (m = m' ∧ d < d'))) →
  ymd_to_ord y m d < ymd_to_ord y' m' d'.
Proof.
  intros Hm Hd Hm' Hd' [Hy|[-> [Hlt|[-> Hlt]]]].
  - pose proof (ymd_to_ord_in_year y m d Hm Hd).
    pose proof (ymd_to_ord_in_year y' m' d' Hm' Hd').
    pose proof (days_before_year_mono (y + 1) y' ltac:(lia)). lia.
  - unfold ymd_to_ord.
    pose proof (days_before_month_le y' (m + 1) m' ltac:(lia)) as H.
    rewrite days_before_month_succ in H by lia. lia.
  - unfold ymd_to_ord. lia.
Qed.

Lemma wall_seconds_increasing (a b : datetime) :
  valid_datetime a = true → valid_datetime b = true →
  datetime_before a b → wall_seconds a < wall_seconds b.
Proof.
  intros Ha Hb Hlt.
  destruct (valid_datetime_ranges a Ha) as (HYa & Hma & Hda & HHa & HMa & HSa).
  destruct (valid_datetime_ranges b Hb) as (HYb & Hmb & Hdb & HHb & HMb & HSb).
  unfold wall_seconds.
  assert (Hord : ymd_to_ord (year a) (month a) (day a) < ymd_to_ord (year b) (month b) (day b)
                 ∨ (ymd_to_ord (year a) (month a) (day a) = ymd_to_ord (year b) (month b) (day b)
                    ∧ hour a * 3600 + minute a * 60 + second a
                      < hour b * 3600 + minute b * 60 + second b)).
  { unfold datetime_before in Hlt.
    destruct Hlt as [Hy|[Hy [Hm|[Hm [Hd|[Hd Hrest]]]]]].
    - left. apply ymd_to_ord_lt; auto.
    - left. apply ymd_to_ord_lt; auto.
    - left. apply ymd_to_ord_lt; auto.
    - right. rewrite Hy, Hm, Hd. split; [done|]. lia. }
  lia.
Qed.

Lemma wall_seconds_range (dt : datetime) :
  valid_datetime dt = true →
  -62135596800 ≤ wall_seconds dt ≤ 253402300799.
Proof.
  intros Hvalid.
  destruct (valid_datetime_ranges dt Hvalid) as (HY & Hm & Hd & HH & HM & HS).
  pose proof (ymd_to_ord_in_year _ _ _ Hm Hd) as Hord.
  pose proof (days_before_year_mono 1 (year dt) ltac:(lia)) as Hlo.
  pose proof (days_before_year_mono (year dt + 1) 10000 ltac:(lia)) as Hhi.
  change (days_before_year 1) with 0 in Hlo.
  change (days_before_year 10000) with 3652059 in Hhi.
  unfold wall_seconds. lia.
Qed.

(** ** The matcher against the format in words *)



(** *** Characters *)


Lemma code_range (x : ascii) : 0 ≤ code x < 256.
Proof. unfold code. pose proof (N_ascii_bounded x). lia. Qed.







(** *** Numbers *)







(** *** The patterns of the directives *)























(** *** The whole format *)




(** *** One text, one reading *)








(** *** [strptime] reads exactly the texts of the format *)



(** ** The transformer *)

Lemma convert_raw_binary_ok (b : list byte) :
  convert_raw_binary_to_base64_string (VBytes b)
  = Ok (string_of_list_byte (b64encode b)).
Proof.
  unfold convert_raw_binary_to_base64_string, bytes_decode_utf8.
  by rewrite b64encode_ascii.
Qed.

(** C9.  For every byte string, [convert_raw_binary_to_base64_string]
    returns a text, and decoding that text gives the byte string back. *)
Theorem base64_round_trip (b : list byte) :
  ∃ s, convert_raw_binary_to_base64_string (VBytes b) = Ok s
       ∧ b64decode s = Some b.
Proof.
  eexists. split; [apply convert_raw_binary_ok|].
  unfold b64decode. rewrite list_byte_of_string_of_list_byte.
  apply b64decode_encode.
Qed.

Section TransformFacts.
Variable cfg : config.
Variable env : environment.

Lemma getitem_Some (d : gmap string pyval) k v : d !! k = Some v → getitem d k = Ok v.
Proof. unfold getitem. by intros ->. Qed.

Lemma getitem_None (d : gmap string pyval) k : d !! k = None → getitem d k = Raise (KeyError k).
Proof. unfold getitem. by intros ->. Qed.

Lemma result_bind_ok {A B} (f : A → result B) a : Ok a ≫= f = f a.
Proof. done. Qed.

Lemma result_bind_raise {A B} (f : A → result B) e : Raise e ≫= f = Raise e.
Proof. done. Qed.


Lemma mapM_raises (documents : list (gmap string pyval)) document :
  document ∈ documents →
  is_ok (transform_document cfg env document) = false →
  is_ok (transform_documents cfg env documents) = false.
Proof.
  unfold transform_documents.
  induction documents as [|d rest IH]; intros Hin Hbad.
  - by apply elem_of_nil in Hin.
  - cbn [mapM]. destruct (transform_document cfg env d) as [y|e'] eqn:Hd; [|done].
    rewrite result_bind_ok.
    apply elem_of_cons in Hin as [->|Hin]; [by rewrite Hd in Hbad|].
    specialize (IH Hin Hbad).
    by destruct (mapM _ rest).
Qed.

(** Every record the transformer builds has an [id] to read. *)
Lemma transform_document_has_id (document : gmap string pyval) rec :
  transform_document cfg env document = Ok rec → has_id rec = true.
Proof.
  unfold transform_document.
  destruct (getitem document "id"); [|done]. rewrite result_bind_ok.
  destruct (getitem document "url"); [|done]. rewrite result_bind_ok.
  destruct (getitem document "title"); [|done]. rewrite result_bind_ok.
  destruct (getitem document "binary_content"); [|done]. rewrite result_bind_ok.
  destruct (convert_raw_binary_to_base64_string _); [|done]. rewrite result_bind_ok.
  destruct (getitem document "authorEmail"); [|done]. rewrite result_bind_ok.
  destruct (getitem document "author"); [|done]. rewrite result_bind_ok.
  destruct (getitem document "date_created"); [|done]. rewrite result_bind_ok.
  destruct (convert_timestamp_to_epoch_seconds _ _); [|done]. rewrite result_bind_ok.
  intros [= <-]. unfold has_id, subscript, getitem.
  rewrite lookup_insert_ne by done. by rewrite lookup_insert_eq.
Qed.

Lemma transform_documents_have_id (documents : list (gmap string pyval)) :
  ∀ transformed_documents,
    transform_documents cfg env documents = Ok transformed_documents →
    forallb has_id transformed_documents = true.
Proof.
  unfold transform_documents.
  induction documents as [|d rest IH]; intros tds; cbn [mapM].
  - by intros [= <-].
  - destruct (transform_document cfg env d) as [y|e] eqn:Hd; [|done].
    rewrite result_bind_ok.
    destruct (mapM (transform_document cfg env) rest) as [ys|e]; [|done].
    rewrite result_bind_ok. intros [= <-]. cbn [forallb].
    by rewrite (transform_document_has_id d y Hd), (IH ys).
Qed.

Lemma notebook_transform_fails documents w :
  is_ok (transform_documents cfg env documents) = false →
  ∃ e, notebook cfg env documents w = (Raise e, w).
Proof.
  unfold notebook, io_bind, io_lift.
  destruct (transform_documents cfg env documents) as [tds|e]; [done|].
  by exists e.
Qed.
End TransformFacts.

(** ** What the upload drivers do *)

Lemma create_batches_nonzero {A} (lst : list A) (b : Z) :
  b ≠ 0 → ∃ batches, create_batches lst b = Ok batches.
Proof.
  intros Hb. unfold create_batches, py_range.
  apply Z.eqb_neq in Hb. rewrite Hb. by eexists.
Qed.

Lemma nat_eqb_Z (i j : nat) : (Z.of_nat i =? Z.of_nat j) = (i =? j)%nat.
Proof.
  destruct (Nat.eqb_spec i j) as [->|Hne].
  - apply Z.eqb_refl.
  - apply Z.eqb_neq. lia.
Qed.

Lemma last_page_flag (i n : nat) :
  (Z.of_nat i =? Z.of_nat n - 1) = (S i =? n)%nat.
Proof.
  destruct (Nat.eqb_spec (S i) n) as [<-|Hne].
  - apply Z.eqb_eq. lia.
  - apply Z.eqb_neq. lia.
Qed.

(** The first request there is to send is sent, however the run ends. *)
Lemma run_outcome_first (env : environment) base all failure r reqs :
  run_outcome env base all failure r reqs →
  all ≠ [] → ∃ rq, reqs !! 0%nat = Some rq.
Proof.
  intros [Hall|k rq Hk Hpre Hrej] Hne.
  - destruct all as [|rq all]; [done|]. by exists rq.
  - destruct all as [|rq0 all]; [done|]. by exists rq0.
Qed.

(** C2.  In bulk mode, with batches to send, page 0 is sent whatever the
    endpoint answers; each page answered 200 is followed by the next, and
    when every page sent is answered 200 all the pages are sent and the run
    ends normally.  The [i]-th request sent carries the [i]-th batch with
    [isFirstPage] true exactly for [i = 0], [isLastPage] true exactly for
    the last batch, and the key [forceRestartUpload] with value true for
    [i = 0] and no such key for [i > 0]; so exactly one page sent has
    [isFirstPage] true, and a run that ends normally has sent one request
    per batch, exactly one of them with [isLastPage] true. *)
Theorem bulk_session_framing (cfg : config) (env : environment)
    (transformed_documents : list pyval) (batches : list (list pyval))
    (w w' : world) (r : result unit) :
  bulk_index_flag cfg = true →
  create_batches transformed_documents (batch_size cfg) = Ok batches →
  push_documents cfg env transformed_documents w = (r, w') →
  ∃ reqs,
    sent w' = sent w ++ reqs
    ∧ (batches ≠ [] → ∃ rq, reqs !! 0%nat = Some rq)
    ∧ (length reqs ≤ length batches)%nat
    ∧ (∀ (i : nat) rq, reqs !! i = Some rq →
         status_of env (length (sent w) + i) rq = Some 200 →
         (S i < length batches)%nat → ∃ rq', reqs !! S i = Some rq')
    ∧ ((∀ (i : nat) rq, reqs !! i = Some rq →
          status_of env (length (sent w) + i) rq = Some 200) →
       r = Ok () ∧ length reqs = length batches)
    ∧ (r = Ok () → length reqs = length batches)
    ∧ ∀ (i : nat) rq, reqs !! i = Some rq →
        req_json rq !! "isFirstPage" = Some (VBool (i =? 0)%nat)
        ∧ req_json rq !! "isLastPage" = Some (VBool (S i =? length batches)%nat)
        ∧ req_json rq !! "forceRestartUpload"
            = (if (i =? 0)%nat then Some (VBool true) else None)
        ∧ ∃ batch, batches !! i = Some batch
                   ∧ req_json rq !! "documents" = Some (VList batch).
Proof.
  intros Hflag Hbatches Hrun. unfold push_documents in Hrun. rewrite Hflag in Hrun.
  apply push_bulk_run in Hrun as (reqs & Hsent & _ & Hout).
  rewrite Hbatches in Hout.
  assert (Hlen : length (bulk_requests cfg (uuid_source env (uuid_calls w))
                           (Z.of_nat (length batches)) 0 batches) = length batches)
    by (unfold bulk_requests; by rewrite length_imap).
  assert (Hok : r = Ok () → length reqs = length batches).
  { intros ->. inversion Hout. done. }
  exists reqs. split; [done|]. split; [|split; [|split; [|split; [|split; [done|]]]]].
  - intros Hne. apply (run_outcome_first _ _ _ _ _ _ Hout).
    intros Hnil. rewrite Hnil in Hlen. by destruct batches.
  - rewrite <- Hlen. by eapply run_outcome_length.
  - intros i rq Hi Hst Hlt. apply (accepted_status env) in Hst.
    destruct (run_outcome_accepted _ _ _ _ _ _ _ _ Hout Hi Hst) as [Hnext|(Hlast & _)].
    + destruct (lookup_lt_is_Some_2 reqs (S i) Hnext) as [rq' Hrq']. by exists rq'.
    + lia.
  - intros Hall. assert (Hr : r = Ok ()).
    { apply (run_outcome_ok_iff _ _ _ _ _ _ Hout). intros j rq Hj.
      apply accepted_status. by apply Hall. }
    auto.
  - intros i rq Hi.
    apply (run_outcome_prefix _ _ _ _ _ _ Hout) in Hi.
    apply bulk_requests_lookup in Hi as (batch & Hbatch & ->).
    cbn [req_json bulk_request].
    destruct (page_body_lookup cfg (uuid_source env (uuid_calls w)) (Z.of_nat i)
                (Z.of_nat i =? Z.of_nat (length batches) - 1) batch)
      as (_ & _ & Hfirst & Hlast & Hdocs & Hforce).
    rewrite last_page_flag in *. change 0 with (Z.of_nat 0) in Hfirst, Hforce.
    rewrite nat_eqb_Z in Hfirst, Hforce. eauto 10.
Qed.

(** C3.  In bulk mode the [k]-th request sent is the one for page [k],
    and when it is answered with a status outside 2xx it is the last
    request of the run (no page after [k] is sent) and the run raises
    [RuntimeError]. *)
Theorem bulk_abort_on_rejected_page (cfg : config) (env : environment)
    (transformed_documents : list pyval) (batches : list (list pyval))
    (w w' : world) (r : result unit) :
  bulk_index_flag cfg = true →
  create_batches transformed_documents (batch_size cfg) = Ok batches →
  push_documents cfg env transformed_documents w = (r, w') →
  ∃ reqs,
    sent w' = sent w ++ reqs
    ∧ (∀ (k : nat) rq, reqs !! k = Some rq →
         ∃ batch, batches !! k = Some batch
                  ∧ rq = bulk_request cfg (uuid_source env (uuid_calls w))
                           (Z.of_nat (length batches)) (Z.of_nat k) batch)
    ∧ ∀ (k : nat) rq status, reqs !! k = Some rq →
        status_of env (length (sent w) + k) rq = Some status →
        ¬ is_2xx status →
        length reqs = S k
        ∧ r = Raise (RuntimeError "Failed to upload batch").
Proof.
  intros Hflag Hbatches Hrun. unfold push_documents in Hrun. rewrite Hflag in Hrun.
  apply push_bulk_run in Hrun as (reqs & Hsent & _ & Hout).
  rewrite Hbatches in Hout. exists reqs. split; [done|]. split.
  { intros k rq Hk. apply (run_outcome_prefix _ _ _ _ _ _ Hout) in Hk.
    by apply bulk_requests_lookup in Hk. }
  intros k rq status Hk Hst Hno.
  destruct (rejected_status env _ _ _ (RuntimeError "Failed to upload batch") Hst)
    as [Hrej Hstop]; [unfold is_2xx in Hno; lia|].
  destruct (run_outcome_rejected env _ _ _ _ _ k rq Hout Hk Hrej) as [Hlen ->].
  by rewrite Hstop.
Qed.

(** C6.  In bulk mode one upload id is generated per run, and every
    request sent carries that id and the configured datasource name. *)
Theorem bulk_upload_id_fixed (cfg : config) (env : environment)
    (transformed_documents : list pyval) (w w' : world) (r : result unit) :
  bulk_index_flag cfg = true →
  push_documents cfg env transformed_documents w = (r, w') →
  uuid_calls w' = S (uuid_calls w)
  ∧ ∃ reqs,
      sent w' = sent w ++ reqs
      ∧ ∀ rq, rq ∈ reqs →
          req_json rq !! "uploadId" = Some (VStr (uuid_source env (uuid_calls w)))
          ∧ req_json rq !! "datasource" = Some (VStr (datasource_name cfg)).
Proof.
  intros Hflag Hrun. unfold push_documents in Hrun. rewrite Hflag in Hrun.
  apply push_bulk_run in Hrun as (reqs & Hsent & Huuid & Hout).
  split; [done|]. exists reqs. split; [done|].
  intros rq Hin. apply list_elem_of_lookup in Hin as [i Hi].
  destruct (create_batches _ _) as [batches|e].
  - apply (run_outcome_prefix _ _ _ _ _ _ Hout) in Hi.
    apply bulk_requests_lookup in Hi as (batch & _ & ->).
    cbn [req_json bulk_request].
    destruct (page_body_lookup cfg (uuid_source env (uuid_calls w)) (Z.of_nat i)
                (Z.of_nat i =? Z.of_nat (length batches) - 1) batch)
      as (Hid & Hds & _). done.
  - destruct Hout as [_ ->]. by rewrite lookup_nil in Hi.
Qed.

Lemma push_bulk_nil (cfg : config) (env : environment) (w : world) :
  push_bulk cfg env [] w
  = (if batch_size cfg =? 0 then Raise ValueError else Ok (),
     {| sent := sent w; logs := logs w; uuid_calls := S (uuid_calls w) |}).
Proof.
  unfold push_bulk, io_bind, io_lift, uuid4, create_batches, py_range.
  cbn [length Z.of_nat]. destruct (batch_size cfg =? 0); [done|].
  unfold range_len. rewrite Z.ltb_irrefl. by destruct (0 <? batch_size cfg).
Qed.

(** C8.  In bulk mode with no document, the push cell sends no request
    and logs nothing, and so does the whole notebook run; with a non-zero
    batch size the run ends normally. *)
Theorem bulk_empty_no_request (cfg : config) (env : environment) (w : world) :
  bulk_index_flag cfg = true →
  ∃ r w',
    push_documents cfg env [] w = (r, w')
    ∧ sent w' = sent w
    ∧ logs w' = logs w
    ∧ (notebook cfg env [] world0).2.(sent) = []
    ∧ (batch_size cfg ≠ 0 → r = Ok () ∧ (notebook cfg env [] world0).1 = Ok ()).
Proof.
  intros Hflag. unfold notebook, push_documents. rewrite Hflag.
  unfold transform_documents. cbn [mapM].
  unfold io_bind at 1 2 3 4. unfold io_lift, logging. cbn [mret result_ret].
  rewrite !push_bulk_nil. do 2 eexists. split; [done|]. cbn.
  split; [done|]. split; [done|]. split; [done|].
  intros Hne. apply Z.eqb_neq in Hne. by rewrite Hne.
Qed.

(** C1 (as the code has it).  In individual mode the documents are
    submitted in order; a document whose request is answered with another
    status than 200 is the last one submitted, and the run raises
    [RuntimeError] there.  The run ends normally only when every document
    was submitted. *)
Theorem individual_abort_on_rejected_document (cfg : config) (env : environment)
    (transformed_documents : list pyval) (w w' : world) (r : result unit) :
  bulk_index_flag cfg = false →
  forallb has_id transformed_documents = true →
  push_documents cfg env transformed_documents w = (r, w') →
  ∃ reqs,
    sent w' = sent w ++ reqs
    ∧ (∀ (j : nat) rq, reqs !! j = Some rq →
         ∃ document, transformed_documents !! j = Some document
                     ∧ rq = document_request cfg document)
    ∧ (∀ (j : nat) rq status, reqs !! j = Some rq →
         status_of env (length (sent w) + j) rq = Some status →
         status ≠ 200 →
         length reqs = S j
         ∧ r = Raise (RuntimeError "Failed to upload document"))
    ∧ (r = Ok () → length reqs = length transformed_documents).
Proof.
  intros Hflag Hid Hrun. unfold push_documents in Hrun. rewrite Hflag in Hrun.
  apply individual_loop_run in Hrun as (reqs & Hsent & _ & Hout); [|done].
  exists reqs. split; [done|]. split; [|split].
  - intros j rq Hj. apply (run_outcome_prefix _ _ _ _ _ _ Hout) in Hj.
    rewrite list_lookup_fmap in Hj.
    destruct (transformed_documents !! j) as [document|]; [|done].
    injection Hj as <-. by exists document.
  - intros j rq status Hj Hst Hno.
    destruct (rejected_status env _ _ _ (RuntimeError "Failed to upload document")
                Hst Hno) as [Hrej Hstop].
    destruct (run_outcome_rejected env _ _ _ _ _ j rq Hout Hj Hrej) as [Hlen ->].
    by rewrite Hstop.
  - intros ->. inversion Hout. by rewrite length_map.
Qed.

(** C4 (as the code has it).  In both modes a request is accepted exactly
    when its answer has status 200: the run ends normally if and only if
    every request it sent was answered 200; a request answered with any
    other status is the last one and the run raises [RuntimeError]; a
    request answered 200 is followed by the next one or by the normal end
    of the run. *)
Theorem upload_accepted_iff_status_200 (cfg : config) (env : environment)
    (transformed_documents : list pyval) (w w' : world) (r : result unit) :
  (bulk_index_flag cfg = true → batch_size cfg ≠ 0) →
  (bulk_index_flag cfg = false → forallb has_id transformed_documents = true) →
  push_documents cfg env transformed_documents w = (r, w') →
  ∃ reqs,
    sent w' = sent w ++ reqs
    ∧ (r = Ok () ↔
       ∀ (k : nat) rq, reqs !! k = Some rq →
         status_of env (length (sent w) + k) rq = Some 200)
    ∧ (∀ (k : nat) rq status, reqs !! k = Some rq →
         status_of env (length (sent w) + k) rq = Some status →
         status ≠ 200 →
         length reqs = S k ∧ ∃ msg, r = Raise (RuntimeError msg))
    ∧ (∀ (k : nat) rq, reqs !! k = Some rq →
         status_of env (length (sent w) + k) rq = Some 200 →
         (S k < length reqs)%nat ∨ r = Ok ()).
Proof.
  intros Hbulk Hind Hrun.
  assert (Hout : ∃ reqs all failure msg,
             sent w' = sent w ++ reqs ∧ failure = RuntimeError msg
             ∧ run_outcome env (length (sent w)) all failure r reqs).
  { unfold push_documents in Hrun. destruct (bulk_index_flag cfg).
    - apply push_bulk_run in Hrun as (reqs & Hsent & _ & Hout).
      destruct (create_batches_nonzero transformed_documents (batch_size cfg))
        as [batches Hb]; [by apply Hbulk|].
      rewrite Hb in Hout. eauto 10.
    - apply individual_loop_run in Hrun as (reqs & Hsent & _ & Hout);
        [eauto 10|by apply Hind]. }
  destruct Hout as (reqs & all & failure & msg & Hsent & -> & Hout).
  exists reqs. split; [done|]. split; [|split].
  - rewrite (run_outcome_ok_iff _ _ _ _ _ _ Hout). unfold all_accepted.
    split; intros H k rq Hk; specialize (H k rq Hk); by apply accepted_status.
  - intros k rq status Hk Hst Hno.
    destruct (rejected_status env _ _ _ (RuntimeError msg) Hst Hno) as [Hrej Hstop].
    destruct (run_outcome_rejected env _ _ _ _ _ k rq Hout Hk Hrej) as [Hlen ->].
    rewrite Hstop. eauto.
  - intros k rq Hk Hyes. apply accepted_status in Hyes.
    destruct (run_outcome_accepted env _ _ _ _ _ k rq Hout Hk Hyes)
      as [Hlt|(_ & _ & ->)]; [by left|by right].
Qed.

(** ** What the transformer does *)

Lemma transform_document_ok (cfg : config) (env : environment)
    (document : gmap string pyval) id url title bin email name date_created createdAt :
  document !! "id" = Some id →
  document !! "url" = Some url →
  document !! "title" = Some title →
  document !! "binary_content" = Some (VBytes bin) →
  document !! "authorEmail" = Some email →
  document !! "author" = Some name →
  document !! "date_created" = Some date_created →
  convert_timestamp_to_epoch_seconds env date_created = Ok createdAt →
  transform_document cfg env document =
    Ok (VDict (
      <["datasource" := VStr (datasource_name cfg)]> (
      <["id" := id]> (
      <["objectType" := VStr (object_type cfg)]> (
      <["viewURL" := url]> (
      <["permissions" := VDict (<["allowAnonymousAccess" := VBool true]> ∅)]> (
      <["title" := title]> (
      <["body" := VDict (<["mimeType" := VStr "application/pdf"]> (
                         <["binaryContent" :=
                             VStr (string_of_list_byte (b64encode bin))]> ∅))]> (
      <["author" := VDict (<["email" := email]> (<["name" := name]> ∅))]> (
      <["createdAt" := VInt createdAt]> ∅)))))))))).
Proof.
  intros Hid Hurl Htitle Hbin Hemail Hname Hdate Hconv. unfold transform_document.
  rewrite (getitem_Some _ _ _ Hid), (getitem_Some _ _ _ Hurl),
    (getitem_Some _ _ _ Htitle), (getitem_Some _ _ _ Hbin),
    (getitem_Some _ _ _ Hemail), (getitem_Some _ _ _ Hname),
    (getitem_Some _ _ _ Hdate).
  rewrite !result_bind_ok, convert_raw_binary_ok, !result_bind_ok, Hconv.
  reflexivity.
Qed.

(** C7 (as the code has it).  For a pulled document with [id], [url],
    [title] and [binary_content]: when it also has [authorEmail], [author]
    and a [date_created] that converts, the record has every required
    field, with the body's content decoding back to the binary content, and
    has [author] and [createdAt] too; when one of these three keys is
    absent, no record is produced: [KeyError] is raised for the first
    absent one. *)
Theorem transform_document_fields (cfg : config) (env : environment)
    (document : gmap string pyval) (id url title : pyval) (bin : list byte) :
  document !! "id" = Some id →
  document !! "url" = Some url →
  document !! "title" = Some title →
  document !! "binary_content" = Some (VBytes bin) →
  (∀ email name date_created createdAt,
      document !! "authorEmail" = Some email →
      document !! "author" = Some name →
      document !! "date_created" = Some date_created →
      convert_timestamp_to_epoch_seconds env date_created = Ok createdAt →
      ∃ (rec : gmap string pyval) (content : string),
        transform_document cfg env document = Ok (VDict rec)
        ∧ rec !! "datasource" = Some (VStr (datasource_name cfg))
        ∧ rec !! "id" = Some id
        ∧ rec !! "objectType" = Some (VStr (object_type cfg))
        ∧ rec !! "viewURL" = Some url
        ∧ rec !! "permissions"
            = Some (VDict (<["allowAnonymousAccess" := VBool true]> ∅))
        ∧ rec !! "title" = Some title
        ∧ rec !! "body"
            = Some (VDict (<["mimeType" := VStr "application/pdf"]> (
                           <["binaryContent" := VStr content]> ∅)))
        ∧ b64decode content = Some bin
        ∧ rec !! "author"
            = Some (VDict (<["email" := email]> (<["name" := name]> ∅)))
        ∧ rec !! "createdAt" = Some (VInt createdAt))
  ∧ (document !! "authorEmail" = None →
     transform_document cfg env document = Raise (KeyError "authorEmail"))
  ∧ (is_Some (document !! "authorEmail") → document !! "author" = None →
     transform_document cfg env document = Raise (KeyError "author"))
  ∧ (is_Some (document !! "authorEmail") → is_Some (document !! "author") →
     document !! "date_created" = None →
     transform_document cfg env document = Raise (KeyError "date_created")).
Proof.
  intros Hid Hurl Htitle Hbin. split; [|split; [|split]].
  - intros email name date_created createdAt Hemail Hname Hdate Hconv.
    do 2 eexists. split.
    { by eapply transform_document_ok. }
    repeat split; try by simplify_map_eq.
    unfold b64decode. rewrite list_byte_of_string_of_list_byte.
    apply b64decode_encode.
  - intros Hemail. unfold transform_document.
    rewrite (getitem_Some _ _ _ Hid), (getitem_Some _ _ _ Hurl),
      (getitem_Some _ _ _ Htitle), (getitem_Some _ _ _ Hbin).
    rewrite !result_bind_ok, convert_raw_binary_ok, result_bind_ok.
    by rewrite (getitem_None _ _ Hemail).
  - intros [email Hemail] Hname. unfold transform_document.
    rewrite (getitem_Some _ _ _ Hid), (getitem_Some _ _ _ Hurl),
      (getitem_Some _ _ _ Htitle), (getitem_Some _ _ _ Hbin),
      (getitem_Some _ _ _ Hemail).
    rewrite !result_bind_ok, convert_raw_binary_ok, !result_bind_ok.
    by rewrite (getitem_None _ _ Hname).
  - intros [email Hemail] [name Hname] Hdate. unfold transform_document.
    rewrite (getitem_Some _ _ _ Hid), (getitem_Some _ _ _ Hurl),
      (getitem_Some _ _ _ Htitle), (getitem_Some _ _ _ Hbin),
      (getitem_Some _ _ _ Hemail), (getitem_Some _ _ _ Hname).
    rewrite !result_bind_ok, convert_raw_binary_ok, !result_bind_ok.
    by rewrite (getitem_None _ _ Hdate).
Qed.


(** *** The conversion of local time *)



Lemma local_ok_inv (utcoffset : Z → Z) (u t : Z) :
  local utcoffset u = Ok t → t = u + utcoffset u.
Proof.
  unfold local. cbv zeta. destruct (_ && _); [|done]. by intros [= <-].
Qed.

(** On a clock at a fixed offset the instant found, when one is found, is
    the reading less the offset. *)
Lemma mktime_fixed_offset (offset t u : Z) :
  mktime (fun _ => offset) t = Ok u → u = t - offset.
Proof.
  unfold mktime.
  destruct (local (fun _ => offset) t) as [lt|] eqn:E0; [|done].
  apply local_ok_inv in E0 as ->. rewrite result_bind_ok. cbv zeta.
  replace (t - (t + offset - t)) with (t - offset) by lia.
  destruct (local (fun _ => offset) (t - offset)) as [t1|] eqn:E1; [|done].
  apply local_ok_inv in E1 as ->. rewrite result_bind_ok.
  replace (t - offset + offset) with t by lia. rewrite Z.eqb_refl.
  destruct (local (fun _ => offset) (t - offset - 24 * 3600)) as [lt2|] eqn:E2; [|done].
  apply local_ok_inv in E2 as ->. rewrite result_bind_ok.
  replace (t - offset - 24 * 3600 + offset - (t - offset - 24 * 3600)) with offset by lia.
  replace (t + offset - t) with offset by lia. rewrite Z.eqb_refl.
  by intros [= <-].
Qed.



(** ** The statements on sample runs *)

(** 250 documents in batches of 100 make pages of 100, 100 and 50. *)
Example pages_of_250_by_100 :
  match create_batches (replicate 250 VNone) 100 with
  | Ok batches => map length batches
  | Raise _ => []
  end = [100; 100; 50]%nat.
Proof. vm_compute. reflexivity. Qed.

(** The notebook's own timestamp, on a clock set to UTC. *)
Example sample_timestamp :
  convert_timestamp_to_epoch_seconds (Sample.env_of []) (VStr "2024-12-15T03:05:58Z")
  = Ok 1734231958.
Proof. vm_compute. reflexivity. Qed.

(** [strptime] accepts fields without leading zeros and letters in lower
    case. *)
Example lenient_timestamp :
  strptime "2024-1-5t3:5:8z" = Ok (mk_datetime 2024 1 5 3 5 8).
Proof. vm_compute. reflexivity. Qed.

(** Five items in batches of two. *)
Lemma create_batches_spec_witness :
  0 < 2
  ∧ ∃ batches : list (list Z),
      create_batches [1; 2; 3; 4; 5] 2 = Ok batches
      ∧ Z.of_nat (length batches) = ceil_div 5 2
      ∧ concat batches = [1; 2; 3; 4; 5]
      ∧ (∀ (k : nat) batch, batches !! k = Some batch →
           (S k < length batches)%nat → Z.of_nat (length batch) = 2)
      ∧ (∀ batch, last batches = Some batch →
           Z.of_nat (length batch) = if 5 mod 2 =? 0 then 2 else 5 mod 2)
      ∧ ([1; 2; 3; 4; 5] = [] → batches = []).
Proof.
  split; [lia|]. apply (create_batches_spec [1; 2; 3; 4; 5] 2). lia.
Defined.

(** Five records in three pages, all accepted. *)
Lemma bulk_session_framing_witness :
  ∃ reqs,
    sent (push_documents Sample.cfg_bulk (Sample.env_of []) Sample.records5 world0).2
    = sent world0 ++ reqs
    ∧ (Sample.batches5 ≠ [] → ∃ rq, reqs !! 0%nat = Some rq)
    ∧ (length reqs ≤ length Sample.batches5)%nat
    ∧ (∀ (i : nat) rq, reqs !! i = Some rq →
         status_of (Sample.env_of []) (length (sent world0) + i) rq = Some 200 →
         (S i < length Sample.batches5)%nat → ∃ rq', reqs !! S i = Some rq')
    ∧ ((∀ (i : nat) rq, reqs !! i = Some rq →
          status_of (Sample.env_of []) (length (sent world0) + i) rq = Some 200) →
       (push_documents Sample.cfg_bulk (Sample.env_of []) Sample.records5 world0).1
       = Ok ()
       ∧ length reqs = length Sample.batches5)
    ∧ ((push_documents Sample.cfg_bulk (Sample.env_of []) Sample.records5 world0).1
       = Ok () → length reqs = length Sample.batches5)
    ∧ ∀ (i : nat) rq, reqs !! i = Some rq →
        req_json rq !! "isFirstPage" = Some (VBool (i =? 0)%nat)
        ∧ req_json rq !! "isLastPage"
          = Some (VBool (S i =? length Sample.batches5)%nat)
        ∧ req_json rq !! "forceRestartUpload"
            = (if (i =? 0)%nat then Some (VBool true) else None)
        ∧ ∃ batch, Sample.batches5 !! i = Some batch
                   ∧ req_json rq !! "documents" = Some (VList batch).
Proof.
  apply (bulk_session_framing Sample.cfg_bulk (Sample.env_of []) Sample.records5
           Sample.batches5 world0 _
           (push_documents Sample.cfg_bulk (Sample.env_of []) Sample.records5 world0).1).
  - reflexivity.
  - vm_compute. reflexivity.
  - apply surjective_pairing.
Defined.

(** Three pages, the second answered 400. *)
Lemma bulk_abort_on_rejected_page_witness :
  ∃ reqs,
    sent (push_documents Sample.cfg_bulk (Sample.env_of [200; 400])
            Sample.records5 world0).2
    = sent world0 ++ reqs
    ∧ (∀ (k : nat) rq, reqs !! k = Some rq →
         ∃ batch, Sample.batches5 !! k = Some batch
                  ∧ rq = bulk_request Sample.cfg_bulk "6f1c" 3 (Z.of_nat k) batch)
    ∧ ∀ (k : nat) rq status, reqs !! k = Some rq →
        status_of (Sample.env_of [200; 400]) (length (sent world0) + k) rq
        = Some status →
        ¬ is_2xx status →
        length reqs = S k
        ∧ (push_documents Sample.cfg_bulk (Sample.env_of [200; 400])
             Sample.records5 world0).1
          = Raise (RuntimeError "Failed to upload batch").
Proof.
  apply (bulk_abort_on_rejected_page Sample.cfg_bulk (Sample.env_of [200; 400])
           Sample.records5 Sample.batches5 world0 _ _).
  - reflexivity.
  - vm_compute. reflexivity.
  - apply surjective_pairing.
Defined.

(** The upload id on the same run. *)
Lemma bulk_upload_id_fixed_witness :
  uuid_calls (push_documents Sample.cfg_bulk (Sample.env_of [200; 400])
                Sample.records5 world0).2 = 1%nat
  ∧ ∃ reqs,
      sent (push_documents Sample.cfg_bulk (Sample.env_of [200; 400])
              Sample.records5 world0).2
      = sent world0 ++ reqs
      ∧ ∀ rq, rq ∈ reqs →
          req_json rq !! "uploadId" = Some (VStr "6f1c")
          ∧ req_json rq !! "datasource" = Some (VStr "mydocumentportal").
Proof.
  apply (bulk_upload_id_fixed Sample.cfg_bulk (Sample.env_of [200; 400])
           Sample.records5 world0 _
           (push_documents Sample.cfg_bulk (Sample.env_of [200; 400])
              Sample.records5 world0).1).
  - reflexivity.
  - apply surjective_pairing.
Defined.

(** No document, on the sample configuration. *)
Lemma bulk_empty_no_request_witness :
  ∃ r w',
    push_documents Sample.cfg_bulk (Sample.env_of []) [] world0 = (r, w')
    ∧ sent w' = sent world0
    ∧ logs w' = logs world0
    ∧ (notebook Sample.cfg_bulk (Sample.env_of []) [] world0).2.(sent) = []
    ∧ (batch_size Sample.cfg_bulk ≠ 0 →
       r = Ok () ∧ (notebook Sample.cfg_bulk (Sample.env_of []) [] world0).1 = Ok ()).
Proof.
  apply (bulk_empty_no_request Sample.cfg_bulk (Sample.env_of []) world0).
  reflexivity.
Defined.

(** Three documents one at a time, the second answered 500.  The
    third is never submitted and the run raises. *)
Lemma individual_mode_stops_at_failure :
  status_of (Sample.env_of [200; 500; 200]) 1
    (document_request Sample.cfg_individual (Sample.record "b.pdf")) = Some 500
  ∧ (push_documents Sample.cfg_individual (Sample.env_of [200; 500; 200])
       Sample.records3 world0).1
    = Raise (RuntimeError "Failed to upload document")
  ∧ sent (push_documents Sample.cfg_individual (Sample.env_of [200; 500; 200])
            Sample.records3 world0).2
    = [document_request Sample.cfg_individual (Sample.record "a.pdf");
       document_request Sample.cfg_individual (Sample.record "b.pdf")].
Proof. vm_compute. repeat split; reflexivity. Qed.

Lemma individual_abort_on_rejected_document_witness :
  ∃ reqs,
    sent (push_documents Sample.cfg_individual (Sample.env_of [200; 500; 200])
            Sample.records3 world0).2
    = sent world0 ++ reqs
    ∧ (∀ (j : nat) rq, reqs !! j = Some rq →
         ∃ document, Sample.records3 !! j = Some document
                     ∧ rq = document_request Sample.cfg_individual document)
    ∧ (∀ (j : nat) rq status, reqs !! j = Some rq →
         status_of (Sample.env_of [200; 500; 200]) (length (sent world0) + j) rq
         = Some status →
         status ≠ 200 →
         length reqs = S j
         ∧ (push_documents Sample.cfg_individual (Sample.env_of [200; 500; 200])
              Sample.records3 world0).1
           = Raise (RuntimeError "Failed to upload document"))
    ∧ ((push_documents Sample.cfg_individual (Sample.env_of [200; 500; 200])
          Sample.records3 world0).1 = Ok () →
       length reqs = length Sample.records3).
Proof.
  apply (individual_abort_on_rejected_document Sample.cfg_individual
           (Sample.env_of [200; 500; 200]) Sample.records3 world0 _ _).
  - reflexivity.
  - vm_compute. reflexivity.
  - apply surjective_pairing.
Defined.

(** A page answered 201, a status of the 2xx class, is rejected: the
    run raises and the two pages after it are not sent. *)
Lemma status_201_is_rejected :
  status_of (Sample.env_of [201]) 0
    (bulk_request Sample.cfg_bulk "6f1c" 3 0
       [Sample.record "a.pdf"; Sample.record "b.pdf"]) = Some 201
  ∧ is_2xx 201
  ∧ (push_documents Sample.cfg_bulk (Sample.env_of [201]) Sample.records5 world0).1
    = Raise (RuntimeError "Failed to upload batch")
  ∧ sent (push_documents Sample.cfg_bulk (Sample.env_of [201]) Sample.records5 world0).2
    = [bulk_request Sample.cfg_bulk "6f1c" 3 0
         [Sample.record "a.pdf"; Sample.record "b.pdf"]].
Proof.
  split; [reflexivity|]. split; [unfold is_2xx; lia|].
  vm_compute. split; reflexivity.
Qed.

Lemma upload_accepted_iff_status_200_witness :
  ∃ reqs,
    sent (push_documents Sample.cfg_bulk (Sample.env_of [201]) Sample.records5 world0).2
    = sent world0 ++ reqs
    ∧ ((push_documents Sample.cfg_bulk (Sample.env_of [201]) Sample.records5 world0).1
       = Ok () ↔
       ∀ (k : nat) rq, reqs !! k = Some rq →
         status_of (Sample.env_of [201]) (length (sent world0) + k) rq = Some 200)
    ∧ (∀ (k : nat) rq status, reqs !! k = Some rq →
         status_of (Sample.env_of [201]) (length (sent world0) + k) rq = Some status →
         status ≠ 200 →
         length reqs = S k
         ∧ ∃ msg,
             (push_documents Sample.cfg_bulk (Sample.env_of [201])
                Sample.records5 world0).1
             = Raise (RuntimeError msg))
    ∧ (∀ (k : nat) rq, reqs !! k = Some rq →
         status_of (Sample.env_of [201]) (length (sent world0) + k) rq = Some 200 →
         (S k < length reqs)%nat
         ∨ (push_documents Sample.cfg_bulk (Sample.env_of [201])
              Sample.records5 world0).1 = Ok ()).
Proof.
  apply (upload_accepted_iff_status_200 Sample.cfg_bulk (Sample.env_of [201])
           Sample.records5 world0 _ _).
  - intros _. vm_compute. discriminate.
  - intros H. vm_compute in H. discriminate H.
  - apply surjective_pairing.
Defined.

(** A pulled document with the required fields and without author
    and creation date yields no record. *)
Lemma bare_document_yields_no_record :
  Sample.bare_document "a.pdf" !! "id" = Some (VStr "a.pdf")
  ∧ Sample.bare_document "a.pdf" !! "url"
    = Some (VStr "https://mywebsite.com/files/a.pdf")
  ∧ Sample.bare_document "a.pdf" !! "title" = Some (VStr "Sample Document")
  ∧ Sample.bare_document "a.pdf" !! "binary_content"
    = Some (VBytes (list_byte_of_string "%PDF-1.4"))
  ∧ Sample.bare_document "a.pdf" !! "authorEmail" = None
  ∧ Sample.bare_document "a.pdf" !! "author" = None
  ∧ Sample.bare_document "a.pdf" !! "date_created" = None
  ∧ transform_document Sample.cfg_bulk (Sample.env_of []) (Sample.bare_document "a.pdf")
    = Raise (KeyError "authorEmail").
Proof. vm_compute. repeat split; reflexivity. Qed.

Lemma transform_document_fields_witness :
  (∃ (rec : gmap string pyval) (content : string),
     transform_document Sample.cfg_bulk (Sample.env_of []) (Sample.raw_document "a.pdf")
     = Ok (VDict rec)
     ∧ rec !! "datasource" = Some (VStr "mydocumentportal")
     ∧ rec !! "id" = Some (VStr "a.pdf")
     ∧ rec !! "objectType" = Some (VStr "policy")
     ∧ rec !! "viewURL" = Some (VStr "https://mywebsite.com/files/a.pdf")
     ∧ rec !! "permissions"
         = Some (VDict (<["allowAnonymousAccess" := VBool true]> ∅))
     ∧ rec !! "title" = Some (VStr "Sample Document")
     ∧ rec !! "body"
         = Some (VDict (<["mimeType" := VStr "application/pdf"]> (
                        <["binaryContent" := VStr content]> ∅)))
     ∧ b64decode content = Some (list_byte_of_string "%PDF-1.4")
     ∧ rec !! "author"
         = Some (VDict (<["email" := VStr "john.doe@acme.com"]> (
                        <["name" := VStr "John Doe"]> ∅)))
     ∧ rec !! "createdAt" = Some (VInt 1734231958))
  ∧ transform_document Sample.cfg_bulk (Sample.env_of [])
      (delete "date_created" (Sample.raw_document "a.pdf"))
    = Raise (KeyError "date_created").
Proof.
  split.
  - destruct (transform_document_fields Sample.cfg_bulk (Sample.env_of [])
                (Sample.raw_document "a.pdf") (VStr "a.pdf")
                (VStr "https://mywebsite.com/files/a.pdf") (VStr "Sample Document")
                (list_byte_of_string "%PDF-1.4")) as (H & _);
      [vm_compute; reflexivity ..|].
    apply (H (VStr "john.doe@acme.com") (VStr "John Doe")
             (VStr "2024-12-15T03:05:58Z") 1734231958);
      vm_compute; reflexivity.
  - destruct (transform_document_fields Sample.cfg_bulk (Sample.env_of [])
                (delete "date_created" (Sample.raw_document "a.pdf")) (VStr "a.pdf")
                (VStr "https://mywebsite.com/files/a.pdf") (VStr "Sample Document")
                (list_byte_of_string "%PDF-1.4")) as (_ & _ & _ & H);
      [vm_compute; reflexivity ..|].
    apply H; vm_compute; eauto.
Defined.


(** The first instant a [datetime] holds, on a machine set to UTC: the
    text is read, and [timestamp()] raises. *)
Example year_one_timestamp :
  strptime "0001-01-01T00:00:00Z" = Ok (mk_datetime 1 1 1 0 0 0)
  ∧ convert_timestamp_to_epoch_seconds (SampleClock.env_utc [])
      (VStr "0001-01-01T00:00:00Z") = Raise ValueError
  ∧ convert_timestamp_to_epoch_seconds (SampleClock.env_utc [])
      (VStr "0001-01-02T00:00:00Z") = Ok (-62135510400).
Proof. vm_compute. repeat split. Qed.


(** * Further properties *)

(** ** Where the batcher puts each item *)

(** X1.  With a positive batch size, the item at position [p] of the list
    is the item at position [p mod B] of batch [p / B]; every item of a
    batch comes from that position of the list, and no batch is empty. *)
Theorem create_batches_position {A : Type} (lst : list A) (B : Z)
    (batches : list (list A)) :
  0 < B →
  create_batches lst B = Ok batches →
  (∀ (p : nat) x, lst !! p = Some x →
     ∃ batch, batches !! (p / Z.to_nat B)%nat = Some batch
              ∧ batch !! (p mod Z.to_nat B)%nat = Some x)
  ∧ (∀ (k j : nat) batch x, batches !! k = Some batch → batch !! j = Some x →
       (j < Z.to_nat B)%nat ∧ lst !! (k * Z.to_nat B + j)%nat = Some x)
  ∧ (∀ batch, batch ∈ batches → batch ≠ []).
Proof.
  intros HB Hrun. rewrite create_batches_eq in Hrun by done.
  injection Hrun as <-.
  set (b := Z.to_nat B). assert (Hb : (0 < b)%nat) by (subst b; lia).
  set (N := Z.of_nat (length lst)).
  pose proof (range_len_batches N B ltac:(lia) HB) as Hlen.
  pose proof (ceil_div_spec N B HB) as Hceil.
  set (m := range_len 0 N B) in *.
  assert (Hchunk : ∀ k : nat, (k < m)%nat →
            map (λ k : nat, take b (drop (k * b) lst)) (seq 0 m) !! k
            = Some (take b (drop (k * b) lst))).
  { intros k Hk. rewrite list_lookup_fmap, lookup_seq_lt by done. done. }
  split; [|split].
  - intros p x Hp. pose proof (lookup_lt_Some _ _ _ Hp) as Hlt.
    pose proof (Nat.div_mod_eq p b) as Hdm.
    pose proof (Nat.mod_upper_bound p b ltac:(lia)) as Hmod.
    assert (Hk : (p / b < m)%nat) by nia.
    eexists. split; [by apply Hchunk|].
    rewrite lookup_take by done. rewrite lookup_drop, <- Hp.
    case_decide; [|lia]. f_equal. nia.
  - intros k j batch x Hk Hj.
    rewrite list_lookup_fmap in Hk.
    destruct (seq 0 m !! k) as [k'|] eqn:Hseq; [|done].
    apply lookup_seq in Hseq as [-> Hkm]. simpl in Hk. injection Hk as <-.
    apply lookup_take_Some in Hj as [Hj Hjb]. rewrite lookup_drop in Hj.
    split; [done|]. by rewrite <- Hj.
  - intros batch Hin. apply list_elem_of_lookup in Hin as [k Hk].
    rewrite list_lookup_fmap in Hk.
    destruct (seq 0 m !! k) as [k'|] eqn:Hseq; [|done].
    apply lookup_seq in Hseq as [-> Hkm]. simpl in Hk. injection Hk as <-.
    intros Hnil. apply (f_equal length) in Hnil.
    rewrite length_take, length_drop in Hnil. simpl in Hnil. nia.
Qed.

Lemma create_batches_concat {A : Type} (lst : list A) (B : Z) batches :
  0 < B → create_batches lst B = Ok batches → concat batches = lst.
Proof.
  intros HB Hrun. rewrite create_batches_eq in Hrun by done. injection Hrun as <-.
  rewrite concat_chunks. apply take_ge.
  pose proof (range_len_batches (Z.of_nat (length lst)) B ltac:(lia) HB) as Hlen.
  pose proof (ceil_div_spec (Z.of_nat (length lst)) B HB) as Hceil. nia.
Qed.

(** ** The shape of the base64 text *)

(** Induction over byte strings three bytes at a time. *)
Lemma triples_ind (P : list byte → Prop) :
  P [] → (∀ a, P [a]) → (∀ a b, P [a; b]) →
  (∀ a b c rest, P rest → P (a :: b :: c :: rest)) →
  ∀ bs, P bs.
Proof.
  intros H0 H1 H2 H3. fix IH 1.
  intros [|a [|b [|c rest]]]; [exact H0|apply H1|apply H2|apply H3; apply IH].
Qed.

Lemma b64encode_length (bs : list byte) :
  length (b64encode bs) = (4 * ((length bs + 2) / 3))%nat.
Proof.
  induction bs as [|a|a b|a b c rest IH] using triples_ind; [done..|].
  cbn [b64encode length]. rewrite IH.
  replace (S (S (S (length rest))) + 2)%nat with (length rest + 2 + 1 * 3)%nat by lia.
  rewrite Nat.div_add by lia. lia.
Qed.

Lemma string_of_list_byte_length (bs : list byte) :
  String.length (string_of_list_byte bs) = length bs.
Proof.
  unfold string_of_list_byte.
  induction bs as [|b bs IH]; [done|]. cbn. by rewrite IH.
Qed.

Lemma string_of_list_byte_app (a b : list byte) :
  string_of_list_byte (a ++ b)
  = (string_of_list_byte a +:+ string_of_list_byte b)%string.
Proof.
  unfold string_of_list_byte.
  induction a as [|x a IH]; [done|]. cbn [app map string_of_list_ascii].
  rewrite IH. done.
Qed.

Lemma b64_char_in_alphabet (v : Z) : 0 ≤ v < 64 → b64_char v ∈ b64_alphabet.
Proof.
  intros Hv. unfold b64_char. apply list_elem_of_In, nth_In.
  change (length b64_alphabet) with 64%nat. lia.
Qed.

Lemma sextet_in_alphabet n k : 0 ≤ k → sextet n k ∈ b64_alphabet.
Proof. intros Hk. apply b64_char_in_alphabet. by apply six_range. Qed.

Lemma b64encode_shape (bs : list byte) :
  ∃ body,
    b64encode bs = body ++ replicate ((3 - length bs mod 3) mod 3) b64_pad
    ∧ Forall (λ c, c ∈ b64_alphabet) body.
Proof.
  induction bs as [|a|a b|a b c rest IH] using triples_ind.
  - by exists [].
  - exists [sextet (Z.shiftl (Z_of_byte a) 16) 18; sextet (Z.shiftl (Z_of_byte a) 16) 12].
    split; [done|]. repeat (apply Forall_cons_2; [by apply sextet_in_alphabet|]). done.
  - eexists [_; _; _]. split; [reflexivity|].
    repeat (apply Forall_cons_2; [by apply sextet_in_alphabet|]). done.
  - destruct IH as (body & Heq & Hall).
    eexists (_ :: _ :: _ :: _ :: body). split.
    + cbn [b64encode length]. rewrite Heq.
      replace (S (S (S (length rest))) mod 3)%nat with (length rest mod 3)%nat; [done|].
      replace (S (S (S (length rest)))) with (length rest + 1 * 3)%nat by lia.
      by rewrite Nat.Div0.mod_add.
    + repeat (apply Forall_cons_2; [by apply sextet_in_alphabet|]). done.
Qed.

Lemma b64encode_app (a b : list byte) :
  (length a mod 3 = 0)%nat →
  b64encode (a ++ b) = b64encode a ++ b64encode b.
Proof.
  induction a as [|x|x y|x y z rest IH] using triples_ind; intros Hlen.
  - done.
  - discriminate Hlen.
  - discriminate Hlen.
  - cbn [app b64encode]. rewrite IH; [done|].
    cbn [length] in Hlen.
    replace (S (S (S (length rest)))) with (length rest + 1 * 3)%nat in Hlen by lia.
    by rewrite Nat.Div0.mod_add in Hlen.
Qed.

(** X2.  The text returned for [n] bytes has 4 * ceil(n / 3) characters:
    characters of the base64 alphabet followed by as many ['='] as bytes
    are missing from the last group of three. *)
Theorem base64_text_shape (b : list byte) :
  ∃ s body,
    convert_raw_binary_to_base64_string (VBytes b) = Ok s
    ∧ String.length s = (4 * ((length b + 2) / 3))%nat
    ∧ list_byte_of_string s
      = body ++ replicate ((3 - length b mod 3) mod 3) b64_pad
    ∧ Forall (λ c, c ∈ b64_alphabet) body.
Proof.
  destruct (b64encode_shape b) as (body & Heq & Hall).
  exists (string_of_list_byte (b64encode b)), body.
  split; [apply convert_raw_binary_ok|].
  split; [by rewrite string_of_list_byte_length, b64encode_length|].
  by rewrite list_byte_of_string_of_list_byte.
Qed.

(** X3.  Content cut after a multiple of three bytes can be converted
    piece by piece: the text of the whole is the text of the first piece
    followed by the text of the second. *)
Theorem base64_text_of_chunks (a b : list byte) :
  (length a mod 3 = 0)%nat →
  ∃ sa sb,
    convert_raw_binary_to_base64_string (VBytes a) = Ok sa
    ∧ convert_raw_binary_to_base64_string (VBytes b) = Ok sb
    ∧ convert_raw_binary_to_base64_string (VBytes (a ++ b)) = Ok (sa +:+ sb)%string.
Proof.
  intros Hlen. do 2 eexists.
  split; [apply convert_raw_binary_ok|]. split; [apply convert_raw_binary_ok|].
  by rewrite convert_raw_binary_ok, b64encode_app, string_of_list_byte_app.
Qed.

(** ** Timestamps: trailing text, order and range *)

Lemma string_of_list_ascii_app (a b : list ascii) :
  string_of_list_ascii (a ++ b)
  = (string_of_list_ascii a +:+ string_of_list_ascii b)%string.
Proof. induction a as [|x a IH]; [done|]. cbn. by rewrite IH. Qed.

Lemma list_ascii_of_string_app (a b : string) :
  list_ascii_of_string (a +:+ b) = list_ascii_of_string a ++ list_ascii_of_string b.
Proof.
  induction a as [|x a IH]; [done|].
  change (String x a +:+ b)%string with (String x (a +:+ b)).
  cbn [list_ascii_of_string]. by rewrite IH.
Qed.

Lemma strptime_trailing_text (dt : datetime) (extra : string) :
  valid_datetime dt = true →
  extra ≠ ""%string →
  strptime (isoformat dt +:+ extra) = Raise ValueError.
Proof.
  intros Hvalid Hextra. unfold strptime, format_fields, regex_match, isoformat.
  rewrite <- (string_of_list_ascii_of_string extra), <- string_of_list_ascii_app.
  rewrite list_ascii_of_string_of_list_ascii.
  rewrite (hits_format_regex dt Hvalid _ (list_ascii_of_string extra) [] _
             (list_ascii_of_string extra, groups_of dt [])) by done.
  destruct (list_ascii_of_string extra) as [|c cs] eqn:E; [|done].
  exfalso. apply Hextra. by rewrite <- (string_of_list_ascii_of_string extra), E.
Qed.

Lemma strptime_valid (s : string) (dt : datetime) :
  strptime s = Ok dt → valid_datetime dt = true.
Proof.
  unfold strptime. destruct (format_fields s) as [dt'|]; [|done].
  destruct (valid_datetime dt') eqn:E; [|done]. by intros [= <-].
Qed.

(** X4.  Text after the ['Z'] of a well-formed timestamp (an offset, a
    fraction, a blank) makes the conversion raise [ValueError]. *)
Theorem timestamp_rejects_trailing_text (env : environment) (dt : datetime)
    (extra : string) :
  valid_datetime dt = true →
  extra ≠ ""%string →
  convert_timestamp_to_epoch_seconds env (VStr (isoformat dt +:+ extra))
  = Raise ValueError.
Proof.
  intros Hvalid Hextra. unfold convert_timestamp_to_epoch_seconds.
  by rewrite strptime_trailing_text.
Qed.

Lemma datetime_trichotomy (a b : datetime) :
  datetime_before a b ∨ a = b ∨ datetime_before b a.
Proof.
  destruct a as [y m d H M S], b as [y' m' d' H' M' S']. unfold datetime_before.
  cbn [year month day hour minute second].
  destruct (Z.lt_trichotomy y y') as [?|[->|?]]; [tauto| |tauto].
  destruct (Z.lt_trichotomy m m') as [?|[->|?]]; [tauto| |tauto].
  destruct (Z.lt_trichotomy d d') as [?|[->|?]]; [tauto| |tauto].
  destruct (Z.lt_trichotomy H H') as [?|[->|?]]; [tauto| |tauto].
  destruct (Z.lt_trichotomy M M') as [?|[->|?]]; [tauto| |tauto].
  destruct (Z.lt_trichotomy S S') as [?|[->|?]]; tauto.
Qed.

(** X5.  On a machine whose local time is at a fixed offset from UTC
    wherever the conversion succeeds, the conversion keeps the order of
    time: of two texts it converts, the one whose fields come first, and
    only that one, gets the smaller number of seconds. *)
Theorem timestamps_keep_their_order (env : environment) (offset : Z)
    (sa sb : string) (a b : datetime) (ta tb : Z) :
  (∀ t u, local_to_epoch env t = Ok u → u = t - offset) →
  strptime sa = Ok a →
  strptime sb = Ok b →
  convert_timestamp_to_epoch_seconds env (VStr sa) = Ok ta →
  convert_timestamp_to_epoch_seconds env (VStr sb) = Ok tb →
  datetime_before a b ↔ ta < tb.
Proof.
  intros Hclock Ha Hb Hta Htb. unfold convert_timestamp_to_epoch_seconds in Hta, Htb.
  rewrite Ha, result_bind_ok in Hta. rewrite Hb, result_bind_ok in Htb.
  apply Hclock in Hta, Htb. subst ta tb.
  pose proof (strptime_valid _ _ Ha) as Va. pose proof (strptime_valid _ _ Hb) as Vb.
  split.
  - intros Hlt. pose proof (wall_seconds_increasing a b Va Vb Hlt). lia.
  - intros Hlt. destruct (datetime_trichotomy a b) as [H|[->|H]]; [done|lia|].
    pose proof (wall_seconds_increasing b a Vb Va H). lia.
Qed.

(** X6.  On a machine whose local time is at a fixed offset from UTC
    wherever the conversion succeeds, every value the conversion returns
    lies between the seconds of 0001-01-01T00:00:00 and of
    9999-12-31T23:59:59 on that clock; at an offset of less than a day
    this is inside the range in which a float is exact. *)
Theorem timestamp_range (env : environment) (offset : Z) (s : string) (t : Z) :
  (∀ x u, local_to_epoch env x = Ok u → u = x - offset) →
  convert_timestamp_to_epoch_seconds env (VStr s) = Ok t →
  min_seconds ≤ t + offset ≤ max_seconds
  ∧ (-86400 < offset < 86400 → - 2 ^ 53 < t < 2 ^ 53).
Proof.
  intros Hclock Hconv. unfold convert_timestamp_to_epoch_seconds in Hconv.
  destruct (strptime s) as [dt|] eqn:Hs; [|done].
  rewrite result_bind_ok in Hconv. apply Hclock in Hconv. subst t.
  pose proof (wall_seconds_range dt (strptime_valid _ _ Hs)) as Hrange.
  unfold min_seconds, max_seconds.
  change (2 ^ 53) with 9007199254740992. lia.
Qed.

(** ** The transformer: what it needs, reads and builds *)

Section TransformMore.
Variable cfg : config.
Variable env : environment.

Lemma getitem_ok_inv (d : gmap string pyval) k v : getitem d k = Ok v → d !! k = Some v.
Proof. unfold getitem. destruct (d !! k); by intros [= ->]. Qed.

Lemma getitem_insert_ne (d : gmap string pyval) k k' v :
  k ≠ k' → getitem (<[k := v]> d) k' = getitem d k'.
Proof. intros H. unfold getitem. by rewrite lookup_insert_ne. Qed.

Lemma getitem_delete_ne (d : gmap string pyval) k k' :
  k ≠ k' → getitem (delete k d) k' = getitem d k'.
Proof. intros H. unfold getitem. by rewrite lookup_delete_ne. Qed.

Lemma transform_document_inv (document : gmap string pyval) rec :
  transform_document cfg env document = Ok rec →
  ∃ id url title bin email name s createdAt,
    document !! "id" = Some id ∧ document !! "url" = Some url
    ∧ document !! "title" = Some title
    ∧ document !! "binary_content" = Some (VBytes bin)
    ∧ document !! "authorEmail" = Some email ∧ document !! "author" = Some name
    ∧ document !! "date_created" = Some (VStr s)
    ∧ convert_timestamp_to_epoch_seconds env (VStr s) = Ok createdAt.
Proof.
  unfold transform_document. intros H.
  destruct (getitem document "id") as [id|] eqn:Hid; [|done].
  destruct (getitem document "url") as [url|] eqn:Hurl; [|done].
  destruct (getitem document "title") as [title|] eqn:Htitle; [|done].
  destruct (getitem document "binary_content") as [bc|] eqn:Hbin; [|done].
  rewrite !result_bind_ok in H.
  destruct bc as [| | | |bin| |]; try done.
  rewrite convert_raw_binary_ok, result_bind_ok in H.
  destruct (getitem document "authorEmail") as [email|] eqn:Hemail; [|done].
  destruct (getitem document "author") as [name|] eqn:Hname; [|done].
  destruct (getitem document "date_created") as [dc|] eqn:Hdc; [|done].
  rewrite !result_bind_ok in H.
  destruct dc as [| | |s| | |]; try done.
  destruct (convert_timestamp_to_epoch_seconds env (VStr s)) as [ts|] eqn:Hts; [|done].
  apply getitem_ok_inv in Hid, Hurl, Htitle, Hbin, Hemail, Hname, Hdc.
  eauto 20.
Qed.

(** The record of a document keeps the document's [id]. *)
Lemma transform_document_id (document : gmap string pyval) rec :
  transform_document cfg env document = Ok rec →
  subscript rec "id" = getitem document "id".
Proof.
  intros Hd.
  destruct (transform_document_inv document rec Hd)
    as (id & url & title & bin & email & name & s & ts
        & Hid & Hurl & Htitle & Hbin & Hemail & Hname & Hdc & Hts).
  rewrite (transform_document_ok cfg env document _ _ _ _ _ _ _ _
             Hid Hurl Htitle Hbin Hemail Hname Hdc Hts) in Hd.
  injection Hd as <-. unfold subscript, getitem. rewrite Hid.
  rewrite lookup_insert_ne by done. by rewrite lookup_insert_eq.
Qed.

Lemma transform_documents_cons d rest :
  transform_documents cfg env (d :: rest) =
    match transform_document cfg env d with
    | Ok y => match transform_documents cfg env rest with
              | Ok ys => Ok (y :: ys)
              | Raise e => Raise e
              end
    | Raise e => Raise e
    end.
Proof.
  unfold transform_documents. cbn [mapM].
  destruct (transform_document cfg env d); [|done]. rewrite result_bind_ok.
  by destruct (mapM _ rest).
Qed.

Lemma transform_documents_each (documents : list (gmap string pyval)) :
  ∀ tds, transform_documents cfg env documents = Ok tds →
         Forall2 (λ d rec, transform_document cfg env d = Ok rec) documents tds.
Proof.
  induction documents as [|d rest IH]; intros tds.
  - unfold transform_documents. cbn [mapM]. intros [= <-]. constructor.
  - rewrite transform_documents_cons.
    destruct (transform_document cfg env d) as [y|] eqn:Hd; [|done].
    destruct (transform_documents cfg env rest) as [ys|] eqn:Hr; [|done].
    intros [= <-]. constructor; [done|]. by apply IH.
Qed.

Lemma transform_documents_ids (documents : list (gmap string pyval)) tds :
  transform_documents cfg env documents = Ok tds →
  map (λ rec, subscript rec "id") tds = map (λ d, getitem d "id") documents.
Proof.
  intros H. apply transform_documents_each in H.
  induction H as [|d rec ds recs Hd _ IH]; [done|]. cbn [map]. f_equal; [|done].
  by apply transform_document_id.
Qed.

(** X7.  [transform_document] returns a record exactly for the documents
    that hold the seven keys it reads, with bytes under [binary_content]
    and, under [date_created], a text that converts. *)
Theorem transform_document_succeeds_iff (document : gmap string pyval) :
  is_ok (transform_document cfg env document) = true ↔
  ∃ id url title bin email name s createdAt,
    document !! "id" = Some id ∧ document !! "url" = Some url
    ∧ document !! "title" = Some title
    ∧ document !! "binary_content" = Some (VBytes bin)
    ∧ document !! "authorEmail" = Some email ∧ document !! "author" = Some name
    ∧ document !! "date_created" = Some (VStr s)
    ∧ convert_timestamp_to_epoch_seconds env (VStr s) = Ok createdAt.
Proof.
  split.
  - destruct (transform_document cfg env document) as [rec|] eqn:H; [|done].
    intros _. by eapply transform_document_inv.
  - intros (id & url & title & bin & email & name & s & ts
            & Hid & Hurl & Htitle & Hbin & Hemail & Hname & Hdc & Hts).
    by rewrite (transform_document_ok cfg env document _ _ _ _ _ _ _ _
                  Hid Hurl Htitle Hbin Hemail Hname Hdc Hts).
Qed.

(** X8.  Every record [transform_document] returns is a dictionary with
    exactly the nine keys of the literal, whose [body], [permissions] and
    [author] are dictionaries with exactly their two, one and two keys:
    nothing else of the document ([filename], say) reaches the record. *)
Theorem transform_document_keys (document : gmap string pyval) rec :
  transform_document cfg env document = Ok rec →
  ∃ m body permissions author,
    rec = VDict m ∧ dom m = record_keys
    ∧ m !! "body" = Some (VDict body)
    ∧ dom body = {[ "mimeType"; "binaryContent" ]}
    ∧ m !! "permissions" = Some (VDict permissions)
    ∧ dom permissions = {[ "allowAnonymousAccess" ]}
    ∧ m !! "author" = Some (VDict author)
    ∧ dom author = {[ "email"; "name" ]}.
Proof.
  intros H.
  destruct (transform_document_inv document rec H)
    as (id & url & title & bin & email & name & s & ts
        & Hid & Hurl & Htitle & Hbin & Hemail & Hname & Hdc & Hts).
  rewrite (transform_document_ok cfg env document _ _ _ _ _ _ _ _
             Hid Hurl Htitle Hbin Hemail Hname Hdc Hts) in H.
  injection H as <-. do 4 eexists. split; [reflexivity|].
  repeat split; try (by simplify_map_eq).
  all: rewrite !dom_insert_L, dom_empty_L; unfold record_keys; set_solver.
Qed.

(** X9.  The outcome of [transform_document] depends on the seven keys it
    reads only: setting or removing any other key of the document changes
    neither the record nor the exception. *)
Theorem transform_document_ignores_other_keys (document : gmap string pyval) k v :
  k ∉ read_keys →
  transform_document cfg env (<[k := v]> document) = transform_document cfg env document
  ∧ transform_document cfg env (delete k document) = transform_document cfg env document.
Proof.
  intros Hk. unfold read_keys in Hk.
  rewrite !not_elem_of_cons in Hk.
  destruct Hk as (H1 & H2 & H3 & H4 & H5 & H6 & H7 & _).
  unfold transform_document.
  by rewrite !getitem_insert_ne, !getitem_delete_ne.
Qed.

(** X10.  The transformation pass returns a list exactly when every
    document transforms, and then the list holds the records in the
    documents' order; it raises [e] exactly when [e] is what the first
    document that fails raises. *)
Theorem transform_documents_all_or_nothing (documents : list (gmap string pyval)) :
  (∀ tds, transform_documents cfg env documents = Ok tds ↔
          Forall2 (λ d rec, transform_document cfg env d = Ok rec) documents tds)
  ∧ (∀ e, transform_documents cfg env documents = Raise e ↔
          ∃ (i : nat) d,
            documents !! i = Some d
            ∧ transform_document cfg env d = Raise e
            ∧ ∀ (j : nat) d', (j < i)%nat → documents !! j = Some d' →
                is_ok (transform_document cfg env d') = true).
Proof.
  induction documents as [|d rest [IHok IHraise]].
  - split.
    + intros tds. unfold transform_documents. cbn [mapM]. split.
      * intros [= <-]. constructor.
      * intros H. by inversion H.
    + intros e. unfold transform_documents. cbn [mapM]. split; [done|].
      by intros (i & d & H & _).
  - split.
    + intros tds. rewrite transform_documents_cons. split.
      * destruct (transform_document cfg env d) as [y|] eqn:Hd; [|done].
        destruct (transform_documents cfg env rest) as [ys|] eqn:Hr; [|done].
        intros [= <-]. constructor; [done|]. by apply IHok.
      * intros H. inversion H as [|? rec ? ys Hd Hrest]; subst.
        apply IHok in Hrest. by rewrite Hd, Hrest.
    + intros e. rewrite transform_documents_cons. split.
      * destruct (transform_document cfg env d) as [y|e'] eqn:Hd.
        -- destruct (transform_documents cfg env rest) as [ys|e''] eqn:Hr; [done|].
           intros [= ->].
           destruct (proj1 (IHraise e) eq_refl) as (i & d' & Hi & He & Hbefore).
           exists (S i), d'. split; [done|]. split; [done|].
           intros [|j] d'' Hj Hd''; simpl in Hd''.
           ++ injection Hd'' as <-. by rewrite Hd.
           ++ apply (Hbefore j); [lia|done].
        -- intros [= ->]. exists 0%nat, d. split; [done|]. split; [done|]. lia.
      * intros (i & d' & Hi & He & Hbefore). destruct i as [|i]; simpl in Hi.
        -- injection Hi as ->. by rewrite He.
        -- assert (Hd : is_ok (transform_document cfg env d) = true)
             by (apply (Hbefore 0%nat); [lia|done]).
           destruct (transform_document cfg env d) as [y|]; [|done].
           assert (Hr : transform_documents cfg env rest = Raise e).
           { apply IHraise. exists i, d'. split; [done|]. split; [done|].
             intros j d'' Hj Hd''. apply (Hbefore (S j)); [lia|done]. }
           by rewrite Hr.
Qed.

(** X11.  The pass keeps count, order and identity: the list it returns
    is as long as the list of documents, the [id] of the record at each
    position is the [id] of the document there, and records of documents
    with distinct ids have distinct ids. *)
Theorem transform_documents_keep_ids (documents : list (gmap string pyval)) tds :
  transform_documents cfg env documents = Ok tds →
  length tds = length documents
  ∧ map (λ rec, subscript rec "id") tds = map (λ d, getitem d "id") documents
  ∧ (NoDup (map (λ d, getitem d "id") documents) →
     NoDup (map (λ rec, subscript rec "id") tds)).
Proof.
  intros H. pose proof (transform_documents_ids documents tds H) as Hmap.
  split; [|split; [done|by rewrite Hmap]].
  apply transform_documents_each, Forall2_length in H. done.
Qed.
End TransformMore.

(** ** The upload drivers: log, requests and edge cases *)

Section DriverMore.
Variable cfg : config.
Variable env : environment.

Lemma uploaded_lines_cons n i count :
  uploaded_lines n i (S count)
  = InfoBatchUploaded (i + 1) n 200 :: uploaded_lines n (i + 1) count.
Proof.
  unfold uploaded_lines. cbn [seq map]. f_equal; [f_equal; lia|].
  rewrite <- seq_shift, map_map. apply map_ext. intros j. f_equal. lia.
Qed.

Lemma run_log_cons base rq all failure lines failed lines' failed' first r out :
  (∀ k, lines (S k) = first :: lines' k) →
  (∀ k response, failed (S k) response = failed' k response) →
  run_log env (S base) all failure lines' failed' r out →
  run_log env base (rq :: all) failure lines failed r (first :: out).
Proof.
  intros Hlines Hfailed [|k rq' response Hk Hsrv Hst|k rq' e Hk Hsrv].
  - rewrite <- Hlines. apply (log_completed env base (rq :: all)).
  - rewrite app_comm_cons, <- Hlines, <- Hfailed.
    apply (log_rejected env base (rq :: all) _ _ _ (S k) rq'); [done| |done].
    by rewrite Nat.add_succ_r.
  - rewrite <- Hlines.
    apply (log_post_raised env base (rq :: all) _ _ _ (S k) rq'); [done|].
    by rewrite Nat.add_succ_r.
Qed.

Lemma bulk_loop_log index_id n batches :
  ∀ i data w r w',
    data_inv cfg index_id i data → 0 ≤ i →
    bulk_loop cfg env n i batches data w = (r, w') →
    ∃ out,
      logs w' = logs w ++ out
      ∧ run_log env (length (sent w)) (bulk_requests cfg index_id n i batches)
          (RuntimeError "Failed to upload batch")
          (uploaded_lines n i) (batch_failed_lines n i) r out.
Proof.
  induction batches as [|batch rest IH]; intros i data w r w' Hinv Hi Hrun.
  - injection Hrun as <- <-. exists []. rewrite app_nil_r. split; [done|].
    apply (log_completed env _ []).
  - rewrite bulk_requests_cons.
    cbn [bulk_loop] in Hrun. cbv zeta in Hrun. rewrite Hinv in Hrun.
    unfold io_bind at 1 in Hrun. cbn [post] in Hrun.
    fold (bulk_request cfg index_id n i batch) in Hrun.
    set (rq := bulk_request cfg index_id n i batch) in *.
    destruct (server env (length (sent w)) rq) as [response|e] eqn:Hsrv.
    + destruct (status_code response =? 200) eqn:Hst.
      * apply Z.eqb_eq in Hst.
        unfold io_bind at 1 in Hrun. cbn [logging] in Hrun.
        set (w1 := mk_world _ _ _) in Hrun.
        assert (Hnext : ∃ data', data_inv cfg index_id (i + 1) data'
                  ∧ bulk_loop cfg env n (i + 1) rest data' w1 = (r, w')).
        { destruct (i =? 0) eqn:Hi0.
          - apply Z.eqb_eq in Hi0. subst i.
            destruct (data_inv_first cfg index_id (0 =? n - 1) batch)
              as (data' & Hpop & Hinv').
            unfold io_bind, io_lift in Hrun. rewrite Hinv, Hpop in Hrun. eauto.
          - apply Z.eqb_neq in Hi0. rewrite Hinv in Hrun.
            eexists. split; [|exact Hrun].
            apply data_inv_next; lia. }
        destruct Hnext as (data' & Hinv' & Hrun').
        apply IH in Hrun' as (out & Hlogs & Hout); [|done|lia].
        subst w1. cbn in Hlogs, Hout. rewrite Hst in Hlogs.
        rewrite <- app_assoc in Hlogs. eexists. split; [exact Hlogs|].
        rewrite length_app, Nat.add_1_r in Hout.
        eapply run_log_cons; [apply uploaded_lines_cons| |exact Hout].
        intros k resp. unfold batch_failed_lines. do 2 f_equal. lia.
      * unfold io_bind, logging, io_raise in Hrun. cbn in Hrun.
        injection Hrun as <- <-. eexists. cbn. rewrite <- app_assoc. split; [done|].
        apply Z.eqb_neq in Hst.
        pose proof (log_rejected env (length (sent w))
                      (rq :: bulk_requests cfg index_id n (i + 1) rest)
                      (RuntimeError "Failed to upload batch")
                      (uploaded_lines n i) (batch_failed_lines n i) 0%nat rq response
                      eq_refl) as H.
        rewrite Nat.add_0_r in H. specialize (H Hsrv Hst).
        unfold batch_failed_lines in H. cbn in H. rewrite Z.add_0_r in H. exact H.
    + injection Hrun as <- <-. exists []. rewrite app_nil_r. split; [done|].
      pose proof (log_post_raised env (length (sent w))
                    (rq :: bulk_requests cfg index_id n (i + 1) rest)
                    (RuntimeError "Failed to upload batch")
                    (uploaded_lines n i) (batch_failed_lines n i) 0%nat rq e
                    eq_refl) as H.
      rewrite Nat.add_0_r in H. exact (H Hsrv).
Qed.

Lemma individual_loop_log documents :
  ∀ w r w',
    forallb has_id documents = true →
    individual_loop cfg env documents w = (r, w') →
    ∃ out,
      logs w' = logs w ++ out
      ∧ run_log env (length (sent w)) (map (document_request cfg) documents)
          (RuntimeError "Failed to upload document")
          (document_lines documents) (document_failed_lines documents) r out.
Proof.
  induction documents as [|document rest IH]; intros w r w' Hid Hrun.
  - injection Hrun as <- <-. exists []. rewrite app_nil_r. split; [done|].
    apply (log_completed env _ []).
  - cbn [forallb] in Hid. apply andb_prop in Hid as [Hdoc Hrest].
    unfold has_id in Hdoc.
    destruct (subscript document "id") as [id|] eqn:Hsub; [|done].
    assert (Hlid : logged_id document = id) by (unfold logged_id; by rewrite Hsub).
    cbn [individual_loop map] in Hrun.
    unfold io_bind at 1 in Hrun. cbn [post] in Hrun.
    fold (document_request cfg document) in Hrun.
    set (rq := document_request cfg document) in *.
    destruct (server env (length (sent w)) rq) as [response|e] eqn:Hsrv.
    + destruct (status_code response =? 200) eqn:Hst.
      * apply Z.eqb_eq in Hst.
        unfold io_bind at 1 in Hrun. unfold io_bind at 1 in Hrun.
        unfold io_lift at 1 in Hrun. rewrite Hsub in Hrun. cbn [logging] in Hrun.
        apply IH in Hrun as (out & Hlogs & Hout); [|done].
        cbn in Hlogs, Hout. rewrite Hst in Hlogs.
        rewrite <- app_assoc in Hlogs. eexists. split; [exact Hlogs|].
        rewrite length_app, Nat.add_1_r in Hout.
        eapply run_log_cons; [| |exact Hout].
        -- intros k. unfold document_lines. cbn [take map]. by rewrite Hlid.
        -- intros k resp. done.
      * unfold io_bind, io_lift, logging, io_raise in Hrun.
        rewrite Hsub in Hrun. cbn in Hrun.
        injection Hrun as <- <-. eexists. cbn. rewrite <- app_assoc. split; [done|].
        apply Z.eqb_neq in Hst.
        pose proof (log_rejected env (length (sent w))
                      (rq :: map (document_request cfg) rest)
                      (RuntimeError "Failed to upload document")
                      (document_lines (document :: rest))
                      (document_failed_lines (document :: rest)) 0%nat rq response
                      eq_refl) as H.
        rewrite Nat.add_0_r in H. specialize (H Hsrv Hst).
        unfold document_failed_lines, document_lines in H. cbn in H.
        rewrite Hlid in H. exact H.
    + injection Hrun as <- <-. exists []. rewrite app_nil_r. split; [done|].
      pose proof (log_post_raised env (length (sent w))
                    (rq :: map (document_request cfg) rest)
                    (RuntimeError "Failed to upload document")
                    (document_lines (document :: rest))
                    (document_failed_lines (document :: rest)) 0%nat rq e
                    eq_refl) as H.
      rewrite Nat.add_0_r in H. exact (H Hsrv).
Qed.

(** Without any assumption on the documents: what was sent is a prefix of
    the requests of the documents, and no upload id was drawn. *)
Lemma individual_loop_sent documents :
  ∀ w r w',
    individual_loop cfg env documents w = (r, w') →
    ∃ k : nat,
      sent w' = sent w ++ map (document_request cfg) (take k documents)
      ∧ uuid_calls w' = uuid_calls w.
Proof.
  induction documents as [|document rest IH]; intros w r w' Hrun.
  - injection Hrun as <- <-. exists 0%nat. by rewrite app_nil_r.
  - cbn [individual_loop] in Hrun.
    unfold io_bind at 1 in Hrun. cbn [post] in Hrun.
    fold (document_request cfg document) in Hrun.
    set (rq := document_request cfg document) in *.
    destruct (server env (length (sent w)) rq) as [response|e].
    + destruct (status_code response =? 200) eqn:Hst.
      * unfold io_bind at 1 in Hrun. unfold io_bind at 1 in Hrun.
        unfold io_lift at 1 in Hrun.
        destruct (subscript document "id") as [id|e'].
        -- cbn [logging] in Hrun. apply IH in Hrun as (k & Hsent & Huuid).
           exists (S k). cbn in Hsent, Huuid. rewrite <- app_assoc in Hsent. done.
        -- injection Hrun as <- <-. exists 1%nat. cbn. by rewrite take_0.
      * unfold io_bind, io_lift, logging, io_raise in Hrun.
        destruct (subscript document "id") as [id|e']; cbn in Hrun;
          injection Hrun as <- <-; exists 1%nat; cbn; by rewrite take_0.
    + injection Hrun as <- <-. exists 1%nat. cbn. by rewrite take_0.
Qed.
End DriverMore.

Lemma append_inj_l (a x y : string) : (a +:+ x = a +:+ y)%string → x = y.
Proof. induction a as [|c a IH]; [done|]. cbn. intros [= H]. by apply IH. Qed.

Lemma endpoints_differ (cfg : config) : bulk_endpoint cfg ≠ individual_endpoint cfg.
Proof.
  unfold bulk_endpoint, individual_endpoint. intros H.
  apply append_inj_l in H. discriminate H.
Qed.

(** X12.  The log of a bulk run: one line [Batch i/n uploaded] with status
    200 for each of the first [k] pages, in order; then nothing more when
    all [n] pages went through, or the two error lines of page [k + 1]
    (its status, the text of its answer) when that page is answered with
    another status, or nothing when [requests.post] raised on it. *)
Theorem bulk_run_log (cfg : config) (env : environment)
    (transformed_documents : list pyval) (batches : list (list pyval))
    (w w' : world) (r : result unit) :
  bulk_index_flag cfg = true →
  create_batches transformed_documents (batch_size cfg) = Ok batches →
  push_documents cfg env transformed_documents w = (r, w') →
  ∃ (k : nat) out,
    logs w' = logs w ++ uploaded_lines (Z.of_nat (length batches)) 0 k ++ out
    ∧ ((r = Ok () ∧ k = length batches ∧ out = [])
       ∨ (∃ batch response,
            batches !! k = Some batch
            ∧ server env (length (sent w) + k)
                (bulk_request cfg (uuid_source env (uuid_calls w))
                   (Z.of_nat (length batches)) (Z.of_nat k) batch) = Ok response
            ∧ status_code response ≠ 200
            ∧ r = Raise (RuntimeError "Failed to upload batch")
            ∧ out = [ErrorBatchFailed (Z.of_nat k + 1) (Z.of_nat (length batches))
                       (status_code response);
                     ErrorText (text response)])
       ∨ (∃ batch e,
            batches !! k = Some batch
            ∧ server env (length (sent w) + k)
                (bulk_request cfg (uuid_source env (uuid_calls w))
                   (Z.of_nat (length batches)) (Z.of_nat k) batch) = Raise e
            ∧ r = Raise e ∧ out = [])).
Proof.
  intros Hflag Hbatches Hrun.
  unfold push_documents in Hrun. rewrite Hflag in Hrun.
  unfold push_bulk, io_bind at 1 in Hrun. cbn [uuid4] in Hrun.
  unfold io_bind at 1, io_lift in Hrun. rewrite Hbatches in Hrun.
  apply (bulk_loop_log cfg env (uuid_source env (uuid_calls w))) in Hrun
    as (out & Hlogs & Hlog); [|apply data_inv_initial|lia].
  cbn in Hlogs, Hlog. set (n := Z.of_nat (length batches)) in *.
  inversion Hlog as [Hr Hout|k rq response Hk Hsrv Hst Hr Hout|k rq e Hk Hsrv Hr Hout];
    subst r.
  - exists (length batches), []. rewrite app_nil_r. split.
    + rewrite Hlogs, <- Hout. unfold bulk_requests. by rewrite length_imap.
    + left. done.
  - apply bulk_requests_lookup in Hk as (batch & Hbatch & ->).
    exists k, (batch_failed_lines n 0 k response). split; [by rewrite Hlogs, <- Hout|].
    right. left. exists batch, response. unfold batch_failed_lines.
    rewrite Z.add_0_l. done.
  - apply bulk_requests_lookup in Hk as (batch & Hbatch & ->).
    exists k, []. rewrite app_nil_r. split; [by rewrite Hlogs, <- Hout|].
    right. right. exists batch, e. done.
Qed.

(** X13.  The log of a run in individual mode over records that hold an
    [id]: one line [Document id uploaded] with status 200 for each of the
    first [k] documents, in order; then nothing more when all went
    through, or the two error lines of document [k], with its [id], when
    it is answered with another status, or nothing when [requests.post]
    raised on it. *)
Theorem individual_run_log (cfg : config) (env : environment)
    (transformed_documents : list pyval) (w w' : world) (r : result unit) :
  bulk_index_flag cfg = false →
  forallb has_id transformed_documents = true →
  push_documents cfg env transformed_documents w = (r, w') →
  ∃ (k : nat) out,
    logs w' = logs w ++ document_lines transformed_documents k ++ out
    ∧ ((r = Ok () ∧ k = length transformed_documents ∧ out = [])
       ∨ (∃ document response,
            transformed_documents !! k = Some document
            ∧ server env (length (sent w) + k) (document_request cfg document)
              = Ok response
            ∧ status_code response ≠ 200
            ∧ r = Raise (RuntimeError "Failed to upload document")
            ∧ out = [ErrorDocumentFailed (logged_id document) (status_code response);
                     ErrorText (text response)])
       ∨ (∃ document e,
            transformed_documents !! k = Some document
            ∧ server env (length (sent w) + k) (document_request cfg document)
              = Raise e
            ∧ r = Raise e ∧ out = [])).
Proof.
  intros Hflag Hid Hrun.
  unfold push_documents in Hrun. rewrite Hflag in Hrun.
  apply individual_loop_log in Hrun as (out & Hlogs & Hlog); [|done].
  inversion Hlog as [Hr Hout|k rq response Hk Hsrv Hst Hr Hout|k rq e Hk Hsrv Hr Hout];
    subst r.
  - exists (length transformed_documents), []. rewrite app_nil_r. split.
    + rewrite Hlogs, <- Hout. by rewrite length_map.
    + left. done.
  - rewrite list_lookup_fmap in Hk.
    destruct (transformed_documents !! k) as [document|] eqn:Hdoc; [|done].
    injection Hk as <-.
    exists k, (document_failed_lines transformed_documents k response).
    split; [by rewrite Hlogs, <- Hout|].
    right. left. exists document, response. unfold document_failed_lines.
    rewrite Hdoc. done.
  - rewrite list_lookup_fmap in Hk.
    destruct (transformed_documents !! k) as [document|] eqn:Hdoc; [|done].
    injection Hk as <-.
    exists k, []. rewrite app_nil_r. split; [by rewrite Hlogs, <- Hout|].
    right. right. exists document, e. done.
Qed.

(** X14.  With a positive batch size, a bulk run that ends normally has
    uploaded every record once and in order: the [documents] lists of the
    requests it sent, one after the other, make up the list of records.
    (With a negative batch size a run ends normally with nothing sent.) *)
Theorem bulk_run_uploads_each_document_once (cfg : config) (env : environment)
    (transformed_documents : list pyval) (w w' : world) :
  bulk_index_flag cfg = true →
  0 < batch_size cfg →
  push_documents cfg env transformed_documents w = (Ok (), w') →
  ∃ reqs pages,
    sent w' = sent w ++ reqs
    ∧ Forall2 (λ rq page, req_json rq !! "documents" = Some (VList page)) reqs pages
    ∧ concat pages = transformed_documents.
Proof.
  intros Hflag HB Hrun. unfold push_documents in Hrun. rewrite Hflag in Hrun.
  apply push_bulk_run in Hrun as (reqs & Hsent & _ & Hout).
  destruct (create_batches_nonzero transformed_documents (batch_size cfg))
    as [batches Hb]; [lia|].
  rewrite Hb in Hout. exists reqs, batches. split; [done|].
  split; [|by eapply create_batches_concat].
  inversion Hout as [Hall Hr Hreqs|]; subst reqs.
  apply Forall2_same_length_lookup_2.
  - unfold bulk_requests. by rewrite length_imap.
  - intros i rq page Hrq Hpage.
    apply bulk_requests_lookup in Hrq as (batch & Hbatch & ->).
    assert (batch = page) as -> by congruence.
    cbn [req_json bulk_request].
    by destruct (page_body_lookup cfg (uuid_source env (uuid_calls w)) (Z.of_nat i)
                   (Z.of_nat i =? Z.of_nat (length batches) - 1) page)
      as (_ & _ & _ & _ & Hdocs & _).
Qed.

(** X15.  Every request of a run goes to the endpoint of the configured
    mode ([/bulkindexdocuments] or [/indexdocument], which differ) with
    exactly the two headers [Authorization], the bearer token, and
    [Content-Type]; in individual mode its body holds one of the records
    under [document] and nothing else, and no upload id is drawn. *)
Theorem requests_use_the_configured_endpoint (cfg : config) (env : environment)
    (transformed_documents : list pyval) (w w' : world) (r : result unit) :
  push_documents cfg env transformed_documents w = (r, w') →
  bulk_endpoint cfg ≠ individual_endpoint cfg
  ∧ (bulk_index_flag cfg = false → uuid_calls w' = uuid_calls w)
  ∧ ∃ reqs,
      sent w' = sent w ++ reqs
      ∧ ∀ rq, rq ∈ reqs →
          req_url rq = (if bulk_index_flag cfg then bulk_endpoint cfg
                        else individual_endpoint cfg)
          ∧ req_headers rq !! "Authorization" = Some ("Bearer " +:+ GLEAN_API_KEY cfg)
          ∧ req_headers rq !! "Content-Type" = Some "application/json"
          ∧ dom (req_headers rq) = {[ "Authorization"; "Content-Type" ]}
          ∧ (bulk_index_flag cfg = false →
             ∃ document, document ∈ transformed_documents
                         ∧ req_json rq = {[ "document" := document ]}).
Proof.
  intros Hrun. split; [apply endpoints_differ|].
  assert (Hheaders :
    glean_headers cfg !! "Authorization" = Some ("Bearer " +:+ GLEAN_API_KEY cfg)
    ∧ glean_headers cfg !! "Content-Type" = Some "application/json"
    ∧ dom (glean_headers cfg) = {[ "Authorization"; "Content-Type" ]}).
  { unfold glean_headers. split; [by simplify_map_eq|]. split; [by simplify_map_eq|].
    rewrite !dom_insert_L, dom_empty_L. set_solver. }
  destruct Hheaders as (Hauth & Hct & Hdom).
  unfold push_documents in Hrun. destruct (bulk_index_flag cfg).
  - split; [done|].
    apply push_bulk_run in Hrun as (reqs & Hsent & _ & Hout).
    exists reqs. split; [done|]. intros rq Hin.
    apply list_elem_of_lookup in Hin as [i Hi].
    destruct (create_batches _ _) as [batches|e].
    + apply (run_outcome_prefix _ _ _ _ _ _ Hout) in Hi.
      apply bulk_requests_lookup in Hi as (batch & _ & ->). cbn. done.
    + destruct Hout as [_ ->]. by rewrite lookup_nil in Hi.
  - apply individual_loop_sent in Hrun as (k & Hsent & Huuid).
    split; [done|]. eexists. split; [exact Hsent|]. intros rq Hin.
    apply list_elem_of_fmap in Hin as (document & -> & Hdoc). cbn.
    repeat split; try done. intros _. exists document. split; [|done].
    apply list_elem_of_lookup in Hdoc as [i Hi].
    apply lookup_take_Some in Hi as [Hi _]. by eapply list_elem_of_lookup_2.
Qed.

(** X16.  A bulk run with a batch size that is not positive sends
    nothing and logs nothing, whatever the records: with 0 it raises the
    [ValueError] of [range], with a negative size there is no batch and it
    ends normally.  The upload id is drawn all the same. *)
Theorem bulk_nonpositive_batch_size (cfg : config) (env : environment)
    (transformed_documents : list pyval) (w : world) :
  bulk_index_flag cfg = true →
  batch_size cfg ≤ 0 →
  push_documents cfg env transformed_documents w
  = (if batch_size cfg =? 0 then Raise ValueError else Ok (),
     {| sent := sent w; logs := logs w; uuid_calls := S (uuid_calls w) |}).
Proof.
  intros Hflag HB. unfold push_documents. rewrite Hflag.
  unfold push_bulk, io_bind, io_lift, uuid4, create_batches, py_range.
  destruct (batch_size cfg =? 0) eqn:E; [done|].
  apply Z.eqb_neq in E. unfold range_len.
  assert (H1 : (0 <? batch_size cfg) = false) by (apply Z.ltb_ge; lia).
  assert (H2 : (Z.of_nat (length transformed_documents) <? 0) = false)
    by (apply Z.ltb_ge; lia).
  rewrite H1, H2. done.
Qed.

(** X17.  In individual mode a record without [id] is sent all the same;
    when the endpoint answers, with any status, the log line cannot be
    written: the run raises [KeyError] for [id], nothing logged and
    nothing more sent. *)
Theorem individual_record_without_id (cfg : config) (env : environment)
    (d : gmap string pyval) (rest : list pyval) (w : world) (response : response) :
  bulk_index_flag cfg = false →
  d !! "id" = None →
  server env (length (sent w)) (document_request cfg (VDict d)) = Ok response →
  push_documents cfg env (VDict d :: rest) w
  = (Raise (KeyError "id"),
     {| sent := sent w ++ [document_request cfg (VDict d)];
        logs := logs w; uuid_calls := uuid_calls w |}).
Proof.
  intros Hflag Hid Hsrv. unfold push_documents. rewrite Hflag.
  cbn [individual_loop]. unfold io_bind at 1. cbn [post].
  fold (document_request cfg (VDict d)). rewrite Hsrv.
  unfold io_bind, io_lift, subscript, getitem. rewrite Hid.
  by destruct (status_code response =? 200).
Qed.

(** X18.  The notebook transforms every document before it sends any:
    when one document fails to transform the run raises with nothing sent,
    logged or drawn; otherwise it logs the number of documents and pushes
    their records. *)
Theorem notebook_transforms_before_sending (cfg : config) (env : environment)
    (documents : list (gmap string pyval)) (w : world) :
  (∀ document e, document ∈ documents →
     transform_document cfg env document = Raise e →
     ∃ e', notebook cfg env documents w = (Raise e', w))
  ∧ (∀ tds, transform_documents cfg env documents = Ok tds →
     notebook cfg env documents w
     = push_documents cfg env tds
         {| sent := sent w;
            logs := logs w ++ [InfoTransformed (Z.of_nat (length documents))];
            uuid_calls := uuid_calls w |}).
Proof.
  split.
  - intros document e Hin Hraise. apply notebook_transform_fails.
    apply (mapM_raises cfg env documents document Hin). by rewrite Hraise.
  - intros tds Htds. unfold notebook, io_bind, io_lift, logging. rewrite Htds.
    apply transform_documents_each, Forall2_length in Htds. by rewrite Htds.
Qed.

(** ** The pull cell *)

Lemma endswith_spec (s suffix : string) :
  endswith s suffix = true ↔ ∃ stem, s = (stem +:+ suffix)%string.
Proof.
  unfold endswith. rewrite bool_decide_eq_true. split.
  - intros [k Hk]. exists (string_of_list_ascii k).
    rewrite <- (string_of_list_ascii_of_string s), Hk, string_of_list_ascii_app.
    by rewrite string_of_list_ascii_of_string.
  - intros [stem ->]. exists (list_ascii_of_string stem).
    apply list_ascii_of_string_app.
Qed.

(** What the loop returns, when it returns: the documents it had, then
    one for each [.pdf] name, in the order of the listing. *)
Lemma pull_loop_inv fs files :
  ∀ documents out,
    pull_loop fs files documents = Some out →
    ∃ new,
      out = documents ++ new
      ∧ Forall2 (pulled_from fs)
          (filter (λ file, endswith file ".pdf" = true) files) new.
Proof.
  induction files as [|file rest IH]; intros documents out Hrun.
  - injection Hrun as <-. exists []. rewrite app_nil_r. split; [done|]. constructor.
  - cbn [pull_loop] in Hrun. rewrite filter_cons.
    destruct (endswith file ".pdf") eqn:Hpdf.
    + destruct (read_binary fs ("sample-docs/" +:+ file)) as [content|] eqn:Hc; [|done].
      apply IH in Hrun as (new & -> & Hnew).
      exists (pulled_document file content :: new).
      rewrite <- app_assoc. split; [done|].
      rewrite decide_True by done. constructor; [|done]. by exists content.
    + rewrite decide_False by done. by apply IH.
Qed.

Lemma pull_loop_returns fs files :
  ∀ documents,
    is_Some (pull_loop fs files documents) ↔
    ∀ file, file ∈ files → endswith file ".pdf" = true →
            is_Some (read_binary fs ("sample-docs/" +:+ file)).
Proof.
  induction files as [|file rest IH]; intros documents.
  - split; [|by eexists]. intros _ file Hin. by apply elem_of_nil in Hin.
  - cbn [pull_loop]. destruct (endswith file ".pdf") eqn:Hpdf.
    + destruct (read_binary fs ("sample-docs/" +:+ file)) as [content|] eqn:Hc.
      * rewrite IH. split.
        -- intros H f Hin Hf. apply elem_of_cons in Hin as [->|Hin]; [|by apply H].
           rewrite Hc. by eexists.
        -- intros H f Hin. apply H. by right.
      * split; [by intros [? ?]|]. intros H.
        destruct (H file ltac:(by left) Hpdf) as [content Hc']. congruence.
    + rewrite IH. split.
      * intros H f Hin Hf. apply elem_of_cons in Hin as [->|Hin]; [congruence|].
        by apply H.
      * intros H f Hin. apply H. by right.
Qed.

Lemma pull_documents_inv fs documents lines :
  pull_documents fs = (Some documents, lines) →
  ∃ files,
    listdir fs "sample-docs" = Some files
    ∧ Forall2 (pulled_from fs)
        (filter (λ file, endswith file ".pdf" = true) files) documents.
Proof.
  unfold pull_documents.
  destruct (listdir fs "sample-docs") as [files|]; [|done].
  destruct (pull_loop fs files []) as [out|] eqn:Hloop; [|done].
  intros [= <- _]. apply pull_loop_inv in Hloop as (new & -> & Hnew).
  by exists files.
Qed.

Lemma timestamp_of_pulled_document (env : environment) :
  convert_timestamp_to_epoch_seconds env (VStr "2024-12-15T03:05:58Z")
  = local_to_epoch env 1734231958.
Proof.
  unfold convert_timestamp_to_epoch_seconds.
  assert (strptime "2024-12-15T03:05:58Z" = Ok (mk_datetime 2024 12 15 3 5 58)) as ->
    by (vm_compute; reflexivity).
  rewrite result_bind_ok. f_equal.
Qed.

(** X19.  The pull cell returns documents exactly when the directory can
    be listed and every entry whose name ends in [.pdf] can be read; it
    then returns one document for each such entry, in the order of the
    listing, with the entry's bytes and name, and logs their number.
    Entries with another ending ([.PDF], [.pdf.bak]) have no part in the
    outcome. *)
Theorem pull_selects_pdf_files (fs : filesystem) (files : list string) :
  listdir fs "sample-docs" = Some files →
  (∀ file, file ∈ filter (λ file, endswith file ".pdf" = true) files ↔
           file ∈ files ∧ ∃ stem, file = (stem +:+ ".pdf")%string)
  ∧ (is_Some (pull_documents fs).1 ↔
     ∀ file, file ∈ files → endswith file ".pdf" = true →
             is_Some (read_binary fs ("sample-docs/" +:+ file)))
  ∧ (∀ documents, (pull_documents fs).1 = Some documents →
       (pull_documents fs).2 = [InfoPulled (Z.of_nat (length documents))]
       ∧ Forall2 (pulled_from fs)
           (filter (λ file, endswith file ".pdf" = true) files) documents)
  ∧ ((pull_documents fs).1 = None → (pull_documents fs).2 = []).
Proof.
  intros Hlist. split; [|split; [|split]].
  - intros file. rewrite list_elem_of_filter, endswith_spec. tauto.
  - rewrite <- (pull_loop_returns fs files []).
    unfold pull_documents. rewrite Hlist.
    by destruct (pull_loop fs files []).
  - intros documents Hdocs.
    destruct (pull_documents fs) as [r lines] eqn:Hpull. cbn in Hdocs. subst r.
    destruct (pull_documents_inv fs documents lines Hpull) as (files' & Hlist' & Hall).
    assert (files' = files) as -> by congruence. split; [|done].
    unfold pull_documents in Hpull. rewrite Hlist in Hpull.
    destruct (pull_loop fs files []) as [out|]; [|discriminate Hpull].
    injection Hpull as -> <-. done.
  - unfold pull_documents. rewrite Hlist. by destruct (pull_loop fs files []).
Qed.

(** X20.  Every list of documents the pull cell returns goes through the
    transformation pass when the clock converts the fixed creation date
    2024-12-15T03:05:58: the record of each document has the file name as
    [id], the file's URL as [viewURL], the base64 text of the file's bytes
    as content and the converted date as [createdAt].  When the clock
    raises on that date the pass raises the same on any pulled list that
    is not empty. *)
Theorem pulled_documents_transform (cfg : config) (env : environment)
    (fs : filesystem) (documents : list (gmap string pyval)) (lines : list pull_log) :
  pull_documents fs = (Some documents, lines) →
  (∀ createdAt, local_to_epoch env 1734231958 = Ok createdAt →
     ∃ tds,
       transform_documents cfg env documents = Ok tds
       ∧ Forall2 (λ document rec,
           ∃ file content m,
             document = pulled_document file content
             ∧ rec = VDict m
             ∧ m !! "id" = Some (VStr file)
             ∧ m !! "viewURL" = Some (VStr ("https://mywebsite.com/files/" +:+ file))
             ∧ m !! "title" = Some (VStr "Sample Document")
             ∧ m !! "body"
                 = Some (VDict (<["mimeType" := VStr "application/pdf"]> (
                                <["binaryContent" :=
                                    VStr (string_of_list_byte (b64encode content))]> ∅)))
             ∧ m !! "createdAt" = Some (VInt createdAt))
           documents tds)
  ∧ (∀ e, local_to_epoch env 1734231958 = Raise e → documents ≠ [] →
       transform_documents cfg env documents = Raise e).
Proof.
  intros Hpull.
  destruct (pull_documents_inv fs documents lines Hpull) as (files & _ & Hall).
  assert (Hdocs : Forall (λ document, ∃ file content,
                    document = pulled_document file content) documents).
  { clear Hpull. induction Hall as [|file document fl dl (content & _ & ->) _ IH];
      constructor; eauto. }
  clear Hall Hpull. split.
  - intros createdAt Hclock.
    induction Hdocs as [|document rest (file & content & ->) _ (tds & Htds & Hrecs)].
    + exists []. split; [done|]. constructor.
    + pose proof (transform_document_ok cfg env (pulled_document file content)
                    (VStr file) (VStr ("https://mywebsite.com/files/" +:+ file))
                    (VStr "Sample Document") content (VStr "john.doe@acme.com")
                    (VStr "John Doe") (VStr "2024-12-15T03:05:58Z") createdAt
                    eq_refl eq_refl eq_refl eq_refl eq_refl eq_refl eq_refl) as Hrec.
      rewrite timestamp_of_pulled_document in Hrec. specialize (Hrec Hclock).
      eexists. rewrite transform_documents_cons, Hrec, Htds. split; [done|].
      constructor; [|done]. exists file, content. eexists.
      split; [done|]. split; [done|]. repeat split; by simplify_map_eq.
  - intros e Hclock Hne.
    destruct Hdocs as [|document rest (file & content & ->) _]; [done|].
    rewrite transform_documents_cons.
    assert (transform_document cfg env (pulled_document file content) = Raise e) as ->;
      [|done].
    unfold transform_document.
    rewrite (getitem_Some (pulled_document file content) "id" _ eq_refl),
      (getitem_Some (pulled_document file content) "url" _ eq_refl),
      (getitem_Some (pulled_document file content) "title" _ eq_refl),
      (getitem_Some (pulled_document file content) "binary_content" _ eq_refl),
      (getitem_Some (pulled_document file content) "authorEmail" _ eq_refl),
      (getitem_Some (pulled_document file content) "author" _ eq_refl),
      (getitem_Some (pulled_document file content) "date_created" _ eq_refl).
    rewrite !result_bind_ok, convert_raw_binary_ok, !result_bind_ok.
    by rewrite timestamp_of_pulled_document, Hclock.
Qed.

(** X21.  A listing names each entry once, so the records made from the
    pulled documents carry, as their [id], the names of the listing that
    end in [.pdf], in the listing's order and each once. *)
Theorem pulled_ids_are_distinct (cfg : config) (env : environment)
    (fs : filesystem) (files : list string)
    (documents : list (gmap string pyval)) (lines : list pull_log) (tds : list pyval) :
  listdir fs "sample-docs" = Some files →
  NoDup files →
  pull_documents fs = (Some documents, lines) →
  transform_documents cfg env documents = Ok tds →
  map (λ rec, subscript rec "id") tds
  = map (λ file, Ok (VStr file)) (filter (λ file, endswith file ".pdf" = true) files)
  ∧ NoDup (map (λ rec, subscript rec "id") tds).
Proof.
  intros Hlist Hnodup Hpull Htds.
  destruct (pull_documents_inv fs documents lines Hpull) as (files' & Hlist' & Hall).
  assert (files' = files) as -> by congruence.
  assert (Hids : map (λ rec, subscript rec "id") tds
                 = map (λ file, Ok (VStr file))
                     (filter (λ file, endswith file ".pdf" = true) files)).
  { rewrite (transform_documents_ids cfg env documents tds Htds).
    clear Htds Hpull.
    induction Hall as [|file document fl dl (content & _ & ->) _ IH]; [done|].
    cbn [map]. by rewrite IH. }
  split; [done|]. rewrite Hids.
  assert (Hinj : Inj (=) (=) (λ file : string, Ok (A := pyval) (VStr file)))
    by (by intros x y [= ->]).
  by apply (NoDup_fmap_2 _), NoDup_filter.
Qed.

(** ** The further statements on sample runs *)

(** Five items in batches of two: where each one is. *)
Lemma create_batches_position_witness :
  (∀ (p : nat) x, [1; 2; 3; 4; 5] !! p = Some x →
     ∃ batch, [[1; 2]; [3; 4]; [5]] !! (p / Z.to_nat 2)%nat = Some batch
              ∧ batch !! (p mod Z.to_nat 2)%nat = Some x)
  ∧ (∀ (k j : nat) batch x, [[1; 2]; [3; 4]; [5]] !! k = Some batch →
       batch !! j = Some x →
       (j < Z.to_nat 2)%nat ∧ [1; 2; 3; 4; 5] !! (k * Z.to_nat 2 + j)%nat = Some x)
  ∧ (∀ batch, batch ∈ [[1; 2]; [3; 4]; [5]] → batch ≠ []).
Proof.
  apply (create_batches_position [1; 2; 3; 4; 5] 2 [[1; 2]; [3; 4]; [5]]).
  - lia.
  - vm_compute. reflexivity.
Defined.

(** Three bytes, then two. *)
Lemma base64_text_of_chunks_witness :
  ∃ sa sb,
    convert_raw_binary_to_base64_string (VBytes (list_byte_of_string "%PD")) = Ok sa
    ∧ convert_raw_binary_to_base64_string (VBytes (list_byte_of_string "F-")) = Ok sb
    ∧ convert_raw_binary_to_base64_string
        (VBytes (list_byte_of_string "%PD" ++ list_byte_of_string "F-"))
      = Ok (sa +:+ sb)%string.
Proof.
  apply (base64_text_of_chunks (list_byte_of_string "%PD") (list_byte_of_string "F-")).
  reflexivity.
Defined.

(** A UTC offset after the ['Z']. *)
Lemma timestamp_rejects_trailing_text_witness :
  convert_timestamp_to_epoch_seconds (Sample.env_of [])
    (VStr (isoformat (mk_datetime 2024 12 15 3 5 58) +:+ "+00:00"))
  = Raise ValueError.
Proof.
  apply (timestamp_rejects_trailing_text (Sample.env_of [])
           (mk_datetime 2024 12 15 3 5 58) "+00:00").
  - reflexivity.
  - discriminate.
Defined.

(** The creation date of the example and the new year after it, on a
    machine set to UTC. *)
Lemma timestamps_keep_their_order_witness :
  datetime_before (mk_datetime 2024 12 15 3 5 58) (mk_datetime 2025 1 1 0 0 0)
  ↔ 1734231958 < 1735689600.
Proof.
  apply (timestamps_keep_their_order (SampleClock.env_utc []) 0
           "2024-12-15T03:05:58Z" "2025-1-1T0:0:0Z").
  - intros t u Hu. exact (mktime_fixed_offset 0 t u Hu).
  - vm_compute. reflexivity.
  - vm_compute. reflexivity.
  - vm_compute. reflexivity.
  - vm_compute. reflexivity.
Defined.

Lemma timestamp_range_witness :
  min_seconds ≤ 1734231958 + 0 ≤ max_seconds
  ∧ (-86400 < 0 < 86400 → - 2 ^ 53 < 1734231958 < 2 ^ 53).
Proof.
  apply (timestamp_range (SampleClock.env_utc []) 0 "2024-12-15T03:05:58Z" 1734231958).
  - intros x u Hu. exact (mktime_fixed_offset 0 x u Hu).
  - vm_compute. reflexivity.
Defined.

(** The record of the example's document. *)
Lemma transform_document_keys_witness :
  ∃ m body permissions author,
    SampleFiles.transformed "a.pdf" = VDict m ∧ dom m = record_keys
    ∧ m !! "body" = Some (VDict body)
    ∧ dom body = {[ "mimeType"; "binaryContent" ]}
    ∧ m !! "permissions" = Some (VDict permissions)
    ∧ dom permissions = {[ "allowAnonymousAccess" ]}
    ∧ m !! "author" = Some (VDict author)
    ∧ dom author = {[ "email"; "name" ]}.
Proof.
  apply (transform_document_keys Sample.cfg_bulk (Sample.env_of [])
           (Sample.raw_document "a.pdf")).
  vm_compute. reflexivity.
Defined.

(** [filename] is set by the pull cell and read by nothing. *)
Lemma transform_document_ignores_other_keys_witness :
  transform_document Sample.cfg_bulk (Sample.env_of [])
    (<["filename" := VNone]> (Sample.raw_document "a.pdf"))
  = transform_document Sample.cfg_bulk (Sample.env_of []) (Sample.raw_document "a.pdf")
  ∧ transform_document Sample.cfg_bulk (Sample.env_of [])
      (delete "filename" (Sample.raw_document "a.pdf"))
    = transform_document Sample.cfg_bulk (Sample.env_of []) (Sample.raw_document "a.pdf").
Proof.
  apply (transform_document_ignores_other_keys Sample.cfg_bulk (Sample.env_of [])
           (Sample.raw_document "a.pdf") "filename" VNone).
  apply (bool_decide_unpack _). vm_compute. reflexivity.
Defined.

Lemma transform_documents_keep_ids_witness :
  length [SampleFiles.transformed "a.pdf"; SampleFiles.transformed "b.pdf"]
  = length SampleFiles.documents
  ∧ map (λ rec, subscript rec "id")
      [SampleFiles.transformed "a.pdf"; SampleFiles.transformed "b.pdf"]
    = map (λ d, getitem d "id") SampleFiles.documents
  ∧ (NoDup (map (λ d, getitem d "id") SampleFiles.documents) →
     NoDup (map (λ rec, subscript rec "id")
              [SampleFiles.transformed "a.pdf"; SampleFiles.transformed "b.pdf"])).
Proof.
  apply (transform_documents_keep_ids Sample.cfg_bulk (Sample.env_of [])).
  vm_compute. reflexivity.
Defined.

(** Three records in pages of two, the second page answered 500. *)
Lemma bulk_run_log_witness :
  ∃ (k : nat) out,
    logs (push_documents Sample.cfg_bulk (Sample.env_of [200; 500])
            Sample.records3 world0).2
    = logs world0 ++ uploaded_lines (Z.of_nat 2) 0 k ++ out
    ∧ (((push_documents Sample.cfg_bulk (Sample.env_of [200; 500])
           Sample.records3 world0).1 = Ok ()
        ∧ k = 2%nat ∧ out = [])
       ∨ (∃ batch response,
            [[Sample.record "a.pdf"; Sample.record "b.pdf"]; [Sample.record "c.pdf"]]
              !! k = Some batch
            ∧ server (Sample.env_of [200; 500]) (length (sent world0) + k)
                (bulk_request Sample.cfg_bulk
                   (uuid_source (Sample.env_of [200; 500]) (uuid_calls world0))
                   (Z.of_nat 2) (Z.of_nat k) batch) = Ok response
            ∧ status_code response ≠ 200
            ∧ (push_documents Sample.cfg_bulk (Sample.env_of [200; 500])
                 Sample.records3 world0).1
              = Raise (RuntimeError "Failed to upload batch")
            ∧ out = [ErrorBatchFailed (Z.of_nat k + 1) (Z.of_nat 2)
                       (status_code response);
                     ErrorText (text response)])
       ∨ (∃ batch e,
            [[Sample.record "a.pdf"; Sample.record "b.pdf"]; [Sample.record "c.pdf"]]
              !! k = Some batch
            ∧ server (Sample.env_of [200; 500]) (length (sent world0) + k)
                (bulk_request Sample.cfg_bulk
                   (uuid_source (Sample.env_of [200; 500]) (uuid_calls world0))
                   (Z.of_nat 2) (Z.of_nat k) batch) = Raise e
            ∧ (push_documents Sample.cfg_bulk (Sample.env_of [200; 500])
                 Sample.records3 world0).1 = Raise e
            ∧ out = [])).
Proof.
  apply (bulk_run_log Sample.cfg_bulk (Sample.env_of [200; 500]) Sample.records3
           [[Sample.record "a.pdf"; Sample.record "b.pdf"]; [Sample.record "c.pdf"]]
           world0).
  - reflexivity.
  - vm_compute. reflexivity.
  - apply surjective_pairing.
Defined.

(** Three records one by one, the second answered 500. *)
Lemma individual_run_log_witness :
  ∃ (k : nat) out,
    logs (push_documents Sample.cfg_individual (Sample.env_of [200; 500])
            Sample.records3 world0).2
    = logs world0 ++ document_lines Sample.records3 k ++ out
    ∧ (((push_documents Sample.cfg_individual (Sample.env_of [200; 500])
           Sample.records3 world0).1 = Ok ()
        ∧ k = length Sample.records3 ∧ out = [])
       ∨ (∃ document response,
            Sample.records3 !! k = Some document
            ∧ server (Sample.env_of [200; 500]) (length (sent world0) + k)
                (document_request Sample.cfg_individual document) = Ok response
            ∧ status_code response ≠ 200
            ∧ (push_documents Sample.cfg_individual (Sample.env_of [200; 500])
                 Sample.records3 world0).1
              = Raise (RuntimeError "Failed to upload document")
            ∧ out = [ErrorDocumentFailed (logged_id document) (status_code response);
                     ErrorText (text response)])
       ∨ (∃ document e,
            Sample.records3 !! k = Some document
            ∧ server (Sample.env_of [200; 500]) (length (sent world0) + k)
                (document_request Sample.cfg_individual document) = Raise e
            ∧ (push_documents Sample.cfg_individual (Sample.env_of [200; 500])
                 Sample.records3 world0).1 = Raise e
            ∧ out = [])).
Proof.
  apply (individual_run_log Sample.cfg_individual (Sample.env_of [200; 500])
           Sample.records3 world0).
  - reflexivity.
  - vm_compute. reflexivity.
  - apply surjective_pairing.
Defined.

(** Five records in pages of two, every page accepted. *)
Lemma bulk_run_uploads_each_document_once_witness :
  ∃ reqs pages,
    sent (push_documents Sample.cfg_bulk (Sample.env_of []) Sample.records5 world0).2
    = sent world0 ++ reqs
    ∧ Forall2 (λ rq page, req_json rq !! "documents" = Some (VList page)) reqs pages
    ∧ concat pages = Sample.records5.
Proof.
  apply (bulk_run_uploads_each_document_once Sample.cfg_bulk (Sample.env_of [])
           Sample.records5 world0).
  - reflexivity.
  - reflexivity.
  - vm_compute. reflexivity.
Defined.

Lemma requests_use_the_configured_endpoint_witness :
  bulk_endpoint Sample.cfg_individual ≠ individual_endpoint Sample.cfg_individual
  ∧ (bulk_index_flag Sample.cfg_individual = false →
     uuid_calls (push_documents Sample.cfg_individual (Sample.env_of [])
                   Sample.records3 world0).2 = uuid_calls world0)
  ∧ ∃ reqs,
      sent (push_documents Sample.cfg_individual (Sample.env_of [])
              Sample.records3 world0).2 = sent world0 ++ reqs
      ∧ ∀ rq, rq ∈ reqs →
          req_url rq = (if bulk_index_flag Sample.cfg_individual
                        then bulk_endpoint Sample.cfg_individual
                        else individual_endpoint Sample.cfg_individual)
          ∧ req_headers rq !! "Authorization"
            = Some ("Bearer " +:+ GLEAN_API_KEY Sample.cfg_individual)
          ∧ req_headers rq !! "Content-Type" = Some "application/json"
          ∧ dom (req_headers rq) = {[ "Authorization"; "Content-Type" ]}
          ∧ (bulk_index_flag Sample.cfg_individual = false →
             ∃ document, document ∈ Sample.records3
                         ∧ req_json rq = {[ "document" := document ]}).
Proof.
  apply (requests_use_the_configured_endpoint Sample.cfg_individual (Sample.env_of [])
           Sample.records3 world0 _
           (push_documents Sample.cfg_individual (Sample.env_of [])
              Sample.records3 world0).1).
  apply surjective_pairing.
Defined.

(** A batch size of 0. *)
Lemma bulk_nonpositive_batch_size_witness :
  push_documents (mk_config "mydocumentportal" "policy" true 0 "acme" "token")
    (Sample.env_of []) Sample.records3 world0
  = (Raise ValueError, {| sent := []; logs := []; uuid_calls := 1 |}).
Proof.
  apply (bulk_nonpositive_batch_size
           (mk_config "mydocumentportal" "policy" true 0 "acme" "token")
           (Sample.env_of []) Sample.records3 world0).
  - reflexivity.
  - cbn. lia.
Defined.

(** A record with a title and no [id]. *)
Lemma individual_record_without_id_witness :
  push_documents Sample.cfg_individual (Sample.env_of [])
    [VDict (<["title" := VStr "Sample Document"]> ∅)] world0
  = (Raise (KeyError "id"),
     {| sent := sent world0
                ++ [document_request Sample.cfg_individual
                      (VDict (<["title" := VStr "Sample Document"]> ∅))];
        logs := logs world0; uuid_calls := uuid_calls world0 |}).
Proof.
  apply (individual_record_without_id Sample.cfg_individual (Sample.env_of [])
           (<["title" := VStr "Sample Document"]> ∅) [] world0
           {| status_code := 200; text := "" |}).
  - reflexivity.
  - reflexivity.
  - reflexivity.
Defined.

(** A directory of two PDF files and a text file. *)
Lemma pull_selects_pdf_files_witness :
  (∀ file, file ∈ filter (λ file, endswith file ".pdf" = true) SampleFiles.listing ↔
           file ∈ SampleFiles.listing ∧ ∃ stem, file = (stem +:+ ".pdf")%string)
  ∧ (is_Some (pull_documents SampleFiles.fs).1 ↔
     ∀ file, file ∈ SampleFiles.listing → endswith file ".pdf" = true →
             is_Some (read_binary SampleFiles.fs ("sample-docs/" +:+ file)))
  ∧ (∀ documents, (pull_documents SampleFiles.fs).1 = Some documents →
       (pull_documents SampleFiles.fs).2 = [InfoPulled (Z.of_nat (length documents))]
       ∧ Forall2 (pulled_from SampleFiles.fs)
           (filter (λ file, endswith file ".pdf" = true) SampleFiles.listing) documents)
  ∧ ((pull_documents SampleFiles.fs).1 = None → (pull_documents SampleFiles.fs).2 = []).
Proof.
  apply (pull_selects_pdf_files SampleFiles.fs SampleFiles.listing).
  reflexivity.
Defined.

Lemma pulled_documents_transform_witness :
  (∀ createdAt, local_to_epoch (Sample.env_of []) 1734231958 = Ok createdAt →
     ∃ tds,
       transform_documents Sample.cfg_bulk (Sample.env_of []) SampleFiles.documents
       = Ok tds
       ∧ Forall2 (λ document rec,
           ∃ file content m,
             document = pulled_document file content
             ∧ rec = VDict m
             ∧ m !! "id" = Some (VStr file)
             ∧ m !! "viewURL" = Some (VStr ("https://mywebsite.com/files/" +:+ file))
             ∧ m !! "title" = Some (VStr "Sample Document")
             ∧ m !! "body"
                 = Some (VDict (<["mimeType" := VStr "application/pdf"]> (
                                <["binaryContent" :=
                                    VStr (string_of_list_byte (b64encode content))]> ∅)))
             ∧ m !! "createdAt" = Some (VInt createdAt))
           SampleFiles.documents tds)
  ∧ (∀ e, local_to_epoch (Sample.env_of []) 1734231958 = Raise e →
       SampleFiles.documents ≠ [] →
       transform_documents Sample.cfg_bulk (Sample.env_of []) SampleFiles.documents
       = Raise e).
Proof.
  apply (pulled_documents_transform Sample.cfg_bulk (Sample.env_of []) SampleFiles.fs
           SampleFiles.documents [InfoPulled 2]).
  vm_compute. reflexivity.
Defined.

Lemma pulled_ids_are_distinct_witness :
  map (λ rec, subscript rec "id")
    [SampleFiles.transformed "a.pdf"; SampleFiles.transformed "b.pdf"]
  = map (λ file, Ok (VStr file))
      (filter (λ file, endswith file ".pdf" = true) SampleFiles.listing)
  ∧ NoDup (map (λ rec, subscript rec "id")
             [SampleFiles.transformed "a.pdf"; SampleFiles.transformed "b.pdf"]).
Proof.
  apply (pulled_ids_are_distinct Sample.cfg_bulk (Sample.env_of []) SampleFiles.fs
           SampleFiles.listing SampleFiles.documents [InfoPulled 2]).
  - reflexivity.
  - apply (bool_decide_unpack _). vm_compute. reflexivity.
  - vm_compute. reflexivity.
  - vm_compute. reflexivity.
Defined.
